(** * Membership validation of feeds.json (validate-members.py)

    A shallow embedding of the script that reconciles the feed list with
    the ~ubuntumembers team on Launchpad, and the properties its
    specification states about it.

    Python values that come out of [json.load] are modelled by the
    inductive type [json]; Python exceptions by the error type [exn];
    the file system, the calls made to Launchpad and the lines printed
    by [set_github_output] by the record [World], threaded through a
    state-and-exception monad [M].  Console narration ([print] of progress
    messages) has no influence on any result and is left out. *)

From stdpp Require Import gmap strings list sorting pretty.
From Stdlib Require Import ZArith.

#[local] Set Warnings "-register-all,-clear-no-such-hyp".

(** ** Values loaded from the data file *)

(** What [json.load] returns: [None], [bool], [int], [str], [list] and
    [dict] (insertion-ordered, keyed by strings).  Numbers with a fraction
    or an exponent are outside this model. *)
Inductive json : Type :=
  | JNull
  | JBool (b : bool)
  | JInt (z : Z)
  | JStr (s : string)
  | JArr (l : list json)
  | JObj (d : list (string * json)).

(** [d.get(k)] on an insertion-ordered dict. *)
Fixpoint dict_get (k : string) (d : list (string * json)) : option json :=
  match d with
  | [] => None
  | (k', v) :: d' => if decide (k' = k) then Some v else dict_get k d'
  end.

(** [d[k] = v]: an existing key keeps its position, a new key goes last. *)
Fixpoint dict_set (k : string) (v : json) (d : list (string * json))
  : list (string * json) :=
  match d with
  | [] => [(k, v)]
  | (k', v') :: d' =>
      if decide (k' = k) then (k', v) :: d' else (k', v') :: dict_set k v d'
  end.

(** ** Exceptions and the two monads *)

Inductive exn : Type :=
  | AttributeError
  | TypeError
  | KeyError
  | FileNotFoundError
  | JSONDecodeError
  | OSError.

Inductive res (A : Type) : Type :=
  | Ok (a : A)
  | Raise (e : exn).
Arguments Ok {A} a.
Arguments Raise {A} e.

Definition res_bind {A B} (r : res A) (k : A → res B) : res B :=
  match r with
  | Ok a => k a
  | Raise e => Raise e
  end.

Notation "'let?' x ':=' r 'in' k" := (res_bind r (λ x, k))
  (at level 10, x name, r at level 100, k at level 200, only parsing).

(** The remote directory as the script uses it: the participants of the
    ~ubuntumembers team ([team.participants], each entry's [name]) and the
    entity lookup [launchpad.people[nick]], which returns a person, raises
    [KeyError], or raises something else. *)
Inductive lookup_result : Type :=
  | Found
  | NotFound
  | Failed.

Record Launchpad : Type := mkLaunchpad {
  participants : list string;
  people : string → lookup_result
}.

(** The part of the outside world the script reads and writes.
    [disk_quota] is the number of bytes the file system still accepts
    ([None]: no limit); a write that exceeds it stores the bytes that
    fit and raises [OSError].  [lookups] records the identifiers
    [check_user_exists] asked [launchpad.people] for, in order; the one
    fetch of the team itself is not recorded.  [stdout] keeps the lines
    [set_github_output] prints. *)
Record World : Type := mkWorld {
  files : gmap string string;
  disk_quota : option nat;
  GITHUB_OUTPUT : option string;
  lookups : list string;
  stdout : list string
}.

Definition M (A : Type) : Type := World → res A * World.

Definition ret {A} (a : A) : M A := λ w, (Ok a, w).
Definition raise {A} (e : exn) : M A := λ w, (Raise e, w).
Definition lift {A} (r : res A) : M A := λ w, (r, w).
Definition bind {A B} (m : M A) (k : A → M B) : M B :=
  λ w, match m w with
       | (Ok a, w') => k a w'
       | (Raise e, w') => (Raise e, w')
       end.

Notation "'let*' x ':=' m 'in' k" := (bind m (λ x, k))
  (at level 10, x name, m at level 100, k at level 200, only parsing).
Notation "m1 '>>' m2" := (bind m1 (λ _, m2))
  (at level 100, m2 at level 200, right associativity, only parsing).

(** ** Built-in operations of the host language *)

(** [str.lower], [json.loads], [json.dumps(_, indent=2, ensure_ascii=False)],
    [str(_)] as an f-string applies it, and the clock reading
    [datetime.now(timezone.utc).strftime(...)] belong to the Python runtime,
    not to the script: the development is parametric in them. *)
Class Runtime : Type := {
  lower : string → string;
  json_loads : string → option json;
  json_dumps : json → string;
  py_str : json → string;
  utc_now : string
}.

(** [bool(v)] *)
Definition py_truthy (v : json) : bool :=
  match v with
  | JNull => false
  | JBool b => b
  | JInt z => bool_decide (z ≠ 0%Z)
  | JStr s => bool_decide (s ≠ "")
  | JArr l => bool_decide (l ≠ [])
  | JObj d => bool_decide (d ≠ [])
  end.

Fixpoint str_chars (s : string) : list json :=
  match s with
  | EmptyString => []
  | String c s' => JStr (String c EmptyString) :: str_chars s'
  end.

(** [iter(v)]: a list yields its items, a dict its keys, a str its
    characters; the other values are not iterable. *)
Definition py_iter (v : json) : res (list json) :=
  match v with
  | JArr l => Ok l
  | JObj d => Ok (JStr <$> d.*1)
  | JStr s => Ok (str_chars s)
  | _ => Raise TypeError
  end.

(** [len(v)] *)
Definition py_len (v : json) : res nat :=
  match v with
  | JArr l => Ok (length l)
  | JObj d => Ok (length d)
  | JStr s => Ok (String.length s)
  | _ => Raise TypeError
  end.

(** [v.get(k, default)]: only a dict has the method. *)
Definition py_get (v : json) (k : string) (default : json) : res json :=
  match v with
  | JObj d => Ok (from_option id default (dict_get k d))
  | _ => Raise AttributeError
  end.

(** [v[k]] with a string key: [KeyError] on a dict without it,
    [TypeError] on every other value. *)
Definition py_getitem (v : json) (k : string) : res json :=
  match v with
  | JObj d => match dict_get k d with
              | Some x => Ok x
              | None => Raise KeyError
              end
  | _ => Raise TypeError
  end.

(** [v in s] for a set [s] of strings: lists and dicts are unhashable. *)
Definition py_in (v : json) (s : gset string) : res bool :=
  match v with
  | JStr x => Ok (bool_decide (x ∈ s))
  | JArr _ | JObj _ => Raise TypeError
  | _ => Ok false
  end.

(** [{**v, k: x}] *)
Definition py_with (v : json) (k : string) (x : json) : res json :=
  match v with
  | JObj d => Ok (JObj (dict_set k x d))
  | _ => Raise TypeError
  end.

(** ** File operations *)

Definition set_files (f : gmap string string) (w : World) : World :=
  mkWorld f (disk_quota w) (GITHUB_OUTPUT w) (lookups w) (stdout w).
Definition set_quota (q : option nat) (w : World) : World :=
  mkWorld (files w) q (GITHUB_OUTPUT w) (lookups w) (stdout w).
Definition log_lookup (nick : string) (w : World) : World :=
  mkWorld (files w) (disk_quota w) (GITHUB_OUTPUT w) (lookups w ++ [nick])
          (stdout w).
Definition log_stdout (line : string) (w : World) : World :=
  mkWorld (files w) (disk_quota w) (GITHUB_OUTPUT w) (lookups w)
          (stdout w ++ [line]).

(** [open(path, "r").read()] *)
Definition fs_read (path : string) : M string :=
  λ w, match files w !! path with
       | Some c => (Ok c, w)
       | None => (Raise FileNotFoundError, w)
       end.

(** [open(path, "w")]: the file exists and is empty from here on.  The
    files live in one flat name space, and a path can always be opened:
    the only failure of the model is a write that the device refuses. *)
Definition fs_open_w (path : string) : M unit :=
  λ w, (Ok tt, set_files (<[path := ""]> (files w)) w).

(** [open(path, "a")]: the file is created when missing. *)
Definition fs_open_a (path : string) : M unit :=
  λ w, (Ok tt, set_files (<[path := default "" (files w !! path)]> (files w)) w).

Definition fs_append (path data : string) (w : World) : World :=
  set_files (<[path := default "" (files w !! path) +:+ data]> (files w)) w.

(** [f.write(data)] on a file opened for writing or appending. *)
Definition fs_write (path data : string) : M unit :=
  λ w, match disk_quota w with
       | None => (Ok tt, fs_append path data w)
       | Some q =>
           if decide (String.length data ≤ q)
           then (Ok tt, set_quota (Some (q - String.length data))
                                  (fs_append path data w))
           else (Raise OSError,
                 set_quota (Some 0) (fs_append path (String.substring 0 q data) w))
       end.

(** ** The script *)

Definition FEEDS_FILE : string := "feeds.json".
Definition PR_BODY_FILE : string := "pr-body.md".

(** Nicks that are allowed even if not direct Ubuntu Members. *)
Definition ALLOWED_NICKS : list string := ["uwn"].

(** The string ["\n"]. *)
Definition newline : string := String (Ascii.ascii_of_nat 10) "".

(** The four results of a check, as [check_single_nick] names them. *)
Inductive outcome : Type :=
  | member
  | not_member
  | not_found
  | error.

Definition outcome_name (o : outcome) : string :=
  match o with
  | member => "member"
  | not_member => "not_member"
  | not_found => "not_found"
  | error => "error"
  end.

(** The three sets the validation loop fills (original case). *)
Record tally : Type := mkTally {
  non_member_nicks : gset string;
  not_found_nicks : gset string;
  error_nicks : gset string
}.

(** The command line after [parse_args]; [check] is empty when the option
    is not given. *)
Record Args : Type := mkArgs {
  dry_run : bool;
  check : list string;
  verbose : bool
}.

(** [v == s] for a string [s]. *)
Definition py_eq_str (v : json) (s : string) : bool :=
  match v with
  | JStr x => bool_decide (x = s)
  | _ => false
  end.

(** [os.environ.get("GITHUB_OUTPUT")] *)
Definition getenv_GITHUB_OUTPUT : M (option string) :=
  λ w, (Ok (GITHUB_OUTPUT w), w).

(** [print(line)], kept for the lines of [set_github_output]. *)
Definition print (line : string) : M unit :=
  λ w, (Ok tt, log_stdout line w).

Section Script.
Context `{rt : Runtime}.

Definition load_feeds : M json :=
  let* text := fs_read FEEDS_FILE in
  match json_loads text with
  | Some v => ret v
  | None => raise JSONDecodeError
  end.

Definition save_feeds (feeds : json) : M unit :=
  fs_open_w FEEDS_FILE >>
  fs_write FEEDS_FILE (json_dumps feeds) >>
  fs_write FEEDS_FILE newline.

(** [{a.lower() for a in ALLOWED_NICKS}] *)
Definition allowed_lower : gset string := list_to_set (lower <$> ALLOWED_NICKS).

(** One round of the loop of [get_unique_nicks].  In
    [nick and nick.lower() not in ...] a falsy value ends the test, a
    string is lowered, and a truthy value of another type has no method
    [lower]. *)
Definition add_unique_nick (feed : json) (nicks : gset string)
  : res (gset string) :=
  let? nick := py_get feed "nick" (JStr "") in
  match nick with
  | JStr s =>
      if bool_decide (s ≠ "") && bool_decide (lower s ∉ allowed_lower)
      then Ok (nicks ∪ {[s]})
      else Ok nicks
  | _ => if py_truthy nick then Raise AttributeError else Ok nicks
  end.

Fixpoint get_unique_nicks_loop (feeds : list json) (nicks : gset string)
  : res (gset string) :=
  match feeds with
  | [] => Ok nicks
  | feed :: feeds' =>
      let? nicks' := add_unique_nick feed nicks in
      get_unique_nicks_loop feeds' nicks'
  end.

Definition get_unique_nicks (feeds : json) : res (gset string) :=
  let? items := py_iter feeds in
  get_unique_nicks_loop items ∅.

(** The names are taken as Launchpad gives them. *)
Definition get_ubuntu_members (launchpad : Launchpad) : M (gset string) :=
  ret (list_to_set (participants launchpad)).

(** [(True, person)], [(False, None)] or [(None, None)]; only the first
    component is ever tested. *)
Definition check_user_exists (launchpad : Launchpad) (nick : string)
  : M (option bool) :=
  λ w, let w' := log_lookup nick w in
       match people launchpad nick with
       | Found => (Ok (Some true), w')
       | NotFound => (Ok (Some false), w')
       | Failed => (Ok None, w')
       end.

Definition check_single_nick (launchpad : Launchpad) (nick : string)
    (ubuntu_members : gset string) : M outcome :=
  let lp_nick := lower nick in
  if bool_decide (lp_nick ∈ ubuntu_members) then ret member
  else
    let* exists_ := check_user_exists launchpad lp_nick in
    match exists_ with
    | None => ret error
    | Some false => ret not_found
    | Some true => ret not_member
    end.

(** The loop [for nick in sorted(nicks_to_check)]. *)
Fixpoint classify_loop (launchpad : Launchpad) (ubuntu_members : gset string)
    (nicks : list string) (t : tally) : M tally :=
  match nicks with
  | [] => ret t
  | nick :: nicks' =>
      let lp_nick := lower nick in
      if bool_decide (lp_nick ∈ ubuntu_members)
      then classify_loop launchpad ubuntu_members nicks' t
      else
        let* exists_ := check_user_exists launchpad lp_nick in
        match exists_ with
        | None =>
            classify_loop launchpad ubuntu_members nicks'
              (mkTally (non_member_nicks t) (not_found_nicks t)
                       (error_nicks t ∪ {[nick]}))
        | Some true =>
            classify_loop launchpad ubuntu_members nicks'
              (mkTally (non_member_nicks t ∪ {[nick]}) (not_found_nicks t)
                       (error_nicks t))
        | Some false =>
            classify_loop launchpad ubuntu_members nicks'
              (mkTally (non_member_nicks t) (not_found_nicks t ∪ {[nick]})
                       (error_nicks t))
        end
  end.

(** The loop [for feed in feeds] that fills [valid_feeds] and
    [removed_entries]. *)
Fixpoint filter_loop (feeds : list json) (invalid_nicks not_found : gset string)
    (valid_feeds removed_entries : list json) : res (list json * list json) :=
  match feeds with
  | [] => Ok (valid_feeds, removed_entries)
  | feed :: feeds' =>
      let? nick := py_get feed "nick" (JStr "") in
      let? invalid := py_in nick invalid_nicks in
      if invalid then
        let? nf := py_in nick not_found in
        let? entry :=
          py_with feed "reason"
            (JStr (if nf then "not_found" else "not_member")) in
        filter_loop feeds' invalid_nicks not_found valid_feeds
                    (removed_entries ++ [entry])
      else
        filter_loop feeds' invalid_nicks not_found (valid_feeds ++ [feed])
                    removed_entries
  end.

Definition validate_memberships (feeds : json) (launchpad : Launchpad)
  : M (list json * list json * gset string) :=
  let* nicks_to_check := lift (get_unique_nicks feeds) in
  let* ubuntu_members := get_ubuntu_members launchpad in
  let* t :=
    classify_loop launchpad ubuntu_members
      (merge_sort String.le (elements nicks_to_check))
      (mkTally ∅ ∅ ∅) in
  let invalid_nicks := non_member_nicks t ∪ not_found_nicks t in
  let* items := lift (py_iter feeds) in
  let* parts := lift (filter_loop items invalid_nicks (not_found_nicks t) [] []) in
  ret (parts.1, parts.2, not_found_nicks t).

(** One table row of the report; every field is read with
    [entry[...]]. *)
Definition pr_row (entry : json) : res string :=
  let? nick := py_getitem entry "nick" in
  let? name := py_getitem entry "name" in
  let? url := py_getitem entry "url" in
  let? tag := py_getitem entry "reason" in
  let reason :=
    if py_eq_str tag "not_found" then "User not found" else "Not a member" in
  Ok ("| " +:+ py_str name +:+ " | " +:+ py_str nick +:+ " | " +:+ reason
      +:+ " | " +:+ py_str url +:+ " |").

Fixpoint pr_rows (removed_entries : list json) (lines : list string)
  : res (list string) :=
  match removed_entries with
  | [] => Ok lines
  | entry :: rest =>
      let? row := pr_row entry in
      pr_rows rest (lines ++ [row])
  end.

Definition generate_pr_body (removed_entries : list json)
    (not_found : gset string) : res string :=
  let now := utc_now in
  let? lines :=
    pr_rows removed_entries
      [ "## Feeds Removed";
        "";
        "The following feeds have been removed because the associated";
        "Launchpad user is no longer an Ubuntu Member or was not found:";
        "";
        "| Name | Nick | Reason | Feed URL |";
        "|------|------|--------|----------|" ] in
  Ok (String.concat newline
        (lines ++
         [ "";
           "---";
           "Validated against [~ubuntumembers](https://launchpad.net/~ubuntumembers) on "
             +:+ now ])).

Definition set_github_output (name value : string) : M unit :=
  let* github_output := getenv_GITHUB_OUTPUT in
  (match github_output with
   | Some path =>
       if bool_decide (path ≠ "")
       then fs_open_a path >>
            fs_write path (name +:+ "=" +:+ value +:+ newline)
       else ret tt
   | None => ret tt
   end) >>
  print ("::set-output name=" +:+ name +:+ "::" +:+ value).

(** The loop of [main] that lists the feeds to remove: each round reads
    [entry["reason"]], [entry['name']] and [entry['nick']]. *)
Fixpoint list_removed (removed_entries : list json) : res unit :=
  match removed_entries with
  | [] => Ok tt
  | entry :: rest =>
      let? _ := py_getitem entry "reason" in
      let? _ := py_getitem entry "name" in
      let? _ := py_getitem entry "nick" in
      list_removed rest
  end.

Fixpoint check_each (launchpad : Launchpad) (nicks : list string)
    (ubuntu_members : gset string) : M unit :=
  match nicks with
  | [] => ret tt
  | nick :: rest =>
      check_single_nick launchpad nick ubuntu_members >>
      check_each launchpad rest ubuntu_members
  end.

(** [main], from the parsed arguments on; the result is the exit
    status. *)
Definition main (args : Args) (launchpad : Launchpad) : M nat :=
  match check args with
  | _ :: _ =>
      let* ubuntu_members := get_ubuntu_members launchpad in
      check_each launchpad (check args) ubuntu_members >>
      ret 0
  | [] =>
      let* feeds := load_feeds in
      let* _ := lift (py_len feeds) in
      let* r := validate_memberships feeds launchpad in
      let valid_feeds := r.1.1 in
      let removed_entries := r.1.2 in
      let not_found := r.2 in
      match removed_entries with
      | [] =>
          set_github_output "has_changes" "false" >>
          ret 0
      | _ :: _ =>
          lift (list_removed removed_entries) >>
          if dry_run args then
            set_github_output "has_changes" "false" >>
            ret 0
          else
            save_feeds (JArr valid_feeds) >>
            let* pr_body := lift (generate_pr_body removed_entries not_found) in
            fs_open_w PR_BODY_FILE >>
            fs_write PR_BODY_FILE pr_body >>
            set_github_output "has_changes" "true" >>
            ret 0
      end
  end.

End Script.

(** ** A reference runtime *)

(** An executable instance of [Runtime], used to run the script on
    concrete inputs: ASCII case folding, a printer that lays a value out
    as [json.dumps(_, indent=2, ensure_ascii=False)] does, and a parser for
    the JSON grammar without fractions and exponents (the model of the
    values has no floats).  A
    statement below is about this runtime only where it names it. *)
Module Reference.

Definition ascii_lower (c : Ascii.ascii) : Ascii.ascii :=
  let n := Ascii.nat_of_ascii c in
  if bool_decide (65 ≤ n ≤ 90) then Ascii.ascii_of_nat (n + 32) else c.

Fixpoint str_lower (s : string) : string :=
  match s with
  | EmptyString => EmptyString
  | String c s' => String (ascii_lower c) (str_lower s')
  end.

Definition dquote : Ascii.ascii := Ascii.ascii_of_nat 34.
Definition backslash : Ascii.ascii := Ascii.ascii_of_nat 92.

Definition hex_digit (n : nat) : Ascii.ascii :=
  Ascii.ascii_of_nat (if bool_decide (n < 10) then 48 + n else 87 + n).

(** The replacement of one character inside a string literal. *)
Definition escape_char (c : Ascii.ascii) : string :=
  let n := Ascii.nat_of_ascii c in
  if bool_decide (n = 34) then String backslash (String dquote "")
  else if bool_decide (n = 92) then String backslash (String backslash "")
  else if bool_decide (n = 10) then String backslash "n"
  else if bool_decide (n = 13) then String backslash "r"
  else if bool_decide (n = 9) then String backslash "t"
  else if bool_decide (n = 8) then String backslash "b"
  else if bool_decide (n = 12) then String backslash "f"
  else if bool_decide (n < 32)
       then String backslash
              ("u00" +:+ String (hex_digit (n / 16))
                                (String (hex_digit (n mod 16)) ""))
  else String c "".

Fixpoint escape (s : string) : string :=
  match s with
  | EmptyString => EmptyString
  | String c s' => escape_char c +:+ escape s'
  end.

Definition quote (s : string) : string :=
  String dquote (escape s +:+ String dquote "").

Fixpoint spaces (n : nat) : string :=
  match n with
  | O => ""
  | S n' => " " +:+ spaces n'
  end.

Definition nl (level : nat) : string := newline +:+ spaces (2 * level).

(** The texts of the items after the first, each behind its separator,
    and the closing bracket on a line of its own; the encoder yields the
    text of a list or dict in this order. *)
Fixpoint items_tail (level : nat) (close : string) (texts : list string)
  : string :=
  match texts with
  | [] => nl level +:+ close
  | text :: texts' =>
      "," +:+ nl (S level) +:+ text +:+ items_tail level close texts'
  end.

Definition member_text (key text : string) : string :=
  quote key +:+ ": " +:+ text.

Fixpoint dumps_at (level : nat) (v : json) : string :=
  match v with
  | JNull => "null"
  | JBool true => "true"
  | JBool false => "false"
  | JInt z => pretty z
  | JStr s => quote s
  | JArr [] => "[]"
  | JArr (x :: l) =>
      "[" +:+ nl (S level) +:+ dumps_at (S level) x
      +:+ items_tail level "]" (dumps_at (S level) <$> l)
  | JObj [] => "{}"
  | JObj (kv :: d) =>
      "{" +:+ nl (S level) +:+ member_text kv.1 (dumps_at (S level) kv.2)
      +:+ items_tail level "}"
            ((λ kv, member_text kv.1 (dumps_at (S level) kv.2)) <$> d)
  end.

Definition dumps (v : json) : string := dumps_at 0 v.

Definition is_ws (c : Ascii.ascii) : bool :=
  let n := Ascii.nat_of_ascii c in
  bool_decide (n = 32 ∨ n = 9 ∨ n = 10 ∨ n = 13).

Fixpoint skip_ws (s : string) : string :=
  match s with
  | String c s' => if is_ws c then skip_ws s' else s
  | EmptyString => s
  end.

Definition hex_value (c : Ascii.ascii) : option nat :=
  let n := Ascii.nat_of_ascii c in
  if bool_decide (48 ≤ n ≤ 57) then Some (n - 48)
  else if bool_decide (97 ≤ n ≤ 102) then Some (n - 87)
  else if bool_decide (65 ≤ n ≤ 70) then Some (n - 55)
  else None.

Definition unescape (e : Ascii.ascii) : option Ascii.ascii :=
  let n := Ascii.nat_of_ascii e in
  if bool_decide (n = 34 ∨ n = 92 ∨ n = 47) then Some e
  else if bool_decide (n = 110) then Some (Ascii.ascii_of_nat 10)
  else if bool_decide (n = 114) then Some (Ascii.ascii_of_nat 13)
  else if bool_decide (n = 116) then Some (Ascii.ascii_of_nat 9)
  else if bool_decide (n = 98) then Some (Ascii.ascii_of_nat 8)
  else if bool_decide (n = 102) then Some (Ascii.ascii_of_nat 12)
  else None.

(** The code point of a [\u] escape, and its bytes in UTF-8. *)
Definition hex4 (h1 h2 h3 h4 : Ascii.ascii) : option N :=
  match hex_value h1, hex_value h2, hex_value h3, hex_value h4 with
  | Some a, Some b, Some c, Some d =>
      Some (4096 * N.of_nat a + 256 * N.of_nat b + 16 * N.of_nat c + N.of_nat d)%N
  | _, _, _, _ => None
  end.

Definition utf8 (cp : N) : string :=
  let byte (n : N) := Ascii.ascii_of_N n in
  if bool_decide (cp < 128)%N then String (byte cp) ""
  else if bool_decide (cp < 2048)%N then
    String (byte (192 + cp / 64)%N) (String (byte (128 + cp mod 64)%N) "")
  else if bool_decide (cp < 65536)%N then
    String (byte (224 + cp / 4096)%N)
      (String (byte (128 + (cp / 64) mod 64)%N)
         (String (byte (128 + cp mod 64)%N) ""))
  else
    String (byte (240 + cp / 262144)%N)
      (String (byte (128 + (cp / 4096) mod 64)%N)
         (String (byte (128 + (cp / 64) mod 64)%N)
            (String (byte (128 + cp mod 64)%N) ""))).

(** The characters of a string literal after its opening quote, and
    the text after its closing quote.  A [\u] escape gives the UTF-8
    bytes of its code point, two escapes of a surrogate pair those of
    the pair; a surrogate on its own, which has no UTF-8 form, is
    refused. *)
Fixpoint parse_chars (s : string) : option (string * string) :=
  match s with
  | EmptyString => None
  | String c s' =>
      if bool_decide (c = dquote) then Some (EmptyString, s')
      else if bool_decide (c = backslash) then
        match s' with
        | String e s'' =>
            if bool_decide (Ascii.nat_of_ascii e = 117) then
              match s'' with
              | String h1 (String h2 (String h3 (String h4 s3))) =>
                  match hex4 h1 h2 h3 h4 with
                  | Some cp =>
                      if bool_decide (cp < 128)%N then
                        prod_map (String (Ascii.ascii_of_N cp)) id
                          <$> parse_chars s3
                      else if bool_decide (cp < 55296 ∨ 57344 ≤ cp)%N then
                        prod_map (String.append (utf8 cp)) id <$> parse_chars s3
                      else if bool_decide (cp < 56320)%N then
                        match s3 with
                        | String b' (String u' (String g1 (String g2
                            (String g3 (String g4 s4))))) =>
                            match hex4 g1 g2 g3 g4 with
                            | Some low =>
                                if bool_decide (b' = backslash)
                                   && bool_decide (Ascii.nat_of_ascii u' = 117)
                                   && bool_decide (56320 ≤ low < 57344)%N
                                then
                                  prod_map
                                    (String.append
                                       (utf8 (65536 + (cp - 55296) * 1024
                                              + (low - 56320))%N)) id
                                    <$> parse_chars s4
                                else None
                            | None => None
                            end
                        | _ => None
                        end
                      else None
                  | None => None
                  end
              | _ => None
              end
            else
              match unescape e with
              | Some c' => prod_map (String c') id <$> parse_chars s''
              | None => None
              end
        | EmptyString => None
        end
      else if bool_decide (Ascii.nat_of_ascii c < 32) then None
      else prod_map (String c) id <$> parse_chars s'
  end.

Definition digit_value (c : Ascii.ascii) : option Z :=
  let n := Ascii.nat_of_ascii c in
  if bool_decide (48 ≤ n ≤ 57) then Some (Z.of_nat (n - 48)) else None.

Fixpoint parse_digits (s : string) (acc : Z) : Z * string :=
  match s with
  | String c s' =>
      match digit_value c with
      | Some d => parse_digits s' (10 * acc + d)
      | None => (acc, s)
      end
  | EmptyString => (acc, s)
  end.

(** An integer literal without sign: no leading zero, and no fraction
    or exponent after it. *)
Definition parse_nat (s : string) : option (Z * string) :=
  match s with
  | String c s' =>
      match digit_value c with
      | Some d =>
          let r := if bool_decide (d = 0%Z) then (0%Z, s') else parse_digits s' d in
          match r.2 with
          | String c' _ =>
              let n := Ascii.nat_of_ascii c' in
              if bool_decide (48 ≤ n ≤ 57 ∨ n = 46 ∨ n = 101 ∨ n = 69)
              then None else Some r
          | EmptyString => Some r
          end
      | None => None
      end
  | EmptyString => None
  end.

Definition expect (word : string) (s : string) : option string :=
  if String.prefix word s
  then Some (String.substring (String.length word)
               (String.length s - String.length word) s)
  else None.

Fixpoint parse_value (fuel : nat) (s : string) : option (json * string) :=
  match fuel with
  | O => None
  | S fuel' =>
      match skip_ws s with
      | EmptyString => None
      | String c s' =>
          let n := Ascii.nat_of_ascii c in
          if bool_decide (n = 110) then pair JNull <$> expect "ull" s'
          else if bool_decide (n = 116) then pair (JBool true) <$> expect "rue" s'
          else if bool_decide (n = 102) then pair (JBool false) <$> expect "alse" s'
          else if bool_decide (n = 34) then prod_map JStr id <$> parse_chars s'
          else if bool_decide (n = 45) then prod_map (λ z, JInt (- z)) id <$> parse_nat s'
          else if bool_decide (n = 91) then
            match skip_ws s' with
            | String c' s'' =>
                if bool_decide (Ascii.nat_of_ascii c' = 93) then Some (JArr [], s'')
                else parse_elements fuel' s' []
            | EmptyString => None
            end
          else if bool_decide (n = 123) then
            match skip_ws s' with
            | String c' s'' =>
                if bool_decide (Ascii.nat_of_ascii c' = 125) then Some (JObj [], s'')
                else parse_members fuel' s' []
            | EmptyString => None
            end
          else prod_map JInt id <$> parse_nat (String c s')
      end
  end
with parse_elements (fuel : nat) (s : string) (acc : list json)
  : option (json * string) :=
  match fuel with
  | O => None
  | S fuel' =>
      match parse_value fuel' s with
      | Some (v, rest) =>
          match skip_ws rest with
          | String c rest' =>
              let n := Ascii.nat_of_ascii c in
              if bool_decide (n = 44) then parse_elements fuel' rest' (acc ++ [v])
              else if bool_decide (n = 93) then Some (JArr (acc ++ [v]), rest')
              else None
          | EmptyString => None
          end
      | None => None
      end
  end
with parse_members (fuel : nat) (s : string) (acc : list (string * json))
  : option (json * string) :=
  match fuel with
  | O => None
  | S fuel' =>
      match skip_ws s with
      | String q s1 =>
          if bool_decide (Ascii.nat_of_ascii q = 34) then
            match parse_chars s1 with
            | Some (key, s2) =>
                match skip_ws s2 with
                | String colon s3 =>
                    if bool_decide (Ascii.nat_of_ascii colon = 58) then
                      match parse_value fuel' s3 with
                      | Some (v, rest) =>
                          match skip_ws rest with
                          | String c rest' =>
                              let n := Ascii.nat_of_ascii c in
                              if bool_decide (n = 44)
                              then parse_members fuel' rest' (dict_set key v acc)
                              else if bool_decide (n = 125)
                              then Some (JObj (dict_set key v acc), rest')
                              else None
                          | EmptyString => None
                          end
                      | None => None
                      end
                    else None
                | EmptyString => None
                end
            | None => None
            end
          else None
      | EmptyString => None
      end
  end.

(** The whole text is one value, with white space around it. *)
Definition loads (s : string) : option json :=
  match parse_value (2 * String.length s + 2) s with
  | Some (v, rest) =>
      match skip_ws rest with
      | EmptyString => Some v
      | String _ _ => None
      end
  | None => None
  end.

(** [str(v)] for the scalars; a list or a dict is rendered as its
    JSON text, which is not what Python prints for it. *)
Definition str (v : json) : string :=
  match v with
  | JNull => "None"
  | JBool true => "True"
  | JBool false => "False"
  | JInt z => pretty z
  | JStr s => s
  | _ => dumps v
  end.

#[export] Instance runtime : Runtime := {|
  lower := str_lower;
  json_loads := loads;
  json_dumps := dumps;
  py_str := str;
  utc_now := "2026-01-01 00:00 UTC"
|}.

End Reference.

(** ** The test scenario of the specification *)

(** Three records: alice is a participant of the team, bob exists on
    Launchpad without being one, carol is unknown to Launchpad. *)
Definition scenario_record (name nick : string) : json :=
  JObj [ ("name", JStr name); ("nick", JStr nick);
         ("url", JStr ("https://example.org/" +:+ nick +:+ ".xml")) ].

Definition scenario_feeds : list json :=
  [ scenario_record "Alice" "alice";
    scenario_record "Bob" "bob";
    scenario_record "Carol" "carol" ].

Definition scenario_launchpad : Launchpad :=
  mkLaunchpad ["alice"]
    (λ nick, if decide (nick = "bob") then Found
             else if decide (nick = "carol") then NotFound
             else Failed).

Definition scenario_world : World :=
  mkWorld {[ FEEDS_FILE := Reference.dumps (JArr scenario_feeds) +:+ newline ]}
          None None [] [].

Definition quiet_world : World := mkWorld ∅ None None [] [].

(** Two records of one person under two spellings of the nick, and a
    Launchpad without team participants on which every lookup succeeds. *)
Definition case_variant_feeds : list json :=
  [ scenario_record "Bob" "Bob"; scenario_record "Bob again" "bob" ].

Definition open_launchpad : Launchpad := mkLaunchpad [] (λ _, Found).

(** ** Vocabulary of the statements *)

(** The identifier of a record: its [nick] when that is a string, the
    empty string when the record has no such field. *)
Definition nick_of (feed : json) : option string :=
  match feed with
  | JObj d =>
      match dict_get "nick" d with
      | None => Some ""
      | Some (JStr s) => Some s
      | Some _ => None
      end
  | _ => None
  end.

(** A record of the data model: an object whose [nick], if any, is a
    string. *)
Definition is_record (feed : json) : Prop := is_Some (nick_of feed).

(** What [get_ubuntu_members] returns. *)
Definition members_of (launchpad : Launchpad) : gset string :=
  list_to_set (participants launchpad).

(** The computation [m] returns [a], whatever the world it runs in. *)
Definition returns {A} (m : M A) (a : A) : Prop := ∀ w, (m w).1 = Ok a.

Section Vocabulary.
Context `{rt : Runtime}.

(** The nicks [get_unique_nicks] selects for checking. *)
Definition selected (s : string) : Prop := s ≠ "" ∧ lower s ∉ allowed_lower.

(** The outcome of a run for an identifier: the one [check_single_nick]
    computes for a selected nick, [member] for a nick that is exempt from
    the check. *)
Definition has_outcome (launchpad : Launchpad) (s : string) (o : outcome) : Prop :=
  if decide (selected s)
  then returns (check_single_nick launchpad s (members_of launchpad)) o
  else o = member.

(** The same outcome in closed form (lemma [has_outcome_iff]). *)
Definition outcome_of (launchpad : Launchpad) (s : string) : outcome :=
  if decide (selected s) then
    if decide (lower s ∈ members_of launchpad) then member
    else match people launchpad (lower s) with
         | Found => not_member
         | NotFound => not_found
         | Failed => error
         end
  else member.

(** The state of a run after the validation loop: the nicks selected
    from [items] and the three sets filled from them. *)
Definition run_facts (launchpad : Launchpad) (items : list json)
    (nicks : gset string) (t : tally) : Prop :=
  (∀ s, s ∈ nicks ↔
        (selected s ∧ ∃ feed, feed ∈ items ∧ nick_of feed = Some s)) ∧
  (∀ s, s ∈ non_member_nicks t ↔
        (s ∈ nicks ∧ (lower s ∉ members_of launchpad) ∧
         people launchpad (lower s) = Found)) ∧
  (∀ s, s ∈ not_found_nicks t ↔
        (s ∈ nicks ∧ (lower s ∉ members_of launchpad) ∧
         people launchpad (lower s) = NotFound)) ∧
  (∀ s, s ∈ error_nicks t ↔
        (s ∈ nicks ∧ (lower s ∉ members_of launchpad) ∧
         people launchpad (lower s) = Failed)).

(** The identifiers the validation loop looks up, in the order of the
    calls. *)
Definition lookups_for (launchpad : Launchpad) (nicks : gset string) : list string :=
  lower <$> filter (λ nick, lower nick ∉ members_of launchpad)
                   (merge_sort String.le (elements nicks)).

(** The entry [validate_memberships] appends to [removed_entries] for a
    record, if it removes it: the record with its [reason]. *)
Definition removal_entry (invalid_nicks not_found : gset string) (feed : json)
  : option json :=
  match feed, nick_of feed with
  | JObj d, Some s =>
      if decide (s ∈ invalid_nicks)
      then Some (JObj (dict_set "reason"
                   (JStr (if decide (s ∈ not_found) then "not_found"
                          else "not_member")) d))
      else None
  | _, _ => None
  end.

End Vocabulary.

Definition add_lookups (calls : list string) (w : World) : World :=
  mkWorld (files w) (disk_quota w) (GITHUB_OUTPUT w) (lookups w ++ calls)
          (stdout w).

(** A record with a [name], as the listing of removed feeds reads it. *)
Definition has_name (feed : json) : Prop :=
  ∃ d, feed = JObj d ∧ is_Some (dict_get "name" d).

(** An entry with the three fields the listing of removed feeds reads. *)
Definition entry_listed (entry : json) : Prop :=
  ∃ d, entry = JObj d ∧ is_Some (dict_get "reason" d) ∧
       is_Some (dict_get "name" d) ∧ is_Some (dict_get "nick" d).

(** The line [set_github_output] prints. *)
Definition signal_line (name value : string) : string :=
  "::set-output name=" +:+ name +:+ "::" +:+ value.

(** The scenario on a device with room for ten more bytes, and on a
    Launchpad where all three nicks are participants of the team. *)
Definition full_disk_world : World :=
  mkWorld (files scenario_world) (Some 10) None [] [].

Definition all_members_launchpad : Launchpad :=
  mkLaunchpad ["alice"; "bob"; "carol"] (λ _, Failed).

(** The scenario with a fourth record, whose lookup fails. *)
Definition outage_feeds : list json :=
  scenario_feeds ++ [scenario_record "Dave" "Dave"].

(** ** Vocabulary of the codec *)

(** A value that [json_loads] reads back from the text [json_dumps]
    prints for it, followed by the newline [save_feeds] writes. *)
Definition reads_back (rt : Runtime) (v : json) : Prop :=
  json_loads (json_dumps v +:+ newline) = Some v.

(** Induction on a value, with the property at hand for every element of
    a list and for every value of a dict. *)
Section NestedInduction.
Context (P : json → Prop).
Context (Hnull : P JNull) (Hbool : ∀ b, P (JBool b)) (Hint : ∀ z, P (JInt z))
        (Hstr : ∀ s, P (JStr s))
        (Harr : ∀ l, Forall P l → P (JArr l))
        (Hobj : ∀ d, Forall (λ kv, P kv.2) d → P (JObj d)).

Fixpoint json_nested_ind (v : json) : P v :=
  match v with
  | JNull => Hnull
  | JBool b => Hbool b
  | JInt z => Hint z
  | JStr s => Hstr s
  | JArr l =>
      Harr l ((fix go (l : list json) : Forall P l :=
                 match l with
                 | [] => List.Forall_nil P
                 | x :: l' => List.Forall_cons P x l' (json_nested_ind x) (go l')
                 end) l)
  | JObj d =>
      Hobj d ((fix go (d : list (string * json)) : Forall (λ kv, P kv.2) d :=
                 match d with
                 | [] => List.Forall_nil _
                 | kv :: d' =>
                     List.Forall_cons (λ kv, P kv.2) kv d' (json_nested_ind kv.2) (go d')
                 end) d)
  end.
End NestedInduction.

(** No dict of the value has two entries with one key: what holds of
    every value [json.loads] builds, since a Python dict has one entry
    per key. *)
Fixpoint unique_keys (v : json) : Prop :=
  match v with
  | JArr l => foldr (λ p acc, p ∧ acc) True (unique_keys <$> l)
  | JObj d =>
      NoDup d.*1 ∧ foldr (λ p acc, p ∧ acc) True ((λ kv, unique_keys kv.2) <$> d)
  | _ => True
  end.

(** The fuel the reference parser needs for a value: one unit for the
    value, and one more for every item of a list or a dict. *)
Fixpoint weight (v : json) : nat :=
  match v with
  | JArr l => S (foldr (λ n acc, S (n + acc)) 0 (weight <$> l))
  | JObj d => S (foldr (λ n acc, S (n + acc)) 0 ((λ kv, weight kv.2) <$> d))
  | _ => 1
  end.

Definition tail_weight (ws : list nat) : nat :=
  foldr (λ n acc, S (n + acc)) 0 ws.

(** What follows a printed value: the end of the text, a comma, or the
    line feed before a closing bracket or at the end of the file. *)
Definition terminated (rest : string) : Prop :=
  match rest with
  | EmptyString => True
  | String c _ => Ascii.nat_of_ascii c = 44 ∨ Ascii.nat_of_ascii c = 10
  end.

(** A text that starts a value: not white space, not a closing bracket. *)
Definition starts_value (s : string) : Prop :=
  match s with
  | EmptyString => False
  | String c _ =>
      Reference.is_ws c = false ∧
      Ascii.nat_of_ascii c ≠ 93 ∧ Ascii.nat_of_ascii c ≠ 125
  end.

(** The reference parser reads [v] back from its printed text at any
    nesting level, with enough fuel and whatever follows. *)
Definition round_trips (v : json) : Prop :=
  ∀ level fuel rest,
    weight v ≤ fuel → terminated rest →
    Reference.parse_value fuel (Reference.dumps_at level v +:+ rest)
    = Some (v, rest).

(** ** Vocabulary of the further properties *)

(** The outcomes for which [validate_memberships] removes a record. *)
Definition removable (o : outcome) : bool :=
  match o with
  | not_member | not_found => true
  | member | error => false
  end.

Section FurtherVocabulary.
Context `{rt : Runtime}.

(** The entry of [removed_entries] for a record, read off the outcome of
    its nick: the record with its [reason], or nothing when the record
    is kept (lemma [validate_memberships_closed]). *)
Definition entry_for (launchpad : Launchpad) (feed : json) : option json :=
  match feed, nick_of feed with
  | JObj d, Some s =>
      if removable (outcome_of launchpad s)
      then Some (JObj (dict_set "reason"
                   (JStr (outcome_name (outcome_of launchpad s))) d))
      else None
  | _, _ => None
  end.

End FurtherVocabulary.

(** An item on which [get_unique_nicks] fails: a value without the
    method [get], or a dict whose [nick] is truthy and not a string. *)
Definition malformed (feed : json) : Prop :=
  match feed with
  | JObj d =>
      match dict_get "nick" d with
      | Some (JStr _) | None => False
      | Some v => py_truthy v = true
      end
  | _ => True
  end.

(** The lines of the report before and after the table rows. *)
Definition pr_header : list string :=
  [ "## Feeds Removed";
    "";
    "The following feeds have been removed because the associated";
    "Launchpad user is no longer an Ubuntu Member or was not found:";
    "";
    "| Name | Nick | Reason | Feed URL |";
    "|------|------|--------|----------|" ].

Definition pr_footer (now : string) : list string :=
  [ "";
    "---";
    "Validated against [~ubuntumembers](https://launchpad.net/~ubuntumembers) on "
      +:+ now ].

Definition row_text (name nick reason url : string) : string :=
  "| " +:+ name +:+ " | " +:+ nick +:+ " | " +:+ reason +:+ " | " +:+ url +:+ " |".

(** The reason column for a removed record. *)
Definition reason_text (o : outcome) : string :=
  match o with
  | not_found => "User not found"
  | _ => "Not a member"
  end.

(** A record with a [url], as the report reads it. *)
Definition has_url (feed : json) : Prop :=
  ∃ d, feed = JObj d ∧ is_Some (dict_get "url" d).

(** An entry with the two fields every removed entry has. *)
Definition entry_tagged (entry : json) : Prop :=
  ∃ d, entry = JObj d ∧ is_Some (dict_get "reason" d) ∧
       is_Some (dict_get "nick" d).

Section ReportVocabulary.
Context `{rt : Runtime}.

(** [row] is the table row of the report for [entry]. *)
Definition row_of (entry : json) (row : string) : Prop :=
  ∃ d nick name url tag,
    entry = JObj d ∧
    dict_get "nick" d = Some nick ∧ dict_get "name" d = Some name ∧
    dict_get "url" d = Some url ∧ dict_get "reason" d = Some tag ∧
    row = row_text (py_str name) (py_str nick)
            (if py_eq_str tag "not_found" then "User not found"
             else "Not a member")
            (py_str url).

(** [row] is the table row for a record that the validation removes. *)
Definition removed_row (launchpad : Launchpad) (feed : json) (row : string)
  : Prop :=
  ∃ d s name url,
    feed = JObj d ∧ dict_get "nick" d = Some (JStr s) ∧
    dict_get "name" d = Some name ∧ dict_get "url" d = Some url ∧
    row = row_text (py_str name) (py_str (JStr s))
            (reason_text (outcome_of launchpad s)) (py_str url).

End ReportVocabulary.

(** The line [set_github_output] writes to the file [GITHUB_OUTPUT]
    names. *)
Definition output_line (name value : string) : string :=
  name +:+ "=" +:+ value +:+ newline.

(** The scenario in a workflow run, where [GITHUB_OUTPUT] is set. *)
Definition ci_world : World :=
  mkWorld (files scenario_world) None (Some "github_output") [] [].

(** A world whose data file holds the text of [feeds]. *)
Definition world_with (feeds : json) : World :=
  mkWorld {[ FEEDS_FILE := Reference.dumps feeds +:+ newline ]} None None [] [].

(** Alice and a removable record without a [url]; Alice and a removable
    record without a [name]. *)
Definition no_url_feeds : list json :=
  [ scenario_record "Alice" "alice";
    JObj [ ("name", JStr "Bob"); ("nick", JStr "bob") ] ].

Definition no_name_feeds : list json :=
  [ scenario_record "Alice" "alice";
    JObj [ ("nick", JStr "bob"); ("url", JStr "https://example.org/bob.xml") ] ].

(** * Properties *)

Section Properties.
Context `{rt : Runtime}.

Lemma py_get_nick feed s :
  nick_of feed = Some s → py_get feed "nick" (JStr "") = Ok (JStr s).
Proof.
  destruct feed as [| | | |l|d]; simpl; try discriminate.
  destruct (dict_get "nick" d) as [[| | |s'| |]|]; simpl; congruence.
Qed.

Lemma add_unique_nick_record feed s nicks :
  nick_of feed = Some s →
  add_unique_nick feed nicks
  = Ok (if decide (selected s) then nicks ∪ {[s]} else nicks).
Proof.
  intros Hs. unfold add_unique_nick. rewrite (py_get_nick _ _ Hs). simpl.
  unfold selected. destruct (decide (s ≠ "" ∧ lower s ∉ allowed_lower)) as [[? ?]|Hn].
  - rewrite !bool_decide_eq_true_2 by done. done.
  - destruct (bool_decide (s ≠ "")) eqn:E1; simpl; [|done].
    destruct (bool_decide (lower s ∉ allowed_lower)) eqn:E2; simpl; [|done].
    apply bool_decide_eq_true_1 in E1, E2. tauto.
Qed.

Lemma get_unique_nicks_loop_records items acc :
  Forall is_record items →
  ∃ nicks, get_unique_nicks_loop items acc = Ok nicks ∧
    ∀ s, s ∈ nicks ↔
         s ∈ acc ∨ (selected s ∧ ∃ feed, feed ∈ items ∧ nick_of feed = Some s).
Proof.
  intros Hall. revert acc.
  induction Hall as [|feed items [s Hs] _ IH]; intros acc; simpl.
  - exists acc. split; [done|]. intros s. set_solver.
  - rewrite (add_unique_nick_record _ _ _ Hs). simpl.
    destruct (IH (if decide (selected s) then acc ∪ {[s]} else acc))
      as (nicks & -> & Hn).
    exists nicks. split; [done|]. intros s'. rewrite Hn.
    setoid_rewrite elem_of_cons.
    destruct (decide (selected s)) as [Hsel|Hsel];
      [rewrite elem_of_union, elem_of_singleton|]; naive_solver.
Qed.

Lemma add_lookups_nil w : add_lookups [] w = w.
Proof. destruct w. unfold add_lookups. simpl. by rewrite app_nil_r. Qed.

Lemma add_lookups_log nick calls w :
  add_lookups calls (log_lookup nick w) = add_lookups (nick :: calls) w.
Proof. unfold add_lookups, log_lookup. simpl. by rewrite <- app_assoc. Qed.

Lemma check_user_exists_run launchpad nick w :
  check_user_exists launchpad nick w
  = (Ok match people launchpad nick with
        | Found => Some true
        | NotFound => Some false
        | Failed => None
        end, log_lookup nick w).
Proof. unfold check_user_exists. by destruct (people launchpad nick). Qed.

(** The validation loop never raises; it looks up exactly the nicks that
    are not in the membership set and files each under the answer. *)
Lemma classify_loop_run launchpad members nicks t w :
  ∃ t',
    classify_loop launchpad members nicks t w
    = (Ok t', add_lookups (lower <$> filter (λ n, lower n ∉ members) nicks) w) ∧
    (∀ s, s ∈ non_member_nicks t' ↔
          (s ∈ non_member_nicks t ∨
           (s ∈ nicks ∧ (lower s ∉ members) ∧ people launchpad (lower s) = Found))) ∧
    (∀ s, s ∈ not_found_nicks t' ↔
          (s ∈ not_found_nicks t ∨
           (s ∈ nicks ∧ (lower s ∉ members) ∧ people launchpad (lower s) = NotFound))) ∧
    (∀ s, s ∈ error_nicks t' ↔
          (s ∈ error_nicks t ∨
           (s ∈ nicks ∧ (lower s ∉ members) ∧ people launchpad (lower s) = Failed))).
Proof.
  revert t w. induction nicks as [|nick nicks IH]; intros t w.
  - exists t. simpl. rewrite add_lookups_nil. unfold ret.
    split; [done|]. split_and!; intros s; rewrite elem_of_nil; tauto.
  - cbn [classify_loop].
    destruct (decide (lower nick ∈ members)) as [Hin|Hout].
    + rewrite bool_decide_eq_true_2 by done.
      rewrite filter_cons_False by tauto.
      destruct (IH t w) as (t' & -> & Hnm & Hnf & Herr).
      exists t'. split; [done|].
      split_and!; intros s; rewrite ?Hnm, ?Hnf, ?Herr, elem_of_cons;
        clear IH Hnm Hnf Herr; intuition (subst; tauto).
    + rewrite bool_decide_eq_false_2 by done.
      rewrite filter_cons_True by done. rewrite fmap_cons.
      unfold bind at 1. rewrite check_user_exists_run.
      rewrite <- add_lookups_log.
      destruct (people launchpad (lower nick)) eqn:Hp;
        match goal with
        | |- context [classify_loop _ _ _ ?t1 ?w1] =>
            destruct (IH t1 w1) as (t' & -> & Hnm & Hnf & Herr)
        end;
        exists t'; (split; [done|]);
        (split_and!; intros s; rewrite ?Hnm, ?Hnf, ?Herr, elem_of_cons; simpl;
         rewrite ?elem_of_union, ?elem_of_singleton;
         clear IH Hnm Hnf Herr; intuition (subst; try tauto; congruence)).
Qed.

Lemma removal_entry_record invalid not_found feed s :
  nick_of feed = Some s →
  ∃ d, feed = JObj d ∧
    removal_entry invalid not_found feed
    = if decide (s ∈ invalid)
      then Some (JObj (dict_set "reason"
                   (JStr (if decide (s ∈ not_found) then "not_found"
                          else "not_member")) d))
      else None.
Proof.
  destruct feed as [| | | |l|d]; try discriminate. intros Hs.
  exists d. split; [done|]. unfold removal_entry. by rewrite Hs.
Qed.

(** On records the filtering loop never raises and keeps the order of the
    input in both lists. *)
Lemma filter_loop_records items invalid not_found valid removed :
  Forall is_record items →
  filter_loop items invalid not_found valid removed
  = Ok (valid ++ filter (λ feed, removal_entry invalid not_found feed = None) items,
        removed ++ omap (removal_entry invalid not_found) items).
Proof.
  intros Hall. revert valid removed.
  induction Hall as [|feed items [s Hs] _ IH]; intros valid removed.
  - simpl. by rewrite !app_nil_r.
  - cbn [filter_loop omap list_omap]. rewrite (py_get_nick _ _ Hs). simpl.
    destruct (removal_entry_record invalid not_found feed s Hs) as (d & -> & Hre).
    rewrite Hre. destruct (decide (s ∈ invalid)) as [Hin|Hout].
    + rewrite bool_decide_eq_true_2 by done. simpl.
      rewrite filter_cons_False
        by (cbv beta; rewrite Hre; destruct (decide (s ∈ invalid)); done).
      rewrite IH. rewrite <- app_assoc. simpl.
      destruct (decide (s ∈ not_found)).
      * by rewrite bool_decide_eq_true_2 by done.
      * by rewrite bool_decide_eq_false_2 by done.
    + rewrite bool_decide_eq_false_2 by done. simpl.
      rewrite filter_cons_True
        by (cbv beta; rewrite Hre; destruct (decide (s ∈ invalid)); done).
      rewrite IH. by rewrite <- app_assoc.
Qed.

Lemma elem_of_sorted_elements (nicks : gset string) s :
  s ∈ merge_sort String.le (elements nicks) ↔ s ∈ nicks.
Proof. by rewrite merge_sort_Permutation, elem_of_elements. Qed.

(** The first two phases of a run on a list of records: the nicks to
    check and the sets the validation loop files them in. *)
Lemma validate_memberships_phases items launchpad w :
  Forall is_record items →
  ∃ nicks t,
    get_unique_nicks_loop items ∅ = Ok nicks ∧
    classify_loop launchpad (members_of launchpad)
      (merge_sort String.le (elements nicks)) (mkTally ∅ ∅ ∅) w
    = (Ok t, add_lookups (lookups_for launchpad nicks) w) ∧
    run_facts launchpad items nicks t.
Proof.
  intros Hall.
  destruct (get_unique_nicks_loop_records items ∅ Hall) as (nicks & Hloop & Hnicks).
  destruct (classify_loop_run launchpad (members_of launchpad)
              (merge_sort String.le (elements nicks)) (mkTally ∅ ∅ ∅) w)
    as (t & Hrun & Hnm & Hnf & Herr).
  exists nicks, t. split; [done|]. split; [done|].
  unfold run_facts. split_and!; intros s.
  - rewrite Hnicks, elem_of_empty. tauto.
  - rewrite Hnm, elem_of_sorted_elements. simpl. rewrite elem_of_empty. tauto.
  - rewrite Hnf, elem_of_sorted_elements. simpl. rewrite elem_of_empty. tauto.
  - rewrite Herr, elem_of_sorted_elements. simpl. rewrite elem_of_empty. tauto.
Qed.

(** The third phase: the result of the run from the results of the
    first two. *)
Lemma validate_memberships_from_phases items launchpad w nicks t w' :
  Forall is_record items →
  get_unique_nicks_loop items ∅ = Ok nicks →
  classify_loop launchpad (members_of launchpad)
    (merge_sort String.le (elements nicks)) (mkTally ∅ ∅ ∅) w = (Ok t, w') →
  validate_memberships (JArr items) launchpad w
  = (Ok (filter (λ feed, removal_entry
                   (non_member_nicks t ∪ not_found_nicks t)
                   (not_found_nicks t) feed = None) items,
         omap (removal_entry (non_member_nicks t ∪ not_found_nicks t)
                             (not_found_nicks t)) items,
         not_found_nicks t), w').
Proof.
  intros Hall Hloop Hrun.
  unfold validate_memberships, bind, lift, get_unique_nicks, get_ubuntu_members, ret.
  simpl. rewrite Hloop. fold (members_of launchpad). rewrite Hrun.
  by rewrite (filter_loop_records _ _ _ [] [] Hall).
Qed.

(** What a run of [validate_memberships] on a list of records does: it
    returns, the two lists are the input split in order, and the three
    sets hold the selected nicks by the answer of their lookup. *)
Lemma validate_memberships_run items launchpad w :
  Forall is_record items →
  ∃ nicks t,
    validate_memberships (JArr items) launchpad w
    = (Ok (filter (λ feed, removal_entry
                     (non_member_nicks t ∪ not_found_nicks t)
                     (not_found_nicks t) feed = None) items,
           omap (removal_entry (non_member_nicks t ∪ not_found_nicks t)
                               (not_found_nicks t)) items,
           not_found_nicks t),
       add_lookups (lookups_for launchpad nicks) w) ∧
    run_facts launchpad items nicks t.
Proof.
  intros Hall.
  destruct (validate_memberships_phases items launchpad w Hall)
    as (nicks & t & Hloop & Hrun & Hfacts).
  exists nicks, t. split; [|done].
  by apply (validate_memberships_from_phases _ _ _ nicks).
Qed.

Lemma check_single_nick_returns launchpad s members :
  returns (check_single_nick launchpad s members)
    (if decide (lower s ∈ members) then member
     else match people launchpad (lower s) with
          | Found => not_member
          | NotFound => not_found
          | Failed => error
          end).
Proof.
  intros w. unfold check_single_nick.
  destruct (decide (lower s ∈ members)) as [Hin|Hout].
  - by rewrite bool_decide_eq_true_2 by done.
  - rewrite bool_decide_eq_false_2 by done.
    unfold bind. rewrite check_user_exists_run.
    by destruct (people launchpad (lower s)).
Qed.

Lemma returns_functional {A} (m : M A) (a b : A) :
  returns m a → returns m b → a = b.
Proof.
  intros Ha Hb. specialize (Ha quiet_world). specialize (Hb quiet_world).
  congruence.
Qed.

(** The outcome of an identifier exists and is unique. *)
Lemma has_outcome_iff launchpad s o :
  has_outcome launchpad s o ↔ o = outcome_of launchpad s.
Proof.
  unfold has_outcome, outcome_of. destruct (decide (selected s)); [|done].
  split.
  - intros Hr. eapply returns_functional; [exact Hr|].
    apply check_single_nick_returns.
  - intros ->. apply check_single_nick_returns.
Qed.

(** Which of the sets a record's nick lands in, read off its outcome. *)
Lemma run_facts_sets launchpad items nicks t feed s :
  run_facts launchpad items nicks t →
  feed ∈ items → nick_of feed = Some s →
  (s ∈ non_member_nicks t ↔ outcome_of launchpad s = not_member) ∧
  (s ∈ not_found_nicks t ↔ outcome_of launchpad s = not_found) ∧
  (s ∈ error_nicks t ↔ outcome_of launchpad s = error).
Proof.
  intros (Hnicks & Hnm & Hnf & Herr) Hin Hs.
  assert (s ∈ nicks ↔ selected s) as Hsel.
  { rewrite Hnicks. split; [tauto|]. intros ?. split; [done|]. eauto. }
  rewrite Hnm, Hnf, Herr, Hsel. unfold outcome_of.
  clear Hnicks Hnm Hnf Herr Hsel.
  destruct (decide (selected s)), (decide (lower s ∈ members_of launchpad)),
    (people launchpad (lower s)); split_and!; split; try tauto;
    try discriminate; intros (? & ? & ?); try tauto; discriminate.
Qed.

(** The entry of a record in [removed_entries], read off its outcome. *)
Lemma removal_entry_outcome launchpad items nicks t feed s :
  run_facts launchpad items nicks t →
  feed ∈ items → nick_of feed = Some s →
  removal_entry (non_member_nicks t ∪ not_found_nicks t) (not_found_nicks t) feed
  = match outcome_of launchpad s with
    | not_found | not_member =>
        match py_with feed "reason" (JStr (outcome_name (outcome_of launchpad s))) with
        | Ok entry => Some entry
        | Raise _ => None
        end
    | member | error => None
    end.
Proof.
  intros Hrun Hin Hs.
  destruct (run_facts_sets _ _ _ _ _ _ Hrun Hin Hs) as (Hnm & Hnf & _).
  destruct (removal_entry_record (non_member_nicks t ∪ not_found_nicks t)
              (not_found_nicks t) feed s Hs) as (d & -> & ->).
  destruct (outcome_of launchpad s) eqn:Ho; simpl.
  - rewrite decide_False; [done|]. rewrite elem_of_union, Hnm, Hnf. intros [?|?]; discriminate.
  - rewrite decide_True by (rewrite elem_of_union, Hnm; by left).
    rewrite decide_False; [done|]. rewrite Hnf. discriminate.
  - rewrite decide_True by (rewrite elem_of_union, Hnf; by right).
    by rewrite decide_True by (by rewrite Hnf).
  - rewrite decide_False; [done|]. rewrite elem_of_union, Hnm, Hnf. intros [?|?]; discriminate.
Qed.

End Properties.

Section Entries.
Context `{rt : Runtime}.

Lemma dict_get_set_ne k k' v d :
  k ≠ k' → dict_get k (dict_set k' v d) = dict_get k d.
Proof.
  intros Hne. induction d as [|[k0 v0] d IH]; simpl.
  - by rewrite decide_False by done.
  - destruct (decide (k0 = k')) as [->|Hk0]; simpl.
    + by rewrite !decide_False by done.
    + destruct (decide (k0 = k)); [done|exact IH].
Qed.

Lemma dict_get_set_eq k v d : dict_get k (dict_set k v d) = Some v.
Proof.
  induction d as [|[k0 v0] d IH]; simpl.
  - by rewrite decide_True by done.
  - destruct (decide (k0 = k)) as [->|Hk0]; simpl.
    + by rewrite decide_True by done.
    + by rewrite decide_False by done.
Qed.

(** A removed entry bears the nick of the record it was made from. *)
Lemma removal_entry_nick invalid not_found feed entry :
  removal_entry invalid not_found feed = Some entry →
  nick_of entry = nick_of feed.
Proof.
  unfold removal_entry. destruct feed as [| | | |l|d]; try discriminate.
  destruct (nick_of (JObj d)) as [s|] eqn:Hs; [|discriminate].
  destruct (decide (s ∈ invalid)); [|discriminate].
  intros [= <-]. rewrite <- Hs. simpl.
  by rewrite dict_get_set_ne by done.
Qed.

(** A record whose nick has outcome [member] or [error], or is exempt,
    is kept, and no removed entry bears its nick. *)
Lemma kept_by_outcome launchpad items nicks t s :
  Forall is_record items →
  run_facts launchpad items nicks t →
  outcome_of launchpad s = member ∨ outcome_of launchpad s = error →
  (∀ feed, feed ∈ items → nick_of feed = Some s →
     feed ∈ filter (λ feed, removal_entry
                      (non_member_nicks t ∪ not_found_nicks t)
                      (not_found_nicks t) feed = None) items) ∧
  (∀ entry, entry ∈ omap (removal_entry
                      (non_member_nicks t ∪ not_found_nicks t)
                      (not_found_nicks t)) items →
     nick_of entry ≠ Some s).
Proof.
  intros Hall Hfacts Ho. split.
  - intros feed Hin Hs. apply list_elem_of_filter. split; [|done].
    rewrite (removal_entry_outcome _ _ _ _ _ _ Hfacts Hin Hs).
    by destruct Ho as [-> | ->].
  - intros entry (feed & Hin & Hre)%list_elem_of_omap Hs.
    rewrite (removal_entry_nick _ _ _ _ Hre) in Hs.
    rewrite (removal_entry_outcome _ _ _ _ _ _ Hfacts Hin Hs) in Hre.
    by destruct Ho as [Ho|Ho]; rewrite Ho in Hre.
Qed.

(** Every lookup of the validation loop is for the lowered form of a
    selected nick outside the membership set. *)
Lemma elem_of_lookups_for launchpad items nicks t id :
  run_facts launchpad items nicks t →
  id ∈ lookups_for launchpad nicks →
  ∃ s, id = lower s ∧ selected s ∧ (lower s ∉ members_of launchpad) ∧
       ∃ feed, feed ∈ items ∧ nick_of feed = Some s.
Proof.
  intros (Hnicks & _) Hid. unfold lookups_for in Hid.
  apply list_elem_of_fmap in Hid as (s & -> & Hs).
  apply list_elem_of_filter in Hs as [Hout Hs].
  apply elem_of_sorted_elements, Hnicks in Hs as [Hsel Hfeed].
  exists s. done.
Qed.

(** A record without a nick, or with the empty nick, adds nothing to
    the nicks to check. *)
Lemma get_unique_nicks_loop_blank items1 feed items2 acc :
  nick_of feed = Some "" →
  get_unique_nicks_loop (items1 ++ feed :: items2) acc
  = get_unique_nicks_loop (items1 ++ items2) acc.
Proof.
  intros Hblank. revert acc.
  induction items1 as [|item items1 IH]; intros acc; simpl.
  - rewrite (add_unique_nick_record _ _ _ Hblank).
    rewrite decide_False; [done|]. by intros [? _].
  - destruct (add_unique_nick item acc); simpl; [apply IH|done].
Qed.

End Entries.

(** ** Runs of [main] and [save_feeds] *)

Ltac world_simpl :=
  unfold set_files, set_quota, fs_append, log_stdout, log_lookup;
  cbn [files disk_quota GITHUB_OUTPUT lookups stdout fst snd default from_option id].

Section Runs.
Context `{rt : Runtime}.

Lemma load_feeds_world w : (load_feeds w).2 = w.
Proof.
  unfold load_feeds, bind, fs_read, ret, raise.
  destruct (files w !! FEEDS_FILE); [|done]. by destruct (json_loads s).
Qed.

Lemma load_feeds_loads w v w' :
  load_feeds w = (Ok v, w') →
  ∃ text, files w !! FEEDS_FILE = Some text ∧ json_loads text = Some v.
Proof.
  unfold load_feeds, bind, fs_read, ret, raise.
  destruct (files w !! FEEDS_FILE) as [text|]; [|done].
  destruct (json_loads text) as [v'|] eqn:Hv; [|done].
  intros [= -> _]. by exists text.
Qed.

Lemma validate_memberships_world feeds launchpad w :
  ∃ calls, (validate_memberships feeds launchpad w).2 = add_lookups calls w.
Proof.
  unfold validate_memberships, bind, lift, get_ubuntu_members, ret.
  destruct (get_unique_nicks feeds) as [nicks|e].
  - fold (members_of launchpad).
    destruct (classify_loop_run launchpad (members_of launchpad)
                (merge_sort String.le (elements nicks)) (mkTally ∅ ∅ ∅) w)
      as (t & -> & _).
    eexists. destruct (py_iter feeds); [|reflexivity].
    destruct (filter_loop _ _ _ _ _); reflexivity.
  - exists []. by rewrite add_lookups_nil.
Qed.

Lemma fs_write_files path data w other :
  other ≠ path → files (fs_write path data w).2 !! other = files w !! other.
Proof.
  intros Hne. unfold fs_write.
  destruct (disk_quota w) as [q|]; [destruct (decide _)|]; simpl;
    by rewrite lookup_insert_ne.
Qed.

Lemma set_github_output_run name value w :
  let run := set_github_output name value w in
  (∀ path, GITHUB_OUTPUT w ≠ Some path → files run.2 !! path = files w !! path) ∧
  (run.1 = Ok tt → stdout run.2 = stdout w ++ [signal_line name value]) ∧
  (disk_quota w = None → run.1 = Ok tt).
Proof.
  unfold set_github_output, bind, getenv_GITHUB_OUTPUT, print, ret. simpl.
  destruct (GITHUB_OUTPUT w) as [p|] eqn:Hp.
  - destruct (decide (p ≠ "")) as [Hne|He].
    + rewrite bool_decide_eq_true_2 by done.
      unfold fs_open_a, fs_write. simpl.
      destruct (disk_quota w) as [q|]; [destruct (decide _)|]; simpl.
      * split_and!; [|done|done].
        intros path Hpath. rewrite !lookup_insert_ne by congruence. done.
      * split_and!; [|done|done].
        intros path Hpath. rewrite !lookup_insert_ne by congruence. done.
      * split_and!; [|done|done].
        intros path Hpath. rewrite !lookup_insert_ne by congruence. done.
    + rewrite bool_decide_eq_false_2 by done. simpl. done.
  - simpl. done.
Qed.

Lemma list_removed_ok entries :
  Forall entry_listed entries → list_removed entries = Ok tt.
Proof.
  induction 1 as [|entry entries (d & -> & [r Hr] & [n Hn] & [k Hk]) _ IH]; [done|].
  simpl. by rewrite Hr, Hn, Hk.
Qed.

Lemma removed_entries_listed launchpad items nicks t :
  run_facts launchpad items nicks t →
  Forall has_name items →
  Forall entry_listed
    (omap (removal_entry (non_member_nicks t ∪ not_found_nicks t)
                         (not_found_nicks t)) items).
Proof.
  intros (Hnicks & Hnm & Hnf & _) Hnames. apply Forall_forall.
  intros entry (feed & Hin & Hre)%list_elem_of_omap.
  destruct (proj1 (Forall_forall _ _) Hnames feed Hin) as (d & -> & Hname).
  unfold removal_entry in Hre.
  destruct (nick_of (JObj d)) as [s|] eqn:Hs; [|discriminate].
  destruct (decide (s ∈ _)) as [Hinv|]; [|discriminate].
  injection Hre as <-. exists (dict_set "reason"
    (JStr (if decide (s ∈ not_found_nicks t) then "not_found" else "not_member")) d).
  split; [done|]. rewrite dict_get_set_eq, !dict_get_set_ne by done.
  split; [done|]. split; [done|].
  assert (s ≠ "") as Hne.
  { apply elem_of_union in Hinv as [Hx|Hx]; [apply Hnm in Hx|apply Hnf in Hx];
      destruct Hx as (Hx & _); apply Hnicks in Hx as [[? _] _]; done. }
  simpl in Hs. destruct (dict_get "nick" d) as [v|]; [done|]. congruence.
Qed.

Lemma add_lookups_fields calls w :
  files (add_lookups calls w) = files w ∧
  stdout (add_lookups calls w) = stdout w ∧
  disk_quota (add_lookups calls w) = disk_quota w ∧
  GITHUB_OUTPUT (add_lookups calls w) = GITHUB_OUTPUT w.
Proof. done. Qed.

(** The end of a run without changes to write. *)
Lemma signal_false_run w :
  let run := (set_github_output "has_changes" "false" >> ret 0) w in
  (∀ path, GITHUB_OUTPUT w ≠ Some path → files run.2 !! path = files w !! path) ∧
  (run.1 = Ok 0 →
   stdout run.2 = stdout w ++ ["::set-output name=has_changes::false"]) ∧
  (disk_quota w = None → run.1 = Ok 0).
Proof.
  intros run. subst run. unfold bind, ret.
  pose proof (set_github_output_run "has_changes" "false" w) as (Hf & Hs & Hq).
  destruct (set_github_output "has_changes" "false" w) as [[[]|e] w2]; simpl in *.
  - split_and!; [done| |done]. intros _. by apply Hs.
  - split_and!; [done|discriminate|]. intros Hnone. by specialize (Hq Hnone).
Qed.

Lemma main_dry_run_returns args launchpad w text items :
  dry_run args = true → check args = [] →
  files w !! FEEDS_FILE = Some text →
  json_loads text = Some (JArr items) →
  Forall is_record items → Forall has_name items →
  disk_quota w = None →
  (main args launchpad w).1 = Ok 0.
Proof.
  intros Hdry Hcheck Htext Hjson Hall Hnames Hquota.
  unfold main. rewrite Hcheck, Hdry. unfold bind, lift.
  unfold load_feeds, bind, fs_read, ret. rewrite Htext, Hjson. simpl.
  destruct (validate_memberships_run items launchpad w Hall)
    as (nicks & t & -> & Hfacts).
  cbn [fst snd].
  pose proof (signal_false_run (add_lookups (lookups_for launchpad nicks) w))
    as (_ & _ & Hfinish).
  unfold bind, ret in Hfinish. specialize (Hfinish Hquota).
  pose proof (removed_entries_listed _ _ _ _ Hfacts Hnames) as Hlisted.
  destruct (omap _ items) as [|entry removed]; [exact Hfinish|].
  rewrite (list_removed_ok _ Hlisted). exact Hfinish.
Qed.

Lemma append_cons c a b : String c a +:+ b = String c (a +:+ b).
Proof. reflexivity. Qed.

Lemma append_empty_r a : a +:+ "" = a.
Proof. induction a as [|c a IH]; [done|]. by rewrite append_cons, IH. Qed.

Lemma length_append a b :
  String.length (a +:+ b) = String.length a + String.length b.
Proof.
  induction a as [|c a IH]; [done|]. rewrite append_cons. simpl. by rewrite IH.
Qed.

Lemma substring_0_append a b q :
  q ≤ String.length a →
  String.substring 0 q (a +:+ b) = String.substring 0 q a.
Proof.
  revert q. induction a as [|c a IH]; intros q Hq.
  - simpl in Hq. assert (q = 0) as -> by lia. by destruct b.
  - rewrite append_cons. destruct q as [|q]; [done|]. simpl.
    rewrite IH; [done|]. simpl in Hq. lia.
Qed.

Lemma substring_0_length a : String.substring 0 (String.length a) a = a.
Proof. induction a as [|c a IH]; [done|]. simpl. by rewrite IH. Qed.

(** What [save_feeds] leaves in the data file when it returns. *)
Lemma save_feeds_returns feeds w :
  let run := save_feeds feeds w in
  run.1 = Ok tt →
  files run.2 !! FEEDS_FILE = Some (json_dumps feeds +:+ newline).
Proof.
  intros run. subst run. unfold save_feeds, bind, fs_open_w, fs_write.
  world_simpl.
  destruct (disk_quota w) as [q|]; world_simpl.
  - destruct (decide (String.length (json_dumps feeds) ≤ q)); world_simpl;
      [|intros; discriminate].
    destruct (decide (_ ≤ q - _)); world_simpl; [|intros; discriminate].
    intros _. by rewrite !lookup_insert_eq.
  - intros _. by rewrite !lookup_insert_eq.
Qed.

Lemma save_feeds_total feeds w :
  disk_quota w = None → (save_feeds feeds w).1 = Ok tt.
Proof.
  intros Hq. unfold save_feeds, bind, fs_open_w, fs_write. world_simpl.
  by rewrite Hq.
Qed.

Lemma omap_nil_filter {A B} (f : A → option B) (l : list A) :
  omap f l = [] → filter (λ x, f x = None) l = l.
Proof.
  induction l as [|x l IH]; [done|]. cbn [omap list_omap].
  destruct (f x) eqn:Hx; [discriminate|]. intros Hnil.
  rewrite filter_cons_True by done. by rewrite IH.
Qed.

(** A dry run changes no file but the one [GITHUB_OUTPUT] names and,
    when it completes, has signalled [has_changes=false]. *)
Lemma main_dry_run_effects :
  ∀ (args : Args) (launchpad : Launchpad) (w : World),
    dry_run args = true → check args = [] →
    let run := main args launchpad w in
    (∀ path, GITHUB_OUTPUT w ≠ Some path →
             files run.2 !! path = files w !! path) ∧
    (run.1 = Ok 0 →
     stdout run.2 = stdout w ++ ["::set-output name=has_changes::false"]).
Proof.
  intros args launchpad w Hdry Hcheck run. subst run.
  unfold main. rewrite Hcheck, Hdry. unfold bind, lift.
  pose proof (load_feeds_world w) as Hlw.
  destruct (load_feeds w) as [[feeds|e] w0]; simpl in Hlw; subst w0;
    [|by split].
  destruct (py_len feeds) as [n|e]; [|by split].
  destruct (validate_memberships_world feeds launchpad w) as [calls Hw].
  destruct (validate_memberships feeds launchpad w) as [[[[valid removed] nf]|e] w1];
    simpl in Hw; subst w1; [|by split].
  destruct (add_lookups_fields calls w) as (Hf & Hs & Hq & Hg).
  cbn [fst snd].
  pose proof (signal_false_run (add_lookups calls w)) as Hfinish.
  cbv zeta in Hfinish. unfold bind in Hfinish.
  rewrite Hf, Hs, Hg in Hfinish. destruct Hfinish as (H1 & H2 & _).
  destruct removed as [|entry removed]; [by split|].
  destruct (list_removed (entry :: removed)); by split.
Qed.

(** A device that refuses part of the text makes [save_feeds] raise and
    leaves the bytes written so far. *)
Lemma save_feeds_fails :
  ∀ (feeds : json) (w : World) (q : nat),
    disk_quota w = Some q →
    q < String.length (json_dumps feeds +:+ newline) →
    let run := save_feeds feeds w in
    run.1 = Raise OSError ∧
    files run.2 !! FEEDS_FILE
    = Some (String.substring 0 q (json_dumps feeds +:+ newline)).
Proof.
  intros feeds w q Hq Hlt run. subst run.
  rewrite length_append in Hlt. change (String.length newline) with 1 in Hlt.
  unfold save_feeds, bind, fs_open_w, fs_write. world_simpl. rewrite Hq.
  destruct (decide (String.length (json_dumps feeds) ≤ q)) as [Hle|Hgt]; world_simpl.
  - assert (q = String.length (json_dumps feeds)) as -> by lia.
    rewrite decide_False by (change (String.length newline) with 1; lia).
    world_simpl. split; [done|]. rewrite !lookup_insert_eq. world_simpl.
    rewrite substring_0_append, substring_0_length by done.
    rewrite Nat.sub_diag. change (String.substring 0 0 newline) with "".
    by rewrite append_empty_r.
  - split; [done|]. rewrite !lookup_insert_eq. world_simpl.
    by rewrite substring_0_append by lia.
Qed.

End Runs.

(** ** The reference codec reads back what it prints *)

(** [Reference.loads] gives back every value without a repeated key from
    the text [Reference.dumps] prints for it, and builds no other
    values: the contract of the json library that [save_feeds] and
    [load_feeds] rest on holds of the executable runtime. *)

Module ReferenceCodec.
Import Reference.

Lemma append_assoc a b c : (a +:+ b) +:+ c = a +:+ (b +:+ c).
Proof.
  induction a as [|x a IH]; [done|]. by rewrite !append_cons, IH.
Qed.

Lemma parse_chars_escape_char c r :
  parse_chars (escape_char c +:+ r) = prod_map (String c) id <$> parse_chars r.
Proof. destruct c as [[] [] [] [] [] [] [] []]; reflexivity. Qed.

Lemma parse_chars_quote s rest :
  parse_chars (escape s +:+ String dquote rest) = Some (s, rest).
Proof.
  induction s as [|c s IH]; [reflexivity|].
  cbn [escape]. rewrite append_assoc, parse_chars_escape_char, IH. reflexivity.
Qed.

Lemma digit_value_char x :
  (x < 10)%N → digit_value (pretty_N_char x) = Some (Z.of_N x).
Proof.
  intros Hx.
  assert (x = 0 ∨ x = 1 ∨ x = 2 ∨ x = 3 ∨ x = 4 ∨ x = 5 ∨ x = 6 ∨ x = 7
          ∨ x = 8 ∨ x = 9)%N as Hc by lia.
  repeat destruct Hc as [->|Hc]; try subst x; reflexivity.
Qed.

Lemma pretty_N_go_append x s rest :
  pretty_N_go x s +:+ rest = pretty_N_go x (s +:+ rest).
Proof.
  revert s. induction (N.lt_wf_0 x) as [x _ IH]; intros s.
  assert (x = 0 ∨ 0 < x)%N as [->|Hx] by lia; [by rewrite !pretty_N_go_0|].
  rewrite (pretty_N_go_step x s), (pretty_N_go_step x (s +:+ rest)) by done.
  rewrite IH by (by apply N.div_lt). reflexivity.
Qed.

Lemma parse_digits_go x s :
  (0 < x)%N → parse_digits (pretty_N_go x s) 0 = parse_digits s (Z.of_N x).
Proof.
  revert s. induction (N.lt_wf_0 x) as [x _ IH]; intros s Hx.
  rewrite pretty_N_go_step by done.
  destruct (N.eq_0_gt_0_cases (x `div` 10)) as [Hd|Hd].
  - rewrite Hd, pretty_N_go_0. cbn [parse_digits].
    rewrite digit_value_char by (apply N.mod_lt; lia).
    f_equal. apply N.div_small_iff in Hd; [|lia]. rewrite N.mod_small by done. lia.
  - rewrite IH by (done || by apply N.div_lt). cbn [parse_digits].
    rewrite digit_value_char by (apply N.mod_lt; lia). f_equal.
    rewrite (N.div_mod x 10) at 3 by lia. lia.
Qed.

Lemma pretty_N_go_head x s :
  (0 < x)%N →
  ∃ d s', (0 < d < 10)%N ∧ pretty_N_go x s = String (pretty_N_char d) s'.
Proof.
  revert s. induction (N.lt_wf_0 x) as [x _ IH]; intros s Hx.
  rewrite pretty_N_go_step by done.
  destruct (N.eq_0_gt_0_cases (x `div` 10)) as [Hd|Hd].
  - rewrite Hd, pretty_N_go_0. exists (x `mod` 10)%N, s. split; [|done].
    apply N.div_small_iff in Hd; [|lia]. rewrite N.mod_small by done. lia.
  - apply IH; [by apply N.div_lt|done].
Qed.

Lemma parse_digits_stop rest acc :
  terminated rest → parse_digits rest acc = (acc, rest).
Proof.
  destruct rest as [|c rest]; [done|]. simpl. intros Hc.
  unfold digit_value. destruct Hc as [-> | ->]; reflexivity.
Qed.

Lemma parse_nat_end (r : Z * string) :
  terminated r.2 →
  match r.2 with
  | String c' _ =>
      let n := Ascii.nat_of_ascii c' in
      if bool_decide (48 ≤ n ≤ 57 ∨ n = 46 ∨ n = 101 ∨ n = 69)
      then None else Some r
  | EmptyString => Some r
  end = Some r.
Proof.
  destruct r as [z [|c rest]]; [done|]. simpl.
  intros [-> | ->]; reflexivity.
Qed.

Lemma parse_nat_zero rest :
  terminated rest → parse_nat ("0" +:+ rest) = Some (0%Z, rest).
Proof. intros Hr. exact (parse_nat_end (0%Z, rest) Hr). Qed.

Lemma parse_nat_pretty x rest :
  (0 < x)%N → terminated rest →
  parse_nat (pretty_N_go x "" +:+ rest) = Some (Z.of_N x, rest).
Proof.
  intros Hx Hr. rewrite pretty_N_go_append. change ("" +:+ rest) with rest.
  pose proof (parse_digits_go x rest Hx) as Hgo.
  destruct (pretty_N_go_head x rest Hx) as (d & s' & Hd & Heq).
  rewrite Heq in *. cbn [parse_digits] in Hgo.
  rewrite digit_value_char in Hgo by lia.
  rewrite (parse_digits_stop rest) in Hgo by done.
  unfold parse_nat. rewrite digit_value_char by lia.
  rewrite bool_decide_eq_false_2 by lia.
  replace (10 * 0 + Z.of_N d)%Z with (Z.of_N d) in Hgo by lia.
  rewrite Hgo. exact (parse_nat_end (Z.of_N x, rest) Hr).
Qed.

Lemma expect_append word rest : expect word (word +:+ rest) = Some rest.
Proof.
  unfold expect.
  assert (String.prefix word (word +:+ rest) = true) as ->.
  { induction word as [|c word IH]; [by destruct rest|].
    rewrite append_cons. simpl. rewrite IH.
    by destruct (Ascii.ascii_dec c c). }
  f_equal. rewrite length_append.
  replace (String.length word + String.length rest - String.length word)
    with (String.length rest) by lia.
  induction word as [|c word IH]; [apply substring_0_length|].
  rewrite append_cons. exact IH.
Qed.

Lemma skip_ws_spaces n s : skip_ws (spaces n +:+ s) = skip_ws s.
Proof. induction n as [|n IH]; [done|]. exact IH. Qed.

Lemma skip_ws_nl level s : skip_ws (nl level +:+ s) = skip_ws s.
Proof.
  unfold nl. rewrite append_assoc. change (skip_ws (spaces (2 * level) +:+ s) = skip_ws s).
  apply skip_ws_spaces.
Qed.

Lemma parse_value_skip fuel s1 s2 :
  skip_ws s1 = skip_ws s2 → parse_value fuel s1 = parse_value fuel s2.
Proof. intros Heq. destruct fuel as [|fuel]; [done|]. simpl. by rewrite Heq. Qed.

Lemma skip_ws_starts s : starts_value s → skip_ws s = s.
Proof. destruct s as [|c s]; [done|]. intros (Hc & _). simpl. by rewrite Hc. Qed.

Lemma quote_append s rest :
  quote s +:+ rest = String dquote (escape s +:+ String dquote rest).
Proof. unfold quote. by rewrite append_cons, append_assoc. Qed.

Lemma pretty_N_char_code d :
  (d < 10)%N →
  Ascii.nat_of_ascii (pretty_N_char d) = 48 + N.to_nat d.
Proof.
  intros Hd.
  assert (d = 0 ∨ d = 1 ∨ d = 2 ∨ d = 3 ∨ d = 4 ∨ d = 5 ∨ d = 6 ∨ d = 7
          ∨ d = 8 ∨ d = 9)%N as Hc by lia.
  repeat destruct Hc as [->|Hc]; try subst d; reflexivity.
Qed.

Lemma dumps_starts level v rest : starts_value (dumps_at level v +:+ rest).
Proof.
  destruct v as [|[]|[|p|p]| |[|x l]|[|kv d]]; try (by vm_compute).
  change (starts_value (pretty_N_go (N.pos p) "" +:+ rest)).
  destruct (pretty_N_go_head (N.pos p) "" eq_refl) as (d & s' & Hd & ->).
  rewrite append_cons. unfold starts_value, is_ws.
  rewrite pretty_N_char_code by lia.
  rewrite bool_decide_eq_false_2 by lia. lia.
Qed.

Lemma parse_value_null fuel rest :
  parse_value (S fuel) ("null" +:+ rest) = Some (JNull, rest).
Proof. simpl. change (pair JNull <$> expect "ull" ("ull" +:+ rest) = Some (JNull, rest)). by rewrite expect_append. Qed.

Lemma parse_value_true fuel rest :
  parse_value (S fuel) ("true" +:+ rest) = Some (JBool true, rest).
Proof. simpl. change (pair (JBool true) <$> expect "rue" ("rue" +:+ rest) = Some (JBool true, rest)). by rewrite expect_append. Qed.

Lemma parse_value_false fuel rest :
  parse_value (S fuel) ("false" +:+ rest) = Some (JBool false, rest).
Proof. simpl. change (pair (JBool false) <$> expect "alse" ("alse" +:+ rest) = Some (JBool false, rest)). by rewrite expect_append. Qed.

Lemma parse_value_str fuel s rest :
  parse_value (S fuel) (quote s +:+ rest) = Some (JStr s, rest).
Proof.
  rewrite quote_append. simpl.
  change (prod_map JStr id <$> parse_chars (escape s +:+ String dquote rest)
          = Some (JStr s, rest)).
  by rewrite parse_chars_quote.
Qed.

Lemma parse_value_int fuel z rest :
  terminated rest →
  parse_value (S fuel) (pretty z +:+ rest) = Some (JInt z, rest).
Proof.
  intros Hr. destruct z as [|p|p].
  - change (prod_map JInt id <$> parse_nat ("0" +:+ rest) = Some (JInt 0, rest)).
    by rewrite parse_nat_zero.
  - change (parse_value (S fuel) (pretty_N_go (N.pos p) "" +:+ rest)
            = Some (JInt (Z.pos p), rest)).
    pose proof (parse_nat_pretty (N.pos p) rest eq_refl Hr) as Hnat.
    destruct (pretty_N_go_head (N.pos p) "" eq_refl) as (d & s' & Hd & Heq).
    rewrite Heq in *. rewrite append_cons in *.
    cbn [parse_value]. unfold skip_ws at 1. unfold is_ws. cbv zeta.
    rewrite pretty_N_char_code by lia.
    rewrite bool_decide_eq_false_2 by lia. cbv zeta.
    rewrite ?pretty_N_char_code by lia.
    rewrite !bool_decide_eq_false_2 by lia.
    rewrite Hnat. reflexivity.
  - change (prod_map (λ z, JInt (- z)) id
              <$> parse_nat (pretty_N_go (N.pos p) "" +:+ rest)
            = Some (JInt (Z.neg p), rest)).
    by rewrite parse_nat_pretty.
Qed.

Lemma append_nil_l s : "" +:+ s = s.
Proof. reflexivity. Qed.

Lemma skip_ws_nonws c s : is_ws c = false → skip_ws (String c s) = String c s.
Proof. intros Hc. simpl. by rewrite Hc. Qed.

Lemma terminated_items_tail level close texts rest :
  terminated (items_tail level close texts +:+ rest).
Proof. destruct texts; [by right|by left]. Qed.

Lemma parse_elements_items level l :
  Forall round_trips l →
  ∀ x acc fuel rest,
    round_trips x →
    tail_weight (weight <$> x :: l) ≤ fuel → terminated rest →
    parse_elements fuel
      (nl (S level) +:+ dumps_at (S level) x
       +:+ items_tail level "]" (dumps_at (S level) <$> l) +:+ rest) acc
    = Some (JArr (acc ++ x :: l), rest).
Proof.
  induction 1 as [|y l Hy Hl IH]; intros x acc fuel rest Hx Hfuel Hrest;
    (destruct fuel as [|fuel]; [simpl in Hfuel; lia|]);
    cbn [parse_elements];
    rewrite (parse_value_skip fuel _ _ (skip_ws_nl (S level) _));
    (rewrite Hx; [|simpl in Hfuel; lia|apply terminated_items_tail]).
  - cbn [fmap list_fmap items_tail]. rewrite append_assoc, skip_ws_nl.
    reflexivity.
  - cbn [fmap list_fmap items_tail].
    rewrite !append_cons, append_nil_l, !append_assoc.
    rewrite skip_ws_nonws by reflexivity.
    change (parse_elements fuel
              (nl (S level) +:+ dumps_at (S level) y
               +:+ items_tail level "]" (dumps_at (S level) <$> l) +:+ rest)
              (acc ++ [x])
            = Some (JArr (acc ++ x :: y :: l), rest)).
    rewrite IH; [|done|simpl in *; lia|done].
    by rewrite <- app_assoc.
Qed.

Lemma dict_set_fresh k v acc :
  k ∉ acc.*1 → dict_set k v acc = acc ++ [(k, v)].
Proof.
  induction acc as [|[k0 v0] acc IH]; [done|]. simpl.
  intros [Hne Hnotin]%not_elem_of_cons.
  rewrite decide_False by done. by rewrite IH.
Qed.

Lemma member_text_append key text rest :
  member_text key text +:+ rest
  = String dquote (escape key +:+ String dquote (": " +:+ text +:+ rest)).
Proof. unfold member_text. by rewrite !append_assoc, quote_append. Qed.

Lemma parse_members_step fuel level key text rest acc :
  parse_members (S fuel) (nl level +:+ member_text key text +:+ rest) acc
  = match parse_value fuel (text +:+ rest) with
    | Some (v, rest') =>
        match skip_ws rest' with
        | String c rest'' =>
            let n := Ascii.nat_of_ascii c in
            if bool_decide (n = 44)
            then parse_members fuel rest'' (dict_set key v acc)
            else if bool_decide (n = 125)
            then Some (JObj (dict_set key v acc), rest'')
            else None
        | EmptyString => None
        end
    | None => None
    end.
Proof.
  cbn [parse_members]. rewrite skip_ws_nl, member_text_append.
  rewrite skip_ws_nonws by reflexivity.
  rewrite bool_decide_eq_true_2 by reflexivity.
  rewrite parse_chars_quote. rewrite !append_cons, append_nil_l.
  rewrite skip_ws_nonws by reflexivity.
  rewrite bool_decide_eq_true_2 by reflexivity.
  by rewrite (parse_value_skip fuel
                (String (Ascii.Ascii false false false false false true false false)
                        (text +:+ rest))
                (text +:+ rest)).
Qed.

Lemma parse_members_items level d :
  Forall (λ kv, round_trips kv.2) d →
  ∀ (kv : string * json) acc fuel rest,
    round_trips kv.2 →
    NoDup (acc ++ kv :: d).*1 →
    tail_weight ((λ kv, weight kv.2) <$> kv :: d) ≤ fuel → terminated rest →
    parse_members fuel
      (nl (S level) +:+ member_text kv.1 (dumps_at (S level) kv.2)
       +:+ items_tail level "}"
             ((λ kv, member_text kv.1 (dumps_at (S level) kv.2)) <$> d)
       +:+ rest) acc
    = Some (JObj (acc ++ kv :: d), rest).
Proof.
  induction 1 as [|kv' d Hkv' Hd IH]; intros [k v] acc fuel rest Hx Hnd Hfuel Hrest;
    cbn [fst snd] in *;
    (destruct fuel as [|fuel]; [simpl in Hfuel; lia|]);
    rewrite parse_members_step;
    (rewrite Hx; [|simpl in Hfuel; lia|apply terminated_items_tail]);
    (assert (dict_set k v acc = acc ++ [(k, v)]) as ->;
     [apply dict_set_fresh; rewrite fmap_app in Hnd;
      apply NoDup_app in Hnd as (_ & Hnd & _); intros Hin;
      apply (Hnd k Hin); left|]).
  - cbn [fmap list_fmap items_tail]. rewrite append_assoc, skip_ws_nl.
    reflexivity.
  - cbn [fmap list_fmap items_tail].
    rewrite !append_cons, append_nil_l, !append_assoc.
    rewrite skip_ws_nonws by reflexivity.
    change (parse_members fuel
              (nl (S level) +:+ member_text kv'.1 (dumps_at (S level) kv'.2)
               +:+ items_tail level "}"
                     ((λ kv, member_text kv.1 (dumps_at (S level) kv.2)) <$> d)
               +:+ rest)
              (acc ++ [(k, v)])
            = Some (JObj (acc ++ (k, v) :: kv' :: d), rest)).
    rewrite IH; [|done| |simpl in *; lia|done].
    + by rewrite <- app_assoc.
    + by rewrite <- app_assoc.
Qed.

Lemma foldr_and_Forall {A} (P : A → Prop) (l : list A) :
  foldr (λ p acc, p ∧ acc) True (P <$> l) ↔ Forall P l.
Proof.
  induction l as [|x l IH]; simpl.
  - split; [by constructor|done].
  - rewrite IH, Forall_cons. done.
Qed.

Lemma parse_value_array_step fuel s :
  parse_value (S fuel) ("[" +:+ s)
  = match skip_ws s with
    | String c' s'' =>
        if bool_decide (Ascii.nat_of_ascii c' = 93) then Some (JArr [], s'')
        else parse_elements fuel s []
    | EmptyString => None
    end.
Proof. reflexivity. Qed.

Lemma parse_value_object_step fuel s :
  parse_value (S fuel) ("{" +:+ s)
  = match skip_ws s with
    | String c' s'' =>
        if bool_decide (Ascii.nat_of_ascii c' = 125) then Some (JObj [], s'')
        else parse_members fuel s []
    | EmptyString => None
    end.
Proof. reflexivity. Qed.

Lemma Forall_modus_ponens {A} (P Q : A → Prop) (l : list A) :
  Forall (λ x, P x → Q x) l → Forall P l → Forall Q l.
Proof.
  intros Himp HP. apply Forall_forall. intros x Hx.
  apply (proj1 (Forall_forall _ _) Himp x Hx).
  apply (proj1 (Forall_forall _ _) HP x Hx).
Qed.

Lemma dumps_round_trips v : unique_keys v → round_trips v.
Proof.
  induction v as [|b|z|s|l IH|d IH] using json_nested_ind;
    intros Huk level fuel rest Hfuel Hrest;
    (destruct fuel as [|fuel]; [simpl in Hfuel; lia|]).
  - apply parse_value_null.
  - destruct b; [apply parse_value_true|apply parse_value_false].
  - by apply parse_value_int.
  - apply parse_value_str.
  - destruct l as [|x l]; [reflexivity|].
    apply (foldr_and_Forall unique_keys) in Huk.
    apply Forall_cons in Huk as [Hx Hl]. apply Forall_cons in IH as [IHx IHl].
    cbn [dumps_at]. rewrite !append_assoc, parse_value_array_step.
    rewrite skip_ws_nl.
    pose proof (dumps_starts (S level) x
                  (items_tail level "]" (dumps_at (S level) <$> l) +:+ rest)) as Hst.
    rewrite skip_ws_starts by done.
    destruct (dumps_at (S level) x +:+ _) as [|c text] eqn:Htext; [done|].
    destruct Hst as (_ & H93 & _). rewrite bool_decide_eq_false_2 by done.
    rewrite <- Htext. apply parse_elements_items.
    + by apply (Forall_modus_ponens unique_keys).
    + by apply IHx.
    + simpl in Hfuel. simpl. unfold tail_weight. lia.
    + done.
  - destruct d as [|kv d]; [reflexivity|].
    destruct Huk as [Hnd Huk]. apply (foldr_and_Forall (λ kv, unique_keys kv.2)) in Huk.
    apply Forall_cons in Huk as [Hx Hl]. apply Forall_cons in IH as [IHx IHl].
    cbn [dumps_at]. rewrite !append_assoc, parse_value_object_step.
    rewrite skip_ws_nl.
    rewrite member_text_append, skip_ws_nonws by reflexivity.
    rewrite bool_decide_eq_false_2 by (vm_compute; lia).
    rewrite <- member_text_append.
    apply (parse_members_items level d).
    + by apply (Forall_modus_ponens (λ kv, unique_keys kv.2)).
    + by apply IHx.
    + done.
    + simpl in Hfuel. simpl. unfold tail_weight. lia.
    + done.
Qed.

Lemma nl_length level : 1 ≤ String.length (nl level).
Proof. unfold nl. rewrite length_append. simpl. lia. Qed.

Lemma items_tail_weight level close ws texts :
  Forall2 (λ w text, w ≤ String.length text) ws texts →
  tail_weight ws ≤ String.length (items_tail level close texts).
Proof.
  induction 1 as [|w text ws texts Hw _ IH]; [simpl; lia|].
  cbn [items_tail tail_weight foldr]. rewrite !length_append.
  pose proof (nl_length (S level)). unfold tail_weight in IH. lia.
Qed.

Lemma pretty_length (z : Z) : 1 ≤ String.length (pretty z).
Proof.
  destruct z as [|p|p]; [simpl; lia| |].
  - change (1 ≤ String.length (pretty_N_go (N.pos p) "")).
    destruct (pretty_N_go_head (N.pos p) "" eq_refl) as (d & s' & _ & ->).
    simpl. lia.
  - change (1 ≤ String.length ("-" +:+ pretty_N_go (N.pos p) "")).
    rewrite append_cons. simpl. lia.
Qed.

Lemma weight_le_length v : ∀ level, weight v ≤ String.length (dumps_at level v).
Proof.
  induction v as [|b|z|s|l IH|d IH] using json_nested_ind; intros level.
  - simpl. lia.
  - destruct b; simpl; lia.
  - apply pretty_length.
  - simpl. lia.
  - destruct l as [|x l]; [simpl; lia|].
    apply Forall_cons in IH as [IHx IHl].
    cbn [dumps_at weight fmap list_fmap foldr].
    rewrite !length_append.
    pose proof (nl_length (S level)). pose proof (IHx (S level)).
    pose proof (items_tail_weight level "]" (weight <$> l)
                  (dumps_at (S level) <$> l)) as Htail.
    unfold tail_weight in Htail.
    assert (Forall2 (λ w text, w ≤ String.length text) (weight <$> l)
              (dumps_at (S level) <$> l)) as Hall.
    { apply Forall2_fmap, Forall_Forall2_diag.
      eapply Forall_impl; [exact IHl|]. intros y Hy. apply Hy. }
    specialize (Htail Hall). change (String.length "[") with 1. lia.
  - destruct d as [|kv d]; [simpl; lia|].
    apply Forall_cons in IH as [IHx IHl].
    cbn [dumps_at weight fmap list_fmap foldr].
    unfold member_text at 1. rewrite !length_append.
    pose proof (nl_length (S level)). pose proof (IHx (S level)).
    pose proof (items_tail_weight level "}" ((λ kv, weight kv.2) <$> d)
                  ((λ kv, member_text kv.1 (dumps_at (S level) kv.2)) <$> d))
      as Htail.
    unfold tail_weight in Htail.
    assert (Forall2 (λ w text, w ≤ String.length text)
              ((λ kv, weight kv.2) <$> d)
              ((λ kv, member_text kv.1 (dumps_at (S level) kv.2)) <$> d)) as Hall.
    { apply Forall2_fmap, Forall_Forall2_diag.
      eapply Forall_impl; [exact IHl|]. intros y Hy. simpl.
      unfold member_text. rewrite !length_append. specialize (Hy (S level)). lia. }
    specialize (Htail Hall). change (String.length "{") with 1. lia.
Qed.

(** The reference parser reads back what the reference printer writes. *)
Theorem loads_dumps v :
  unique_keys v → loads (dumps v +:+ newline) = Some v.
Proof.
  intros Huk. unfold loads, dumps.
  rewrite (dumps_round_trips v Huk 0 _ newline); [reflexivity| |by right].
  rewrite length_append. pose proof (weight_le_length v 0). lia.
Qed.

Lemma unique_keys_arr l : unique_keys (JArr l) ↔ Forall unique_keys l.
Proof. apply foldr_and_Forall. Qed.

Lemma unique_keys_obj d :
  unique_keys (JObj d) ↔ NoDup d.*1 ∧ Forall (λ kv, unique_keys kv.2) d.
Proof.
  change (unique_keys (JObj d))
    with (NoDup d.*1 ∧ foldr (λ p acc, p ∧ acc) True
                          ((λ kv, unique_keys kv.2) <$> d)).
  by rewrite (foldr_and_Forall (λ kv, unique_keys kv.2)).
Qed.

Lemma dict_set_keys k v d :
  (dict_set k v d).*1 = if decide (k ∈ d.*1) then d.*1 else d.*1 ++ [k].
Proof.
  induction d as [|[k0 v0] d IH]; [done|]. cbn [dict_set].
  destruct (decide (k0 = k)) as [->|Hne]; rewrite !fmap_cons; cbn [fst].
  - by rewrite decide_True by left.
  - rewrite IH. destruct (decide (k ∈ d.*1)) as [Hin|Hout].
    + by rewrite decide_True by (by right).
    + rewrite decide_False; [done|].
      intros [?|?]%elem_of_cons; congruence.
Qed.

Lemma dict_set_unique k v d :
  unique_keys v → unique_keys (JObj d) → unique_keys (JObj (dict_set k v d)).
Proof.
  rewrite !unique_keys_obj. intros Hv [Hnd Hall]. split.
  - rewrite dict_set_keys. destruct (decide (k ∈ d.*1)); [done|].
    apply NoDup_app. split_and!; [done| |apply NoDup_singleton].
    intros x Hx ->%list_elem_of_singleton. done.
  - clear Hnd. induction Hall as [|[k0 v0] d Hkv Hall IH]; simpl.
    + by repeat constructor.
    + destruct (decide (k0 = k)); by constructor.
Qed.

Lemma parse_unique_keys fuel :
  (∀ s v rest, parse_value fuel s = Some (v, rest) → unique_keys v) ∧
  (∀ s acc v rest,
     unique_keys (JArr acc) →
     parse_elements fuel s acc = Some (v, rest) → unique_keys v) ∧
  (∀ s acc v rest,
     unique_keys (JObj acc) →
     parse_members fuel s acc = Some (v, rest) → unique_keys v).
Proof.
  induction fuel as [|fuel (IHv & IHe & IHm)]; [done|]. split_and!.
  - intros s v rest. cbn [parse_value].
    destruct (skip_ws s) as [|c s']; [done|]. cbv zeta.
    repeat case_match;
      first [ done
            | by intros [= <- _]
            | by (intros [= <- _]; apply unique_keys_obj; split; constructor)
            | by (intros Heq; apply fmap_Some in Heq as (? & _ & [= -> _]))
            | by (intros Heq; apply fmap_Some in Heq as ([? ?] & _ & Heq);
                  cbn in Heq; injection Heq as -> _)
            | by (intros Heq; eapply IHe; [|exact Heq])
            | by (intros Heq; eapply IHm; [|exact Heq];
                  apply unique_keys_obj; split; constructor) ].
  - intros s acc v rest Hacc. cbn [parse_elements].
    destruct (parse_value fuel s) as [[v1 rest1]|] eqn:Hv1; [|done].
    apply IHv in Hv1.
    assert (unique_keys (JArr (acc ++ [v1]))) as Hacc'.
    { apply unique_keys_arr, Forall_app. split; [by apply unique_keys_arr|].
      by repeat constructor. }
    destruct (skip_ws rest1) as [|c rest']; [done|]. cbv zeta.
    repeat case_match;
      first [ done | by intros [= <- _]
            | by (intros Heq; eapply IHe; [|exact Heq]) ].
  - intros s acc v rest Hacc. cbn [parse_members].
    destruct (skip_ws s) as [|q s1]; [done|].
    case_match; [|done].
    destruct (parse_chars s1) as [[key s2]|]; [|done].
    destruct (skip_ws s2) as [|colon s3]; [done|].
    case_match; [|done].
    destruct (parse_value fuel s3) as [[v1 rest1]|] eqn:Hv1; [|done].
    apply IHv in Hv1.
    pose proof (dict_set_unique key v1 acc Hv1 Hacc) as Hacc'.
    destruct (skip_ws rest1) as [|c rest']; [done|]. cbv zeta.
    repeat case_match;
      first [ done | by intros [= <- _]
            | by (intros Heq; eapply IHm; [|exact Heq]) ].
Qed.

(** What the reference parser returns has no object with a repeated key,
    as the dicts of [json.loads] have not. *)
Lemma loads_unique_keys text v : loads text = Some v → unique_keys v.
Proof.
  unfold loads.
  destruct (parse_value _ text) as [[v' rest]|] eqn:Hparse; [|done].
  destruct (skip_ws rest); [|done]. intros [= <-].
  by apply (proj1 (parse_unique_keys _)) in Hparse.
Qed.

(** Whatever the reference parser returned, it reads back from the text
    the reference printer writes for it. *)
Theorem reference_reads_back text v :
  loads text = Some v → reads_back runtime v.
Proof. intros Hv. apply loads_dumps. by eapply loads_unique_keys. Qed.

End ReferenceCodec.

(** * The claims of the specification *)

(** ** C2: the partition follows the outcome *)

(** C2.  For every list of records, a record is put in the removed list
    iff the outcome of its identifier is [not_found] or [not_member], and
    kept iff it is [member] or [error]; a removed record carries its
    outcome as [reason].  On the three records alice (a participant), bob
    (exists, not a participant) and carol (unknown to Launchpad) the
    surviving list is alice, the removed list is bob tagged [not_member]
    and carol tagged [not_found], and a normal run signals
    [has_changes=true]. *)
Theorem removed_iff_outcome_removable :
  (∀ (rt : Runtime) (items : list json) (launchpad : Launchpad) (w : World),
     Forall is_record items →
     ∃ valid removed nf w',
       validate_memberships (JArr items) launchpad w
       = (Ok (valid, removed, nf), w') ∧
       (∀ entry, entry ∈ removed ↔
          ∃ feed s o,
            feed ∈ items ∧ nick_of feed = Some s ∧
            has_outcome launchpad s o ∧ (o = not_found ∨ o = not_member) ∧
            py_with feed "reason" (JStr (outcome_name o)) = Ok entry) ∧
       (∀ feed, feed ∈ valid ↔
          (feed ∈ items ∧
           ∃ s o, nick_of feed = Some s ∧ has_outcome launchpad s o ∧
                  (o = member ∨ o = error)))) ∧
  (@validate_memberships Reference.runtime (JArr scenario_feeds)
     scenario_launchpad scenario_world).1
  = Ok ([ scenario_record "Alice" "alice" ],
        [ JObj [ ("name", JStr "Bob"); ("nick", JStr "bob");
                 ("url", JStr "https://example.org/bob.xml");
                 ("reason", JStr "not_member") ];
          JObj [ ("name", JStr "Carol"); ("nick", JStr "carol");
                 ("url", JStr "https://example.org/carol.xml");
                 ("reason", JStr "not_found") ] ],
        {[ "carol" ]}) ∧
  (let run := @main Reference.runtime (mkArgs false [] false)
                scenario_launchpad scenario_world in
   run.1 = Ok 0 ∧ stdout run.2 = ["::set-output name=has_changes::true"]).
Proof.
  split; [|split; [|split]]; try (vm_compute; reflexivity).
  intros rt items launchpad w Hall.
  destruct (validate_memberships_run items launchpad w Hall)
    as (nicks & t & Hrun & Hfacts).
  eexists _, _, _, _. split; [exact Hrun|]. split.
  - intros entry. rewrite list_elem_of_omap. split.
    + intros (feed & Hin & Hre).
      destruct (proj1 (Forall_forall _ _) Hall feed Hin) as [s Hs].
      rewrite (removal_entry_outcome _ _ _ _ _ _ Hfacts Hin Hs) in Hre.
      exists feed, s, (outcome_of launchpad s).
      rewrite has_outcome_iff. split_and!; try done.
      * destruct (outcome_of launchpad s); try discriminate; tauto.
      * destruct (outcome_of launchpad s); try discriminate;
          destruct (py_with _ _ _); congruence.
    + intros (feed & s & o & Hin & Hs & Ho & Hor & Hpw).
      exists feed. split; [done|]. apply has_outcome_iff in Ho. subst o.
      rewrite (removal_entry_outcome _ _ _ _ _ _ Hfacts Hin Hs).
      destruct Hor as [Ho|Ho]; rewrite Ho in *; by rewrite Hpw.
  - intros feed. rewrite list_elem_of_filter. split.
    + intros [Hre Hin]. split; [done|].
      destruct (proj1 (Forall_forall _ _) Hall feed Hin) as [s Hs].
      rewrite (removal_entry_outcome _ _ _ _ _ _ Hfacts Hin Hs) in Hre.
      exists s, (outcome_of launchpad s). rewrite has_outcome_iff.
      split_and!; try done.
      destruct (removal_entry_record ∅ ∅ feed s Hs) as (d & -> & _).
      destruct (outcome_of launchpad s); try tauto; discriminate.
    + intros (Hin & s & o & Hs & Ho & Hor). split; [|done].
      apply has_outcome_iff in Ho. subst o.
      rewrite (removal_entry_outcome _ _ _ _ _ _ Hfacts Hin Hs).
      by destruct Hor as [-> | ->].
Qed.

Lemma removed_iff_outcome_removable_witness :
  Forall is_record scenario_feeds ∧
  ∃ valid removed nf w',
    @validate_memberships Reference.runtime (JArr scenario_feeds)
      scenario_launchpad scenario_world
    = (Ok (valid, removed, nf), w') ∧
    (∀ entry, entry ∈ removed ↔
       ∃ feed s o,
         feed ∈ scenario_feeds ∧ nick_of feed = Some s ∧
         @has_outcome Reference.runtime scenario_launchpad s o ∧
         (o = not_found ∨ o = not_member) ∧
         py_with feed "reason" (JStr (outcome_name o)) = Ok entry) ∧
    (∀ feed, feed ∈ valid ↔
       (feed ∈ scenario_feeds ∧
        ∃ s o, nick_of feed = Some s ∧
               @has_outcome Reference.runtime scenario_launchpad s o ∧
               (o = member ∨ o = error))).
Proof.
  assert (Forall is_record scenario_feeds) as Hrec.
  { repeat constructor; eexists; reflexivity. }
  split; [exact Hrec|].
  exact (proj1 removed_iff_outcome_removable Reference.runtime scenario_feeds
           scenario_launchpad scenario_world Hrec).
Defined.

(** ** C3: a failed lookup never removes a record *)

(** C3.  When the lookup of an identifier raises an error other than
    not-found, the outcome of the check is [error] (for an identifier
    outside the membership set: a member is never looked up), every
    record bearing the identifier is in the surviving list and no
    removed entry bears it. *)
Theorem lookup_error_keeps_records :
  ∀ (rt : Runtime) (items : list json) (launchpad : Launchpad) (w : World)
    (s : string),
    Forall is_record items →
    people launchpad (lower s) = Failed →
    ((lower s ∉ members_of launchpad) →
     returns (check_single_nick launchpad s (members_of launchpad)) error) ∧
    ∃ valid removed nf w',
      validate_memberships (JArr items) launchpad w
      = (Ok (valid, removed, nf), w') ∧
      (∀ feed, feed ∈ items → nick_of feed = Some s → feed ∈ valid) ∧
      (∀ entry, entry ∈ removed → nick_of entry ≠ Some s).
Proof.
  intros rt items launchpad w s Hall Hfail. split.
  - intros Hout.
    pose proof (check_single_nick_returns launchpad s (members_of launchpad)) as Hr.
    by rewrite decide_False, Hfail in Hr by done.
  - destruct (validate_memberships_run items launchpad w Hall)
      as (nicks & t & Hrun & Hfacts).
    eexists _, _, _, _. split; [exact Hrun|].
    apply (kept_by_outcome launchpad items nicks t s Hall Hfacts).
    unfold outcome_of. rewrite Hfail.
    destruct (decide (selected s)), (decide (lower s ∈ members_of launchpad)); tauto.
Qed.

Lemma lookup_error_keeps_records_witness :
  Forall is_record outage_feeds ∧
  people scenario_launchpad (@lower Reference.runtime "Dave") = Failed ∧
  returns (@check_single_nick Reference.runtime scenario_launchpad "Dave"
             (members_of scenario_launchpad)) error ∧
  ∃ valid removed nf w',
    @validate_memberships Reference.runtime (JArr outage_feeds)
      scenario_launchpad scenario_world
    = (Ok (valid, removed, nf), w') ∧
    scenario_record "Dave" "Dave" ∈ valid ∧
    (∀ entry, entry ∈ removed → nick_of entry ≠ Some "Dave").
Proof.
  assert (Forall is_record outage_feeds) as Hrec.
  { repeat constructor; eexists; reflexivity. }
  assert (people scenario_launchpad (@lower Reference.runtime "Dave") = Failed)
    as Hfail by reflexivity.
  assert (@lower Reference.runtime "Dave" ∉ members_of scenario_launchpad)
    as Hout.
  { change (@lower Reference.runtime "Dave") with "dave".
    unfold members_of. rewrite elem_of_list_to_set.
    intros [Heq|Hin]%elem_of_cons; [discriminate|by apply elem_of_nil in Hin]. }
  destruct (lookup_error_keeps_records Reference.runtime outage_feeds
              scenario_launchpad scenario_world "Dave" Hrec Hfail)
    as (Hret & valid & removed & nf & w' & Hrun & Hkept & Hgone).
  split; [exact Hrec|]. split; [exact Hfail|]. split; [exact (Hret Hout)|].
  exists valid, removed, nf, w'. split; [exact Hrun|]. split; [|exact Hgone].
  apply Hkept; [|reflexivity].
  apply elem_of_app. right. by apply list_elem_of_singleton.
Defined.

(** ** C7: the allow-list *)

(** C7.  A nick that matches the allow-list after case folding has
    outcome [member], whatever the membership set and the lookup answer:
    its records are kept, no removed entry bears it, and the run makes no
    lookup for it. *)
Theorem allowed_nick_is_kept_without_lookup :
  ∀ (rt : Runtime) (items : list json) (launchpad : Launchpad) (w : World)
    (s : string),
    Forall is_record items →
    lower s ∈ allowed_lower →
    has_outcome launchpad s member ∧
    ∃ valid removed nf calls w',
      validate_memberships (JArr items) launchpad w
      = (Ok (valid, removed, nf), w') ∧
      lookups w' = lookups w ++ calls ∧
      (lower s ∉ calls) ∧
      (∀ feed, feed ∈ items → nick_of feed = Some s → feed ∈ valid) ∧
      (∀ entry, entry ∈ removed → nick_of entry ≠ Some s).
Proof.
  intros rt items launchpad w s Hall Hallowed.
  assert (¬ selected s) as Hnsel by (intros [_ ?]; done).
  assert (outcome_of launchpad s = member) as Ho.
  { unfold outcome_of. by rewrite decide_False by done. }
  split; [by apply has_outcome_iff|].
  destruct (validate_memberships_run items launchpad w Hall)
    as (nicks & t & Hrun & Hfacts).
  eexists _, _, _, (lookups_for launchpad nicks), _.
  split; [exact Hrun|]. split; [done|]. split.
  - intros Hcall.
    destruct (elem_of_lookups_for _ _ _ _ _ Hfacts Hcall)
      as (s' & Heq & [_ Hs'] & _).
    apply Hs'. by rewrite <- Heq.
  - apply (kept_by_outcome launchpad items nicks t s Hall Hfacts). by left.
Qed.

Lemma allowed_nick_is_kept_without_lookup_witness :
  Forall is_record scenario_feeds ∧
  @lower Reference.runtime "UWN" ∈ @allowed_lower Reference.runtime ∧
  @has_outcome Reference.runtime scenario_launchpad "UWN" member.
Proof.
  assert (Forall is_record scenario_feeds) as Hrec.
  { repeat constructor; eexists; reflexivity. }
  assert (@lower Reference.runtime "UWN" ∈ @allowed_lower Reference.runtime)
    as Hallowed by (vm_compute; set_solver).
  split; [exact Hrec|]. split; [exact Hallowed|].
  exact (proj1 (allowed_nick_is_kept_without_lookup Reference.runtime
                  scenario_feeds scenario_launchpad scenario_world "UWN"
                  Hrec Hallowed)).
Defined.

(** ** C8: members are never looked up *)

(** C8.  A nick whose lowered form is in the membership set has outcome
    [member] and is never looked up; two runs that differ only in how
    the lookup behaves give it the same outcome and keep its records. *)
Theorem member_outcome_independent_of_lookup :
  ∀ (rt : Runtime) (items : list json) (launchpad launchpad' : Launchpad)
    (w : World) (s : string),
    Forall is_record items →
    participants launchpad' = participants launchpad →
    lower s ∈ members_of launchpad →
    returns (check_single_nick launchpad s (members_of launchpad)) member ∧
    has_outcome launchpad s member ∧
    has_outcome launchpad' s member ∧
    ∃ valid removed nf calls w',
      validate_memberships (JArr items) launchpad w
      = (Ok (valid, removed, nf), w') ∧
      lookups w' = lookups w ++ calls ∧
      (lower s ∉ calls) ∧
      (∀ feed, feed ∈ items → nick_of feed = Some s → feed ∈ valid) ∧
      (∀ entry, entry ∈ removed → nick_of entry ≠ Some s).
Proof.
  intros rt items launchpad launchpad' w s Hall Hsame Hmem.
  assert (members_of launchpad' = members_of launchpad) as Hm
    by (unfold members_of; by rewrite Hsame).
  assert (∀ lp, members_of lp = members_of launchpad →
                outcome_of lp s = member) as Ho.
  { intros lp Hlp. unfold outcome_of. rewrite Hlp.
    destruct (decide (selected s)); [|done]. by rewrite decide_True by done. }
  split.
  { pose proof (check_single_nick_returns launchpad s (members_of launchpad)) as Hr.
    by rewrite decide_True in Hr by done. }
  split; [apply has_outcome_iff; by rewrite Ho|].
  split; [apply has_outcome_iff; by rewrite Ho|].
  destruct (validate_memberships_run items launchpad w Hall)
    as (nicks & t & Hrun & Hfacts).
  eexists _, _, _, (lookups_for launchpad nicks), _.
  split; [exact Hrun|]. split; [done|]. split.
  - intros Hcall.
    destruct (elem_of_lookups_for _ _ _ _ _ Hfacts Hcall)
      as (s' & Heq & _ & Hout & _).
    apply Hout. by rewrite <- Heq.
  - apply (kept_by_outcome launchpad items nicks t s Hall Hfacts).
    left. by apply Ho.
Qed.

Lemma member_outcome_independent_of_lookup_witness :
  Forall is_record scenario_feeds ∧
  @lower Reference.runtime "Alice" ∈ members_of scenario_launchpad ∧
  @has_outcome Reference.runtime scenario_launchpad "Alice" member ∧
  @has_outcome Reference.runtime (mkLaunchpad ["alice"] (λ _, NotFound))
     "Alice" member.
Proof.
  assert (Forall is_record scenario_feeds) as Hrec.
  { repeat constructor; eexists; reflexivity. }
  assert (@lower Reference.runtime "Alice" ∈ members_of scenario_launchpad)
    as Hmem by (vm_compute; set_solver).
  split; [exact Hrec|]. split; [exact Hmem|].
  pose proof (member_outcome_independent_of_lookup Reference.runtime
                scenario_feeds scenario_launchpad
                (mkLaunchpad ["alice"] (λ _, NotFound))
                scenario_world "Alice" Hrec eq_refl Hmem) as (_ & H1 & H2 & _).
  exact (conj H1 H2).
Defined.

(** ** C10: records without a nick *)

(** C10.  A record whose [nick] is absent or the empty string is not
    among the nicks to check, causes no lookup, and is in the surviving
    list, for every membership set and every lookup: the run with the
    record and the run without it select the same nicks, make the same
    lookups and remove the same entries, and the surviving list of the
    first is that of the second with the record at its place. *)
Theorem blank_nick_record_is_kept :
  ∀ (rt : Runtime) (items1 items2 : list json) (d : list (string * json))
    (launchpad : Launchpad) (w : World),
    Forall is_record (items1 ++ JObj d :: items2) →
    dict_get "nick" d = None ∨ dict_get "nick" d = Some (JStr "") →
    (∃ nicks,
       get_unique_nicks (JArr (items1 ++ JObj d :: items2)) = Ok nicks ∧
       get_unique_nicks (JArr (items1 ++ items2)) = Ok nicks ∧
       "" ∉ nicks) ∧
    ∃ valid1 valid2 removed nf w',
      validate_memberships (JArr (items1 ++ JObj d :: items2)) launchpad w
      = (Ok (valid1 ++ JObj d :: valid2, removed, nf), w') ∧
      validate_memberships (JArr (items1 ++ items2)) launchpad w
      = (Ok (valid1 ++ valid2, removed, nf), w').
Proof.
  intros rt items1 items2 d launchpad w Hall Hnick.
  assert (nick_of (JObj d) = Some "") as Hblank.
  { simpl. by destruct Hnick as [-> | ->]. }
  assert (Forall is_record (items1 ++ items2)) as Hall'.
  { apply Forall_app in Hall as [H1 H2]. apply Forall_cons in H2 as [_ H2].
    by apply Forall_app. }
  destruct (validate_memberships_phases _ launchpad w Hall)
    as (nicks & t & Hloop & Hrun & Hfacts).
  assert (get_unique_nicks_loop (items1 ++ items2) ∅ = Ok nicks) as Hloop'.
  { by rewrite <- (get_unique_nicks_loop_blank items1 (JObj d) items2 ∅ Hblank). }
  assert ("" ∉ nicks) as Hout.
  { destruct Hfacts as (Hnicks & _). rewrite Hnicks. by intros [[? _] _]. }
  split.
  { exists nicks. unfold get_unique_nicks. simpl. done. }
  rewrite (validate_memberships_from_phases _ _ _ _ _ _ Hall Hloop Hrun).
  rewrite (validate_memberships_from_phases _ _ _ _ _ _ Hall' Hloop' Hrun).
  assert (removal_entry (non_member_nicks t ∪ not_found_nicks t)
            (not_found_nicks t) (JObj d) = None) as Hkeep.
  { rewrite (removal_entry_outcome launchpad _ nicks t (JObj d) "" Hfacts);
      [|apply elem_of_app; right; left|done].
    unfold outcome_of. rewrite decide_False; [done|]. by intros [? _]. }
  rewrite !filter_app, !omap_app, filter_cons_True by done.
  cbn [omap list_omap]. rewrite Hkeep.
  eexists _, _, _, _, _. split; reflexivity.
Qed.

Lemma blank_nick_record_is_kept_witness :
  let anonymous := [("name", JStr "Nobody"); ("url", JStr "https://example.org/n.xml")] in
  Forall is_record (scenario_feeds ++ JObj anonymous :: []) ∧
  ∃ valid1 valid2 removed nf w',
    @validate_memberships Reference.runtime
      (JArr (scenario_feeds ++ JObj anonymous :: []))
      scenario_launchpad scenario_world
    = (Ok (valid1 ++ JObj anonymous :: valid2, removed, nf), w') ∧
    @validate_memberships Reference.runtime (JArr (scenario_feeds ++ []))
      scenario_launchpad scenario_world
    = (Ok (valid1 ++ valid2, removed, nf), w').
Proof.
  intros anonymous.
  assert (Forall is_record (scenario_feeds ++ JObj anonymous :: [])) as Hrec.
  { repeat constructor; eexists; reflexivity. }
  split; [exact Hrec|].
  exact (proj2 (blank_nick_record_is_kept Reference.runtime scenario_feeds []
                  anonymous scenario_launchpad scenario_world Hrec
                  (or_introl eq_refl))).
Defined.

(** ** C1: dry run *)

(** C1, as stated, fails: a dry run over the scenario finds two removable
    records, leaves the files as they are, and signals
    [has_changes=false]; it does not signal [has_changes=true]. *)
Lemma dry_run_signals_true_counterexample :
  let run := @main Reference.runtime (mkArgs true [] false)
               scenario_launchpad scenario_world in
  (∃ valid entry removed nf,
     (@validate_memberships Reference.runtime (JArr scenario_feeds)
        scenario_launchpad scenario_world).1
     = Ok (valid, entry :: removed, nf)) ∧
  run.1 = Ok 0 ∧
  files run.2 = files scenario_world ∧
  stdout run.2 = ["::set-output name=has_changes::false"] ∧
  "::set-output name=has_changes::true" ∉ stdout run.2.
Proof.
  assert (stdout (@main Reference.runtime (mkArgs true [] false)
                    scenario_launchpad scenario_world).2
          = ["::set-output name=has_changes::false"]) as Hout
    by (vm_compute; reflexivity).
  cbv zeta. rewrite Hout.
  split_and!; try (vm_compute; reflexivity).
  - eexists _, _, _, _. vm_compute. reflexivity.
  - intros Hin. apply list_elem_of_singleton in Hin. discriminate.
Qed.

(** C1, amended.  In dry-run mode (without [--check]) the run changes no
    file other than the one [GITHUB_OUTPUT] names, so the data file is
    left as it was, and when it completes it signals [has_changes=false],
    whether or not records are removable; it completes whenever the data
    file holds a list of records with names and the device takes the
    signal. *)
Theorem dry_run_changes_no_file_and_signals_false :
  ∀ (rt : Runtime) (args : Args) (launchpad : Launchpad) (w : World),
    dry_run args = true → check args = [] →
    let run := main args launchpad w in
    (∀ path, GITHUB_OUTPUT w ≠ Some path →
             files run.2 !! path = files w !! path) ∧
    (run.1 = Ok 0 →
     stdout run.2 = stdout w ++ ["::set-output name=has_changes::false"]) ∧
    (∀ text items,
       files w !! FEEDS_FILE = Some text →
       json_loads text = Some (JArr items) →
       Forall is_record items → Forall has_name items →
       disk_quota w = None →
       run.1 = Ok 0).
Proof.
  intros rt args launchpad w Hdry Hcheck run.
  destruct (main_dry_run_effects args launchpad w Hdry Hcheck) as [Hfiles Hout].
  split; [exact Hfiles|]. split; [exact Hout|].
  intros text items Htext Hjson Hall Hnames Hquota.
  by apply (main_dry_run_returns args launchpad w text items).
Qed.

Lemma dry_run_changes_no_file_and_signals_false_witness :
  let args := mkArgs true [] false in
  let run := @main Reference.runtime args scenario_launchpad scenario_world in
  dry_run args = true ∧ check args = [] ∧
  (∀ path, GITHUB_OUTPUT scenario_world ≠ Some path →
           files run.2 !! path = files scenario_world !! path) ∧
  (run.1 = Ok 0 →
   stdout run.2
   = stdout scenario_world ++ ["::set-output name=has_changes::false"]).
Proof.
  intros args run.
  split; [reflexivity|]. split; [reflexivity|].
  destruct (dry_run_changes_no_file_and_signals_false Reference.runtime args
              scenario_launchpad scenario_world eq_refl eq_refl)
    as (Hfiles & Hout & _).
  exact (conj Hfiles Hout).
Defined.

(** * Further properties of the script *)

Section Partition.
Context `{rt : Runtime}.

Lemma omap_filter_ext {A B} (f g : A → option B) (l : list A) :
  (∀ x, x ∈ l → f x = g x) →
  omap f l = omap g l ∧
  filter (λ x, f x = None) l = filter (λ x, g x = None) l.
Proof.
  induction l as [|x l IH]; [done|]. intros Hfg.
  destruct IH as [IH1 IH2]; [intros y Hy; apply Hfg; by right|].
  assert (f x = g x) as Hx by (apply Hfg; by left).
  split.
  - cbn [omap list_omap]. by rewrite Hx, IH1.
  - destruct (g x) as [b|] eqn:Hg.
    + rewrite !filter_cons_False by congruence. done.
    + rewrite !filter_cons_True by congruence. by rewrite IH2.
Qed.

Lemma entry_for_removal_entry launchpad items nicks t feed :
  run_facts launchpad items nicks t →
  feed ∈ items → is_record feed →
  removal_entry (non_member_nicks t ∪ not_found_nicks t) (not_found_nicks t) feed
  = entry_for launchpad feed.
Proof.
  intros Hfacts Hin [s Hs].
  rewrite (removal_entry_outcome launchpad items nicks t feed s Hfacts Hin Hs).
  destruct feed as [| | | | |d]; try discriminate.
  unfold entry_for. rewrite Hs. cbn [py_with].
  by destruct (outcome_of launchpad s).
Qed.

Lemma validate_memberships_closed items launchpad w :
  Forall is_record items →
  ∃ nicks t,
    validate_memberships (JArr items) launchpad w
    = (Ok (filter (λ feed, entry_for launchpad feed = None) items,
           omap (entry_for launchpad) items,
           not_found_nicks t),
       add_lookups (lookups_for launchpad nicks) w) ∧
    run_facts launchpad items nicks t.
Proof.
  intros Hall.
  destruct (validate_memberships_run items launchpad w Hall)
    as (nicks & t & Hrun & Hfacts).
  exists nicks, t. split; [|done]. rewrite Hrun.
  destruct (omap_filter_ext
              (removal_entry (non_member_nicks t ∪ not_found_nicks t)
                             (not_found_nicks t))
              (entry_for launchpad) items) as [-> ->]; [|done].
  intros feed Hin. apply (entry_for_removal_entry launchpad items nicks t); [done..|].
  by eapply Forall_forall in Hall.
Qed.

End Partition.

Section PartitionFacts.
Context `{rt : Runtime}.

Lemma outcome_of_not_found launchpad s :
  outcome_of launchpad s = not_found ↔
  selected s ∧ (lower s ∉ members_of launchpad) ∧
  people launchpad (lower s) = NotFound.
Proof.
  unfold outcome_of.
  destruct (decide (selected s)) as [Hsel|Hsel];
    [|split; [done|by intros (? & _)]].
  destruct (decide (lower s ∈ members_of launchpad)) as [Hin|Hout];
    [split; [done|by intros (_ & ? & _)]|].
  destruct (people launchpad (lower s)); split;
    first [done | by intros (_ & _ & ?)].
Qed.

Lemma not_found_nicks_outcome launchpad items nicks t s :
  run_facts launchpad items nicks t →
  s ∈ not_found_nicks t ↔
  (∃ feed, feed ∈ items ∧ nick_of feed = Some s) ∧
  outcome_of launchpad s = not_found.
Proof.
  intros (Hnicks & _ & Hnf & _). rewrite Hnf, Hnicks, outcome_of_not_found.
  tauto.
Qed.

Lemma filter_all {A} (P : A → Prop) `{∀ x, Decision (P x)} (l : list A) :
  (∀ x, x ∈ l → P x) → filter P l = l.
Proof.
  induction l as [|x l IH]; [done|]. intros HP.
  rewrite filter_cons_True by (apply HP; by left).
  rewrite IH; [done|]. intros y Hy. apply HP. by right.
Qed.

Lemma omap_all_None {A B} (f : A → option B) (l : list A) :
  (∀ x, x ∈ l → f x = None) → omap f l = [].
Proof.
  induction l as [|x l IH]; [done|]. intros Hf. cbn [omap list_omap].
  rewrite (Hf x) by (by left). apply IH. intros y Hy. apply Hf. by right.
Qed.

Lemma entry_for_fields launchpad d entry :
  entry_for launchpad (JObj d) = Some entry →
  ∃ s, nick_of (JObj d) = Some s ∧ removable (outcome_of launchpad s) = true ∧
       entry = JObj (dict_set "reason"
                       (JStr (outcome_name (outcome_of launchpad s))) d).
Proof.
  unfold entry_for. destruct (nick_of (JObj d)) as [s|]; [|done].
  destruct (removable (outcome_of launchpad s)) eqn:Hr; [|done].
  intros [= <-]. by exists s.
Qed.

Lemma entry_for_record launchpad feed entry :
  entry_for launchpad feed = Some entry → ∃ d, feed = JObj d.
Proof. destruct feed; try done. by eexists. Qed.

End PartitionFacts.

(** ** The partition, the lookups and the values of [nick] *)

(** X1.  [validate_memberships] splits a list of records in order:
    [valid_feeds] is the input with the removable records (outcome
    [not_member] or [not_found]) taken out, [removed_entries] lists those
    records in the order of the input, each with its [reason], so that no
    record is lost, repeated or moved; [not_found_nicks] holds exactly
    the nicks of the records whose outcome is [not_found]. *)
Theorem validate_memberships_partitions_in_order :
  ∀ (rt : Runtime) (items : list json) (launchpad : Launchpad) (w : World),
    Forall is_record items →
    ∃ nf w',
      validate_memberships (JArr items) launchpad w
      = (Ok (filter (λ feed, entry_for launchpad feed = None) items,
             omap (entry_for launchpad) items, nf), w') ∧
      (∀ s, s ∈ nf ↔
            (∃ feed, feed ∈ items ∧ nick_of feed = Some s) ∧
            outcome_of launchpad s = not_found).
Proof.
  intros rt items launchpad w Hall.
  destruct (validate_memberships_closed items launchpad w Hall)
    as (nicks & t & Hrun & Hfacts).
  eexists _, _. split; [exact Hrun|].
  intros s. by apply (not_found_nicks_outcome launchpad items nicks t).
Qed.

Lemma validate_memberships_partitions_in_order_witness :
  Forall is_record scenario_feeds ∧
  ∃ nf w',
    @validate_memberships Reference.runtime (JArr scenario_feeds)
      scenario_launchpad scenario_world
    = (Ok (filter (λ feed, @entry_for Reference.runtime scenario_launchpad feed = None)
             scenario_feeds,
           omap (@entry_for Reference.runtime scenario_launchpad) scenario_feeds,
           nf), w').
Proof.
  assert (Forall is_record scenario_feeds) as Hrec
    by (repeat constructor; eexists; reflexivity).
  split; [exact Hrec|].
  destruct (validate_memberships_partitions_in_order Reference.runtime
              scenario_feeds scenario_launchpad scenario_world Hrec)
    as (nf & w' & Hrun & _).
  exists nf, w'. exact Hrun.
Defined.

(** X2.  Every surviving record is a record of the input as it was, and
    every removed entry is a record of the input with [reason] set to
    [not_found] or [not_member]: every other field keeps its value, the
    fields keep their order, and [reason] goes last unless the record
    already had one, whose place it takes. *)
Theorem removed_entry_keeps_fields :
  ∀ (rt : Runtime) (items valid removed : list json) (nf : gset string)
    (launchpad : Launchpad) (w w' : World),
    Forall is_record items →
    validate_memberships (JArr items) launchpad w = (Ok (valid, removed, nf), w') →
    (∀ feed, feed ∈ valid → feed ∈ items) ∧
    ∀ entry, entry ∈ removed →
      ∃ d d', JObj d ∈ items ∧ entry = JObj d' ∧
        d'.*1 = (if decide ("reason" ∈ d.*1) then d.*1 else d.*1 ++ ["reason"]) ∧
        (∀ k, k ≠ "reason" → dict_get k d' = dict_get k d) ∧
        (dict_get "reason" d' = Some (JStr "not_found") ∨
         dict_get "reason" d' = Some (JStr "not_member")).
Proof.
  intros rt items valid removed nf launchpad w w' Hall Hrun.
  destruct (validate_memberships_closed items launchpad w Hall)
    as (nicks & t & Hrun' & _).
  rewrite Hrun' in Hrun. injection Hrun as <- <- _ _. split.
  - intros feed Hin. by apply list_elem_of_filter in Hin as [_ Hin].
  - intros entry (feed & Hin & Hentry)%list_elem_of_omap.
    destruct (entry_for_record _ _ _ Hentry) as [d ->].
    apply entry_for_fields in Hentry as (s & _ & Hrem & ->).
    eexists d, _. split; [done|]. split; [done|].
    split; [apply ReferenceCodec.dict_set_keys|].
    split; [intros k Hk; by apply dict_get_set_ne|].
    rewrite dict_get_set_eq.
    destruct (outcome_of launchpad s); try discriminate; [by right|by left].
Qed.

Lemma removed_entry_keeps_fields_witness :
  ∃ valid removed nf w',
    Forall is_record scenario_feeds ∧
    @validate_memberships Reference.runtime (JArr scenario_feeds)
      scenario_launchpad scenario_world = (Ok (valid, removed, nf), w') ∧
    (∀ feed, feed ∈ valid → feed ∈ scenario_feeds) ∧
    ∀ entry, entry ∈ removed →
      ∃ d d', JObj d ∈ scenario_feeds ∧ entry = JObj d' ∧
        d'.*1 = (if decide ("reason" ∈ d.*1) then d.*1 else d.*1 ++ ["reason"]) ∧
        (∀ k, k ≠ "reason" → dict_get k d' = dict_get k d) ∧
        (dict_get "reason" d' = Some (JStr "not_found") ∨
         dict_get "reason" d' = Some (JStr "not_member")).
Proof.
  assert (Forall is_record scenario_feeds) as Hrec
    by (repeat constructor; eexists; reflexivity).
  eexists _, _, _, _. split; [exact Hrec|].
  assert (∀ x y : res (list json * list json * gset string) * World,
            x = y → x = y) as Hid by done.
  split; [vm_compute; reflexivity|].
  refine (removed_entry_keeps_fields Reference.runtime scenario_feeds _ _ _
            scenario_launchpad scenario_world _ Hrec _).
  vm_compute; reflexivity.
Defined.

Section LookupOrder.
Context `{rt : Runtime}.

Lemma StronglySorted_filter {A} (R : relation A) (P : A → Prop)
    `{∀ x, Decision (P x)} (l : list A) :
  StronglySorted R l → StronglySorted R (filter P l).
Proof.
  induction 1 as [|x l Hl IH Hx]; [constructor|].
  destruct (decide (P x)).
  - rewrite filter_cons_True by done. constructor; [done|].
    apply Forall_forall. intros y [_ Hy]%list_elem_of_filter.
    by eapply Forall_forall in Hx.
  - by rewrite filter_cons_False by done.
Qed.

End LookupOrder.

(** X3.  The lookups of a run are the lowered forms of the selected
    nicks outside the membership set, each spelling once, in ascending
    order of the spelling, as [sorted(nicks_to_check)] gives them:
    the order of the records in the data file plays no part. *)
Theorem lookups_in_ascending_order :
  ∀ (rt : Runtime) (items : list json) (launchpad : Launchpad) (w : World),
    Forall is_record items →
    ∃ checked,
      lookups (validate_memberships (JArr items) launchpad w).2
      = lookups w ++ (lower <$> checked) ∧
      StronglySorted String.le checked ∧
      NoDup checked ∧
      ∀ s, s ∈ checked ↔
           (selected s ∧ (lower s ∉ members_of launchpad) ∧
            ∃ feed, feed ∈ items ∧ nick_of feed = Some s).
Proof.
  intros rt items launchpad w Hall.
  destruct (validate_memberships_closed items launchpad w Hall)
    as (nicks & t & Hrun & (Hnicks & _)).
  exists (filter (λ nick, lower nick ∉ members_of launchpad)
            (merge_sort String.le (elements nicks))).
  rewrite Hrun. split; [done|]. split.
  { apply StronglySorted_filter, StronglySorted_merge_sort; apply _. }
  split.
  { apply NoDup_filter. rewrite merge_sort_Permutation. apply NoDup_elements. }
  intros s. rewrite list_elem_of_filter, elem_of_sorted_elements, Hnicks. tauto.
Qed.

Lemma lookups_in_ascending_order_witness :
  Forall is_record (rev scenario_feeds) ∧
  ∃ checked,
    lookups (@validate_memberships Reference.runtime (JArr (rev scenario_feeds))
               scenario_launchpad scenario_world).2
    = lookups scenario_world ++ (@lower Reference.runtime <$> checked) ∧
    StronglySorted String.le checked.
Proof.
  assert (Forall is_record (rev scenario_feeds)) as Hrec.
  { apply Forall_rev. repeat constructor; eexists; reflexivity. }
  split; [exact Hrec|].
  destruct (lookups_in_ascending_order Reference.runtime (rev scenario_feeds)
              scenario_launchpad scenario_world Hrec)
    as (checked & Hlog & Hsorted & _).
  exists checked. split; [exact Hlog|exact Hsorted].
Defined.

(** X4.  Whatever its input, and whether it returns or raises,
    [validate_memberships] changes no file, prints no [set-output] line
    and leaves the quota and the environment alone: it only adds
    lookups to those made before. *)
Theorem validate_memberships_only_looks_up :
  ∀ (rt : Runtime) (feeds : json) (launchpad : Launchpad) (w : World),
    let w' := (validate_memberships feeds launchpad w).2 in
    files w' = files w ∧ stdout w' = stdout w ∧
    disk_quota w' = disk_quota w ∧ GITHUB_OUTPUT w' = GITHUB_OUTPUT w ∧
    ∃ calls, lookups w' = lookups w ++ calls.
Proof.
  intros rt feeds launchpad w w'. subst w'.
  destruct (validate_memberships_world feeds launchpad w) as [calls ->].
  split_and!; try done. by exists calls.
Qed.

Section Idempotence.
Context `{rt : Runtime}.

Lemma validate_memberships_again items launchpad (w2 : World) :
  Forall is_record items →
  let valid := (filter (λ feed, entry_for launchpad feed = None) items) in
  ∃ w2', validate_memberships (JArr valid) launchpad w2 = (Ok (valid, [], ∅), w2').
Proof.
  intros Hall valid.
  assert (Forall is_record valid) as Hvalid.
  { apply Forall_forall. intros feed [_ Hin]%list_elem_of_filter.
    by eapply Forall_forall in Hall. }
  destruct (validate_memberships_closed valid launchpad w2 Hvalid)
    as (nicks & t & Hrun & Hfacts).
  assert (filter (λ feed, entry_for launchpad feed = None) valid = valid) as Hf.
  { apply filter_all. by intros feed [Hkept _]%list_elem_of_filter. }
  assert (omap (entry_for launchpad) valid = []) as Ho.
  { apply omap_all_None. by intros feed [Hkept _]%list_elem_of_filter. }
  assert (not_found_nicks t = ∅) as Hn.
  { apply elem_of_equiv_empty_L. intros s Hs.
    apply (not_found_nicks_outcome launchpad valid nicks t s Hfacts) in Hs
      as ((feed & Hin & Hnick) & Hout).
    apply list_elem_of_filter in Hin as [Hkept _].
    destruct feed as [| | | | |d]; try discriminate.
    unfold entry_for in Hkept. rewrite Hnick, Hout in Hkept. done. }
  rewrite Hf, Ho, Hn in Hrun. by eexists.
Qed.

End Idempotence.

(** X5.  Validation is idempotent: validating the surviving list of a
    run again, against the same directory, keeps every record of it,
    removes none and reports no nick as not found. *)
Theorem validate_memberships_idempotent :
  ∀ (rt : Runtime) (items valid removed : list json) (nf : gset string)
    (launchpad : Launchpad) (w w' w2 : World),
    Forall is_record items →
    validate_memberships (JArr items) launchpad w = (Ok (valid, removed, nf), w') →
    ∃ w2', validate_memberships (JArr valid) launchpad w2 = (Ok (valid, [], ∅), w2').
Proof.
  intros rt items valid removed nf launchpad w w' w2 Hall Hrun.
  destruct (validate_memberships_closed items launchpad w Hall)
    as (nicks & t & Hrun' & _).
  rewrite Hrun' in Hrun. injection Hrun as <- _ _ _.
  by apply validate_memberships_again.
Qed.

Lemma validate_memberships_idempotent_witness :
  ∃ valid removed nf w' w2',
    Forall is_record scenario_feeds ∧
    @validate_memberships Reference.runtime (JArr scenario_feeds)
      scenario_launchpad scenario_world = (Ok (valid, removed, nf), w') ∧
    removed ≠ [] ∧
    @validate_memberships Reference.runtime (JArr valid)
      scenario_launchpad w' = (Ok (valid, [], ∅), w2').
Proof.
  assert (Forall is_record scenario_feeds) as Hrec
    by (repeat constructor; eexists; reflexivity).
  pose (run := @validate_memberships Reference.runtime (JArr scenario_feeds)
                 scenario_launchpad scenario_world).
  assert (∃ valid removed nf w', run = (Ok (valid, removed, nf), w') ∧ removed ≠ [])
    as (valid & removed & nf & w' & Hrun & Hne).
  { eexists _, _, _, _. split; [vm_compute; reflexivity|discriminate]. }
  destruct (validate_memberships_idempotent Reference.runtime scenario_feeds
              valid removed nf scenario_launchpad scenario_world w' w' Hrec Hrun)
    as [w2' Hagain].
  exists valid, removed, nf, w', w2'.
  split; [exact Hrec|]. split; [exact Hrun|]. split; [exact Hne|exact Hagain].
Defined.

Section NickValues.
Context `{rt : Runtime}.

Lemma get_unique_nicks_loop_app items1 items2 acc :
  get_unique_nicks_loop (items1 ++ items2) acc
  = let? nicks := get_unique_nicks_loop items1 acc in
    get_unique_nicks_loop items2 nicks.
Proof.
  revert acc. induction items1 as [|item items1 IH]; intros acc; [done|].
  simpl. destruct (add_unique_nick item acc); simpl; [apply IH|done].
Qed.

Lemma filter_loop_app items1 items2 invalid not_found valid removed :
  filter_loop (items1 ++ items2) invalid not_found valid removed
  = let? parts := filter_loop items1 invalid not_found valid removed in
    filter_loop items2 invalid not_found parts.1 parts.2.
Proof.
  revert valid removed.
  induction items1 as [|item items1 IH]; intros valid removed; [done|].
  simpl. destruct (py_get item "nick" (JStr "")) as [nick|]; simpl; [|done].
  destruct (py_in nick invalid) as [[]|]; simpl; [|apply IH|done].
  destruct (py_in nick not_found) as [nf|]; simpl; [|done].
  destruct (py_with item "reason" _); simpl; [apply IH|done].
Qed.

Lemma validate_memberships_unfold items launchpad w nicks :
  get_unique_nicks_loop items ∅ = Ok nicks →
  ∃ t,
    validate_memberships (JArr items) launchpad w
    = (let? parts := filter_loop items (non_member_nicks t ∪ not_found_nicks t)
                       (not_found_nicks t) [] [] in
       Ok (parts.1, parts.2, not_found_nicks t),
       add_lookups (lookups_for launchpad nicks) w) ∧
    ∀ items', get_unique_nicks_loop items' ∅ = Ok nicks →
      validate_memberships (JArr items') launchpad w
      = (let? parts := filter_loop items' (non_member_nicks t ∪ not_found_nicks t)
                         (not_found_nicks t) [] [] in
         Ok (parts.1, parts.2, not_found_nicks t),
         add_lookups (lookups_for launchpad nicks) w).
Proof.
  intros Hloop.
  destruct (classify_loop_run launchpad (members_of launchpad)
              (merge_sort String.le (elements nicks)) (mkTally ∅ ∅ ∅) w)
    as (t & Hrun & _).
  exists t.
  assert (∀ items', get_unique_nicks_loop items' ∅ = Ok nicks →
      validate_memberships (JArr items') launchpad w
      = (let? parts := filter_loop items' (non_member_nicks t ∪ not_found_nicks t)
                         (not_found_nicks t) [] [] in
         Ok (parts.1, parts.2, not_found_nicks t),
         add_lookups (lookups_for launchpad nicks) w)) as Hall.
  { intros items' Hloop'.
    unfold validate_memberships, bind, lift, get_unique_nicks, get_ubuntu_members, ret.
    simpl. rewrite Hloop'. fold (members_of launchpad). rewrite Hrun.
    unfold lookups_for.
    by destruct (filter_loop items' _ _ [] []) as [[valid removed]|e]. }
  split; [by apply Hall|exact Hall].
Qed.

Lemma add_unique_nick_falsy d v nicks :
  dict_get "nick" d = Some v → py_truthy v = false →
  add_unique_nick (JObj d) nicks = Ok nicks.
Proof.
  intros Hv Hfalse. unfold add_unique_nick. simpl. rewrite Hv. simpl.
  destruct v as [|b|z|s| |]; simpl in *; by rewrite ?Hfalse.
Qed.

Lemma add_unique_nick_malformed feed nicks :
  malformed feed → add_unique_nick feed nicks = Raise AttributeError.
Proof.
  unfold malformed, add_unique_nick.
  destruct feed as [| | | | |d]; simpl; try done.
  destruct (dict_get "nick" d) as [v|]; simpl; [|done].
  destruct v; simpl; try done; by intros ->.
Qed.

End NickValues.

Section NickValueRuns.
Context `{rt : Runtime}.

Lemma filter_loop_around items1 rest invalid not_found :
  Forall is_record items1 →
  filter_loop (items1 ++ rest) invalid not_found [] []
  = filter_loop rest invalid not_found
      (filter (λ feed, removal_entry invalid not_found feed = None) items1)
      (omap (removal_entry invalid not_found) items1).
Proof.
  intros Hall. rewrite filter_loop_app.
  by rewrite (filter_loop_records _ _ _ [] [] Hall).
Qed.

Lemma get_unique_nicks_loop_skip items1 feed items2 acc :
  (∀ nicks, add_unique_nick feed nicks = Ok nicks) →
  get_unique_nicks_loop (items1 ++ feed :: items2) acc
  = get_unique_nicks_loop (items1 ++ items2) acc.
Proof.
  intros Hskip. rewrite !get_unique_nicks_loop_app.
  destruct (get_unique_nicks_loop items1 acc) as [nicks|]; simpl; [|done].
  by rewrite Hskip.
Qed.

End NickValueRuns.

(** X6.  A record whose [nick] is [null], [false] or [0] is treated as
    one without a nick: it is not checked and stays in the surviving
    list at its place, and the run removes the same entries and makes
    the same lookups as without it. *)
Theorem falsy_nick_record_is_kept :
  ∀ (rt : Runtime) (items1 items2 : list json) (d : list (string * json))
    (v : json) (launchpad : Launchpad) (w : World),
    Forall is_record items1 → Forall is_record items2 →
    dict_get "nick" d = Some v →
    v = JNull ∨ v = JBool false ∨ v = JInt 0 →
    ∃ valid1 valid2 removed nf w',
      validate_memberships (JArr (items1 ++ JObj d :: items2)) launchpad w
      = (Ok (valid1 ++ JObj d :: valid2, removed, nf), w') ∧
      validate_memberships (JArr (items1 ++ items2)) launchpad w
      = (Ok (valid1 ++ valid2, removed, nf), w').
Proof.
  intros rt items1 items2 d v launchpad w Hall1 Hall2 Hv Hfalsy.
  assert (py_truthy v = false) as Hfalse
    by (destruct Hfalsy as [->|[->| ->]]; reflexivity).
  assert (∀ s, py_in v s = Ok false) as Hin
    by (intros s; destruct Hfalsy as [->|[->| ->]]; reflexivity).
  assert (Forall is_record (items1 ++ items2)) as Hall
    by (by apply Forall_app).
  destruct (get_unique_nicks_loop_records _ ∅ Hall) as (nicks & Hloop & _).
  destruct (validate_memberships_unfold _ launchpad w nicks Hloop)
    as (t & Hrun & Hother).
  rewrite Hrun, Hother; clear Hrun Hother.
  2:{ rewrite get_unique_nicks_loop_skip; [done|].
      intros acc. by apply (add_unique_nick_falsy d v). }
  rewrite (filter_loop_records _ _ _ [] [] Hall).
  rewrite (filter_loop_around _ _ _ _ Hall1).
  cbn [filter_loop py_get res_bind from_option id]. rewrite Hv, Hin.
  cbn [res_bind]. rewrite (filter_loop_records _ _ _ _ _ Hall2).
  cbn [res_bind fst snd app]. rewrite filter_app, omap_app, <- app_assoc.
  by eexists _, _, _, _, _.
Qed.

Lemma falsy_nick_record_is_kept_witness :
  Forall is_record scenario_feeds ∧
  ∃ valid1 valid2 removed nf w',
    @validate_memberships Reference.runtime
      (JArr (scenario_feeds ++ JObj [("name", JStr "Zed"); ("nick", JNull)] :: []))
      scenario_launchpad scenario_world
    = (Ok (valid1 ++ JObj [("name", JStr "Zed"); ("nick", JNull)] :: valid2,
           removed, nf), w').
Proof.
  assert (Forall is_record scenario_feeds) as Hrec
    by (repeat constructor; eexists; reflexivity).
  split; [exact Hrec|].
  destruct (falsy_nick_record_is_kept Reference.runtime scenario_feeds []
              [("name", JStr "Zed"); ("nick", JNull)] JNull
              scenario_launchpad scenario_world Hrec (Forall_nil_2 _)
              eq_refl (or_introl eq_refl))
    as (valid1 & valid2 & removed & nf & w' & Hrun & _).
  exists valid1, valid2, removed, nf, w'. exact Hrun.
Defined.

(** X7.  A record whose [nick] is an empty list or an empty dict passes
    the selection of the nicks (it is falsy) and then stops the run:
    [nick in invalid_nicks] raises [TypeError], after all the lookups of
    the other records have been made. *)
Theorem unhashable_nick_raises_after_lookups :
  ∀ (rt : Runtime) (items1 items2 : list json) (d : list (string * json))
    (v : json) (launchpad : Launchpad) (w : World),
    Forall is_record items1 → Forall is_record items2 →
    dict_get "nick" d = Some v →
    v = JArr [] ∨ v = JObj [] →
    validate_memberships (JArr (items1 ++ JObj d :: items2)) launchpad w
    = (Raise TypeError,
       (validate_memberships (JArr (items1 ++ items2)) launchpad w).2).
Proof.
  intros rt items1 items2 d v launchpad w Hall1 Hall2 Hv Hempty.
  assert (py_truthy v = false) as Hfalse
    by (destruct Hempty as [->| ->]; reflexivity).
  assert (∀ s, py_in v s = Raise TypeError) as Hin
    by (intros s; destruct Hempty as [->| ->]; reflexivity).
  assert (Forall is_record (items1 ++ items2)) as Hall
    by (by apply Forall_app).
  destruct (get_unique_nicks_loop_records _ ∅ Hall) as (nicks & Hloop & _).
  destruct (validate_memberships_unfold _ launchpad w nicks Hloop)
    as (t & Hrun & Hother).
  rewrite Hrun, Hother; clear Hrun Hother.
  2:{ rewrite get_unique_nicks_loop_skip; [done|].
      intros acc. by apply (add_unique_nick_falsy d v). }
  rewrite (filter_loop_around _ _ _ _ Hall1).
  cbn [filter_loop py_get res_bind from_option id]. rewrite Hv, Hin.
  reflexivity.
Qed.

Lemma unhashable_nick_raises_after_lookups_witness :
  Forall is_record scenario_feeds ∧
  let run := @validate_memberships Reference.runtime
      (JArr (scenario_feeds ++ JObj [("name", JStr "Zed"); ("nick", JArr [])] :: []))
      scenario_launchpad scenario_world in
  run.1 = Raise TypeError ∧ lookups run.2 = ["bob"; "carol"].
Proof.
  assert (Forall is_record scenario_feeds) as Hrec
    by (repeat constructor; eexists; reflexivity).
  split; [exact Hrec|]. intros run. subst run.
  rewrite (unhashable_nick_raises_after_lookups Reference.runtime scenario_feeds []
             [("name", JStr "Zed"); ("nick", JArr [])] (JArr [])
             scenario_launchpad scenario_world Hrec (Forall_nil_2 _)
             eq_refl (or_introl eq_refl)).
  split; [reflexivity|]. vm_compute. reflexivity.
Defined.

(** X8.  An item that is not a dict, or a dict whose [nick] is truthy
    and not a string, makes [validate_memberships] raise
    [AttributeError] while it collects the nicks, before any lookup,
    whatever follows the item in the list. *)
Theorem malformed_item_raises_before_lookups :
  ∀ (rt : Runtime) (items1 items2 : list json) (feed : json)
    (launchpad : Launchpad) (w : World),
    Forall is_record items1 → malformed feed →
    validate_memberships (JArr (items1 ++ feed :: items2)) launchpad w
    = (Raise AttributeError, w).
Proof.
  intros rt items1 items2 feed launchpad w Hall1 Hbad.
  unfold validate_memberships, bind, lift, get_unique_nicks. simpl.
  rewrite get_unique_nicks_loop_app.
  destruct (get_unique_nicks_loop_records _ ∅ Hall1) as (nicks & -> & _).
  simpl. by rewrite (add_unique_nick_malformed _ _ Hbad).
Qed.

Lemma malformed_item_raises_before_lookups_witness :
  Forall is_record scenario_feeds ∧
  malformed (JObj [("name", JStr "Zed"); ("nick", JInt 5)]) ∧
  @validate_memberships Reference.runtime
    (JArr (scenario_feeds ++ JObj [("name", JStr "Zed"); ("nick", JInt 5)]
           :: [JStr "tail"]))
    scenario_launchpad scenario_world
  = (Raise AttributeError, scenario_world).
Proof.
  assert (Forall is_record scenario_feeds) as Hrec
    by (repeat constructor; eexists; reflexivity).
  assert (malformed (JObj [("name", JStr "Zed"); ("nick", JInt 5)])) as Hbad
    by reflexivity.
  split; [exact Hrec|]. split; [exact Hbad|].
  exact (malformed_item_raises_before_lookups Reference.runtime scenario_feeds
           [JStr "tail"] _ scenario_launchpad scenario_world Hrec Hbad).
Defined.

Section ReportLayout.
Context `{rt : Runtime}.

Lemma pr_row_iff entry row : pr_row entry = Ok row ↔ row_of entry row.
Proof.
  unfold pr_row, row_of. split.
  - destruct entry as [| | | | |d]; try done. cbn [py_getitem].
    destruct (dict_get "nick" d) as [nick|] eqn:Hn; [|done].
    destruct (dict_get "name" d) as [name|] eqn:Hm; [|done].
    destruct (dict_get "url" d) as [url|] eqn:Hu; [|done].
    destruct (dict_get "reason" d) as [tag|] eqn:Ht; [|done].
    cbn [res_bind]. intros [= <-].
    exists d, nick, name, url, tag. by split_and!.
  - intros (d & nick & name & url & tag & -> & Hn & Hm & Hu & Ht & ->).
    cbn [py_getitem]. rewrite Hn, Hm, Hu, Ht. reflexivity.
Qed.

Lemma pr_rows_acc entries lines :
  pr_rows entries lines
  = let? rows := pr_rows entries [] in Ok (lines ++ rows).
Proof.
  revert lines. induction entries as [|entry entries IH]; intros lines.
  - simpl. by rewrite app_nil_r.
  - simpl. destruct (pr_row entry) as [row|]; simpl; [|done].
    rewrite (IH (lines ++ [row])), (IH [row]).
    destruct (pr_rows entries []) as [rows|]; simpl; [|done].
    by rewrite <- app_assoc.
Qed.

Lemma pr_rows_iff entries rows :
  pr_rows entries [] = Ok rows ↔ Forall2 row_of entries rows.
Proof.
  revert rows. induction entries as [|entry entries IH]; intros rows.
  - simpl. split; [intros [= <-]; constructor|by intros ->%Forall2_nil_inv_l].
  - simpl. split.
    + destruct (pr_row entry) as [row|] eqn:Hrow; simpl; [|done].
      rewrite pr_rows_acc.
      destruct (pr_rows entries []) as [rows'|] eqn:Hrows; simpl; [|done].
      intros [= <-]. constructor; [by apply pr_row_iff|by apply IH].
    + intros (row & rows' & Hrow & Hrows & ->)%Forall2_cons_inv_l.
      apply pr_row_iff in Hrow as ->. simpl. rewrite pr_rows_acc.
      apply IH in Hrows as ->. done.
Qed.

Lemma generate_pr_body_iff entries nf body :
  generate_pr_body entries nf = Ok body ↔
  ∃ rows, Forall2 row_of entries rows ∧
          body = String.concat newline (pr_header ++ rows ++ pr_footer utc_now).
Proof.
  unfold generate_pr_body. rewrite pr_rows_acc. fold pr_header. split.
  - destruct (pr_rows entries []) as [rows|] eqn:Hrows; cbn [res_bind]; [|done].
    intros [= <-]. exists rows. split; [by apply pr_rows_iff|]. reflexivity.
  - intros (rows & ->%pr_rows_iff & ->). reflexivity.
Qed.

End ReportLayout.

Section ReportRows.
Context `{rt : Runtime}.

Lemma pr_rows_app entries1 entries2 lines :
  pr_rows (entries1 ++ entries2) lines
  = let? lines' := pr_rows entries1 lines in pr_rows entries2 lines'.
Proof.
  revert lines. induction entries1 as [|entry entries1 IH]; intros lines; [done|].
  simpl. destruct (pr_row entry); simpl; [apply IH|done].
Qed.

Lemma pr_row_missing d k :
  k ∈ ["nick"; "name"; "url"; "reason"] → dict_get k d = None →
  pr_row (JObj d) = Raise KeyError.
Proof.
  intros Hk Hnone. unfold pr_row. cbn [py_getitem].
  repeat (apply elem_of_cons in Hk as [->|Hk]);
    [..|by apply elem_of_nil in Hk];
    repeat (match goal with
            | |- context [dict_get ?key d] =>
                destruct (dict_get key d) eqn:?; try discriminate;
                cbn [res_bind]
            end); done.
Qed.

Lemma entry_for_row launchpad feed entry :
  has_name feed → has_url feed →
  entry_for launchpad feed = Some entry →
  ∃ row, row_of entry row ∧ removed_row launchpad feed row.
Proof.
  intros (d & -> & [name Hname]) (d' & [= <-] & [url Hurl]) Hentry.
  apply entry_for_fields in Hentry as (s & Hnick & Hrem & ->).
  assert (dict_get "nick" d = Some (JStr s)) as Hs.
  { unfold nick_of in Hnick.
    destruct (dict_get "nick" d) as [[]|]; try congruence.
    injection Hnick as <-. unfold outcome_of in Hrem.
    rewrite decide_False in Hrem by (by intros [? _]). done. }
  eexists. split.
  - eexists _, (JStr s), name, url, _. split; [done|].
    rewrite dict_get_set_eq, !dict_get_set_ne by done. by split_and!.
  - exists d, s, name, url. split_and!; try done.
    by destruct (outcome_of launchpad s).
Qed.

Lemma removed_rows launchpad items :
  Forall has_name items → Forall has_url items →
  ∃ rows,
    Forall2 row_of (omap (entry_for launchpad) items) rows ∧
    Forall2 (removed_row launchpad)
      (filter (λ feed, entry_for launchpad feed ≠ None) items) rows.
Proof.
  intros Hnames Hurls.
  induction items as [|feed items IH]; [exists []; split; constructor|].
  apply Forall_cons in Hnames as [Hname Hnames].
  apply Forall_cons in Hurls as [Hurl Hurls].
  destruct (IH Hnames Hurls) as (rows & Hrows & Hfeeds).
  cbn [omap list_omap].
  destruct (entry_for launchpad feed) as [entry|] eqn:Hentry.
  - destruct (entry_for_row launchpad feed entry Hname Hurl Hentry)
      as (row & Hrow & Hfeed).
    exists (row :: rows). rewrite filter_cons_True by congruence.
    split; by constructor.
  - exists rows. rewrite filter_cons_False by (intros ?; congruence). done.
Qed.

End ReportRows.

(** ** The report *)

(** X9.  [generate_pr_body] returns exactly when every entry is a dict
    with [nick], [name], [url] and [reason]; the body is then the seven
    header lines, one table row per entry in the order of the entries,
    and the three closing lines with the time of the run, joined by
    newlines.  The reason column reads "User not found" for the reason
    [not_found] and "Not a member" for every other one, and the set of
    nicks not found plays no part. *)
Theorem generate_pr_body_layout :
  ∀ (rt : Runtime) (removed_entries : list json) (nf : gset string)
    (body : string),
    generate_pr_body removed_entries nf = Ok body ↔
    ∃ rows, Forall2 row_of removed_entries rows ∧
            body = String.concat newline
                     (pr_header ++ rows ++ pr_footer utc_now).
Proof.
  intros rt entries nf body.
  unfold generate_pr_body. rewrite pr_rows_acc. fold pr_header. split.
  - destruct (pr_rows entries []) as [rows|] eqn:Hrows; cbn [res_bind]; [|done].
    intros [= <-]. exists rows. split; [by apply pr_rows_iff|]. reflexivity.
  - intros (rows & ->%pr_rows_iff & ->). reflexivity.
Qed.

(** X10.  [generate_pr_body] raises [KeyError] at the first entry that
    lacks one of [nick], [name], [url] and [reason], whatever follows
    it. *)
Theorem generate_pr_body_missing_field :
  ∀ (rt : Runtime) (entries1 entries2 : list json) (d : list (string * json))
    (nf : gset string) (k : string),
    Forall (λ entry, ∃ row, row_of entry row) entries1 →
    k ∈ ["nick"; "name"; "url"; "reason"] → dict_get k d = None →
    generate_pr_body (entries1 ++ JObj d :: entries2) nf = Raise KeyError.
Proof.
  intros rt entries1 entries2 d nf k Hall Hk Hnone. unfold generate_pr_body. rewrite pr_rows_app.
  assert (∃ rows, Forall2 row_of entries1 rows) as [rows Hrows].
  { induction Hall as [|entry entries1 [row Hrow] _ [rows IH]];
      [by exists []|]. exists (row :: rows). by constructor. }
  apply pr_rows_iff in Hrows. rewrite pr_rows_acc, Hrows. cbn [res_bind pr_rows].
  by rewrite (pr_row_missing d k Hk Hnone).
Qed.

Lemma generate_pr_body_missing_field_witness :
  @generate_pr_body Reference.runtime
    ([] ++ JObj [("nick", JStr "bob"); ("name", JStr "Bob");
                 ("reason", JStr "not_member")] :: []) ∅
  = Raise KeyError.
Proof.
  apply (generate_pr_body_missing_field Reference.runtime [] []
           [("nick", JStr "bob"); ("name", JStr "Bob");
            ("reason", JStr "not_member")] ∅ "url").
  - constructor.
  - apply elem_of_cons; right. apply elem_of_cons; right.
    apply elem_of_cons; left. reflexivity.
  - reflexivity.
Defined.

(** X11.  For records that all have a [name] and a [url], the report of
    what [validate_memberships] removed is always generated, and its
    table has one row per removed record, in the order of the data file,
    with the record's own name, nick and url and the reason text of the
    nick's outcome. *)
Theorem report_lists_removed_records :
  ∀ (rt : Runtime) (items valid removed : list json) (nf : gset string)
    (launchpad : Launchpad) (w w' : World),
    Forall is_record items → Forall has_name items → Forall has_url items →
    validate_memberships (JArr items) launchpad w = (Ok (valid, removed, nf), w') →
    ∃ rows,
      generate_pr_body removed nf
      = Ok (String.concat newline (pr_header ++ rows ++ pr_footer utc_now)) ∧
      Forall2 (removed_row launchpad)
        (filter (λ feed, entry_for launchpad feed ≠ None) items) rows.
Proof.
  intros rt items valid removed nf launchpad w w' Hall Hnames Hurls Hrun.
  destruct (validate_memberships_closed items launchpad w Hall)
    as (nicks & t & Hrun' & _).
  rewrite Hrun' in Hrun. injection Hrun as _ <- _ _.
  destruct (removed_rows launchpad items Hnames Hurls) as (rows & Hrows & Hfeeds).
  exists rows. split; [|done]. apply generate_pr_body_iff. by exists rows.
Qed.

Lemma report_lists_removed_records_witness :
  ∃ valid removed nf w' rows,
    Forall is_record scenario_feeds ∧ Forall has_name scenario_feeds ∧
    Forall has_url scenario_feeds ∧
    @validate_memberships Reference.runtime (JArr scenario_feeds)
      scenario_launchpad scenario_world = (Ok (valid, removed, nf), w') ∧
    @generate_pr_body Reference.runtime removed nf
    = Ok (String.concat newline
            (pr_header ++ rows ++ pr_footer (@utc_now Reference.runtime))) ∧
    length rows = 2.
Proof.
  assert (Forall is_record scenario_feeds) as Hrec
    by (repeat constructor; eexists; reflexivity).
  assert (Forall has_name scenario_feeds) as Hnames
    by (repeat constructor; eexists; (split; [reflexivity|eexists; reflexivity])).
  assert (Forall has_url scenario_feeds) as Hurls
    by (repeat constructor; eexists; (split; [reflexivity|eexists; reflexivity])).
  pose (run := @validate_memberships Reference.runtime (JArr scenario_feeds)
                 scenario_launchpad scenario_world).
  assert (∃ valid removed nf w', run = (Ok (valid, removed, nf), w'))
    as (valid & removed & nf & w' & Hrun).
  { eexists _, _, _, _. vm_compute. reflexivity. }
  destruct (report_lists_removed_records Reference.runtime scenario_feeds
              valid removed nf scenario_launchpad scenario_world w'
              Hrec Hnames Hurls Hrun) as (rows & Hbody & Hrows).
  exists valid, removed, nf, w', rows.
  split; [exact Hrec|]. split; [exact Hnames|]. split; [exact Hurls|].
  split; [exact Hrun|]. split; [exact Hbody|].
  apply Forall2_length in Hrows. rewrite <- Hrows. vm_compute. reflexivity.
Defined.

Section SetOutput.

Lemma set_github_output_set name value path w :
  GITHUB_OUTPUT w = Some path → path ≠ "" → disk_quota w = None →
  set_github_output name value w
  = (Ok tt,
     log_stdout (signal_line name value)
       (set_files (<[path := default "" (files w !! path)
                              +:+ output_line name value]> (files w)) w)).
Proof.
  intros Hpath Hne Hquota.
  unfold set_github_output, bind, getenv_GITHUB_OUTPUT, print, ret.
  rewrite Hpath, bool_decide_eq_true_2 by done.
  unfold fs_open_a, fs_write, bind. world_simpl. rewrite Hquota. world_simpl.
  rewrite lookup_insert_eq, insert_insert_eq. reflexivity.
Qed.

End SetOutput.

(** ** The output of the workflow step *)

(** X12.  With [GITHUB_OUTPUT] set to a path and room on the device,
    [set_github_output] appends the line [name=value] to that file,
    after what it held (creating it when missing), touches no other
    file, and prints the [::set-output] line. *)
Theorem set_github_output_appends :
  ∀ (name value path : string) (w : World),
    GITHUB_OUTPUT w = Some path → path ≠ "" → disk_quota w = None →
    let run := set_github_output name value w in
    run.1 = Ok tt ∧
    files run.2
    = <[path := default "" (files w !! path) +:+ output_line name value]>
        (files w) ∧
    stdout run.2 = stdout w ++ [signal_line name value].
Proof.
  intros name value path w Hpath Hne Hquota run. subst run.
  by rewrite (set_github_output_set name value path w Hpath Hne Hquota).
Qed.

Lemma set_github_output_appends_witness :
  let run1 := set_github_output "has_changes" "true" ci_world in
  let run2 := set_github_output "count" "2" run1.2 in
  run2.1 = Ok tt ∧
  files run2.2 !! "github_output"
  = Some (output_line "has_changes" "true" +:+ output_line "count" "2").
Proof.
  intros run1 run2.
  assert ("github_output" ≠ "") as Hne by discriminate.
  destruct (set_github_output_appends "has_changes" "true"
              "github_output" ci_world eq_refl Hne eq_refl)
    as (Hok1 & Hfiles1 & _).
  fold run1 in Hok1, Hfiles1.
  assert (GITHUB_OUTPUT run1.2 = Some "github_output") as Hpath
    by (vm_compute; reflexivity).
  assert (disk_quota run1.2 = None) as Hquota by (vm_compute; reflexivity).
  destruct (set_github_output_appends "count" "2"
              "github_output" run1.2 Hpath Hne Hquota)
    as (Hok2 & Hfiles2 & _).
  fold run2 in Hok2, Hfiles2.
  split; [exact Hok2|].
  rewrite Hfiles2, lookup_insert_eq, Hfiles1, lookup_insert_eq.
  reflexivity.
Defined.

(** X13.  [set_github_output] prints its [::set-output] line only after
    the write to the file: when it returns it has printed exactly that
    line, and when it raises it has printed nothing.  With
    [GITHUB_OUTPUT] unset or empty it touches no file and returns. *)
Theorem set_github_output_prints_iff_returns :
  ∀ (name value : string) (w : World),
    let run := set_github_output name value w in
    (run.1 = Ok tt → stdout run.2 = stdout w ++ [signal_line name value]) ∧
    (∀ e, run.1 = Raise e → stdout run.2 = stdout w) ∧
    (GITHUB_OUTPUT w = None ∨ GITHUB_OUTPUT w = Some "" →
     run = (Ok tt, log_stdout (signal_line name value) w)).
Proof.
  intros name value w.
  unfold set_github_output, bind, getenv_GITHUB_OUTPUT, print, ret. simpl.
  destruct (GITHUB_OUTPUT w) as [path|] eqn:Hpath.
  - destruct (decide (path ≠ "")) as [Hne|He].
    + rewrite bool_decide_eq_true_2 by done.
      unfold fs_open_a, fs_write. world_simpl.
      destruct (disk_quota w) as [q|] eqn:Hq; world_simpl.
      * destruct (decide (_ ≤ q)); world_simpl.
        -- split; [done|]. split; [intros e; discriminate|].
           intros [?|[= ?]]; congruence.
        -- split; [discriminate|]. split; [done|].
           intros [?|[= ?]]; congruence.
      * split; [done|]. split; [intros e; discriminate|].
        intros [?|[= ?]]; congruence.
    + rewrite bool_decide_eq_false_2 by done.
      split; [done|]. split; [intros e; discriminate|done].
  - split; [done|]. split; [intros e; discriminate|done].
Qed.

Section MainSteps.
Context `{rt : Runtime}.

Lemma save_feeds_run feeds w :
  disk_quota w = None →
  save_feeds feeds w
  = (Ok tt, set_files (<[FEEDS_FILE := json_dumps feeds +:+ newline]> (files w)) w).
Proof.
  intros Hquota. unfold save_feeds, bind, fs_open_w, fs_write. world_simpl.
  rewrite Hquota. world_simpl.
  rewrite !lookup_insert_eq, !insert_insert_eq. reflexivity.
Qed.

Lemma check_each_run launchpad nicks w :
  check_each launchpad nicks (members_of launchpad) w
  = (Ok tt,
     add_lookups (lower <$> filter (λ n, lower n ∉ members_of launchpad) nicks) w).
Proof.
  revert w. induction nicks as [|nick nicks IH]; intros w.
  - simpl. unfold ret. by rewrite add_lookups_nil.
  - cbn [check_each]. unfold bind, check_single_nick.
    destruct (decide (lower nick ∈ members_of launchpad)) as [Hin|Hout].
    + rewrite bool_decide_eq_true_2 by done. unfold ret.
      rewrite IH, filter_cons_False by (by intros ?). done.
    + rewrite bool_decide_eq_false_2 by done. unfold bind.
      rewrite check_user_exists_run.
      rewrite filter_cons_True by done. rewrite fmap_cons, <- add_lookups_log.
      destruct (people launchpad (lower nick)); unfold ret; apply IH.
Qed.

Lemma main_validation_run args launchpad w text items :
  check args = [] →
  files w !! FEEDS_FILE = Some text →
  json_loads text = Some (JArr items) →
  Forall is_record items →
  ∃ nicks t,
    run_facts launchpad items nicks t ∧
    main args launchpad w
    = let w1 := add_lookups (lookups_for launchpad nicks) w in
      let valid_feeds := filter (λ feed, entry_for launchpad feed = None) items in
      let removed_entries := omap (entry_for launchpad) items in
      match removed_entries with
      | [] => (set_github_output "has_changes" "false" >> ret 0) w1
      | _ :: _ =>
          (lift (list_removed removed_entries) >>
           if dry_run args then
             set_github_output "has_changes" "false" >> ret 0
           else
             save_feeds (JArr valid_feeds) >>
             let* pr_body :=
               lift (generate_pr_body removed_entries (not_found_nicks t)) in
             fs_open_w PR_BODY_FILE >>
             fs_write PR_BODY_FILE pr_body >>
             set_github_output "has_changes" "true" >>
             ret 0) w1
      end.
Proof.
  intros Hcheck Htext Hjson Hall.
  destruct (validate_memberships_closed items launchpad w Hall)
    as (nicks & t & Hrun & Hfacts).
  exists nicks, t. split; [done|].
  unfold main. rewrite Hcheck.
  unfold bind at 1. unfold load_feeds, bind at 1, fs_read, ret at 1.
  rewrite Htext, Hjson. unfold ret at 1.
  unfold bind at 1, lift at 1. cbn [py_len].
  unfold bind at 1. rewrite Hrun. cbn [fst snd].
  by destruct (omap (entry_for launchpad) items).
Qed.

End MainSteps.

Section RemovedEntries.
Context `{rt : Runtime}.

Lemma signal_run value w :
  let run := (set_github_output "has_changes" value >> ret 0) w in
  (∀ path, GITHUB_OUTPUT w ≠ Some path → files run.2 !! path = files w !! path) ∧
  (run.1 = Ok 0 →
   stdout run.2 = stdout w ++ [signal_line "has_changes" value]) ∧
  (disk_quota w = None → run.1 = Ok 0).
Proof.
  intros run. subst run. unfold bind, ret.
  pose proof (set_github_output_run "has_changes" value w) as (Hf & Hs & Hq).
  destruct (set_github_output "has_changes" value w) as [[[]|e] w2]; simpl in *.
  - split_and!; [done| |done]. intros _. by apply Hs.
  - split_and!; [done|discriminate|]. intros Hnone. by specialize (Hq Hnone).
Qed.

Lemma entry_for_tagged launchpad feed entry :
  entry_for launchpad feed = Some entry → entry_tagged entry.
Proof.
  intros Hentry. destruct (entry_for_record _ _ _ Hentry) as [d ->].
  apply entry_for_fields in Hentry as (s & Hnick & Hrem & ->).
  eexists. split; [done|]. rewrite dict_get_set_eq, dict_get_set_ne by done.
  split; [done|]. unfold nick_of in Hnick.
  destruct (dict_get "nick" d) as [v|]; [done|].
  injection Hnick as <-. unfold outcome_of in Hrem.
  rewrite decide_False in Hrem by (by intros [? _]). done.
Qed.

Lemma entry_for_field launchpad d entry k :
  k ≠ "reason" →
  entry_for launchpad (JObj d) = Some entry →
  ∃ d', entry = JObj d' ∧ dict_get k d' = dict_get k d.
Proof.
  intros Hk Hentry. apply entry_for_fields in Hentry as (s & _ & _ & ->).
  eexists. split; [done|]. by apply dict_get_set_ne.
Qed.

Lemma list_removed_missing_name entries :
  Forall entry_tagged entries →
  Exists (λ entry, ¬ has_name entry) entries →
  list_removed entries = Raise KeyError.
Proof.
  induction 1 as [|entry entries (d & -> & [r Hr] & [n Hn]) _ IH]; intros Hex.
  - by apply Exists_nil in Hex.
  - cbn [list_removed py_getitem]. rewrite Hr. cbn [res_bind].
    destruct (dict_get "name" d) as [name|] eqn:Hname; [|done].
    cbn [res_bind]. rewrite Hn. cbn [res_bind].
    apply Exists_cons in Hex as [Hhead|Htail]; [|by apply IH].
    destruct Hhead. exists d. by rewrite Hname.
Qed.

Lemma pr_rows_missing_url entries lines :
  Forall entry_listed entries →
  Exists (λ entry, ¬ has_url entry) entries →
  pr_rows entries lines = Raise KeyError.
Proof.
  intros Hall. revert lines.
  induction Hall as [|entry entries (d & -> & [r Hr] & [m Hm] & [n Hn]) _ IH];
    intros lines Hex.
  - by apply Exists_nil in Hex.
  - cbn [pr_rows]. unfold pr_row. cbn [py_getitem]. rewrite Hn, Hm.
    cbn [res_bind].
    destruct (dict_get "url" d) as [url|] eqn:Hurl; [|done].
    rewrite Hr. cbn [res_bind].
    apply Exists_cons in Hex as [Hhead|Htail]; [|by apply IH].
    destruct Hhead. exists d. by rewrite Hurl.
Qed.

Lemma removed_entries_tagged launchpad items :
  Forall entry_tagged (omap (entry_for launchpad) items).
Proof.
  apply Forall_forall. intros entry (feed & _ & Hentry)%list_elem_of_omap.
  by eapply entry_for_tagged.
Qed.

Lemma removed_entries_have_names launchpad items :
  Forall has_name items →
  Forall entry_listed (omap (entry_for launchpad) items).
Proof.
  intros Hnames. apply Forall_forall.
  intros entry (feed & Hin & Hentry)%list_elem_of_omap.
  destruct (proj1 (Forall_forall _ _) Hnames feed Hin) as (d & -> & Hname).
  destruct (entry_for_tagged _ _ _ Hentry) as (d' & -> & Hreason & Hnick).
  destruct (entry_for_field launchpad d _ "name" ltac:(done) Hentry)
    as (d'' & [= <-] & Heq).
  exists d'. rewrite Heq. by split_and!.
Qed.

Lemma removed_entries_lack launchpad items feed (k : string) :
  k ≠ "reason" →
  feed ∈ items → entry_for launchpad feed ≠ None →
  (¬ ∃ d, feed = JObj d ∧ is_Some (dict_get k d)) →
  Exists (λ entry, ¬ ∃ d, entry = JObj d ∧ is_Some (dict_get k d))
    (omap (entry_for launchpad) items).
Proof.
  intros Hk Hin Hsome Hlack. apply Exists_exists.
  destruct (entry_for launchpad feed) as [entry|] eqn:Hentry; [|done].
  exists entry. split; [apply list_elem_of_omap; by exists feed|].
  destruct (entry_for_record _ _ _ Hentry) as [d ->].
  destruct (entry_for_field launchpad d _ k Hk Hentry) as (d' & -> & Heq).
  intros (d'' & [= <-] & Hd). apply Hlack. exists d. by rewrite <- Heq.
Qed.

End RemovedEntries.

Section WritePhase.
Context `{rt : Runtime}.

Lemma write_phase_ok valid removed nf body w1 :
  disk_quota w1 = None →
  generate_pr_body removed nf = Ok body →
  (save_feeds (JArr valid) >>
   let* pr_body := lift (generate_pr_body removed nf) in
   fs_open_w PR_BODY_FILE >>
   fs_write PR_BODY_FILE pr_body >>
   set_github_output "has_changes" "true" >>
   ret 0) w1
  = (set_github_output "has_changes" "true" >> ret 0)
      (set_files (<[PR_BODY_FILE := body]>
                    (<[FEEDS_FILE := json_dumps (JArr valid) +:+ newline]>
                       (files w1))) w1).
Proof.
  intros Hquota Hbody.
  unfold bind at 1. rewrite (save_feeds_run _ _ Hquota).
  unfold bind at 1, lift. rewrite Hbody.
  unfold bind at 1, fs_open_w. unfold bind at 1, fs_write.
  world_simpl. rewrite Hquota. world_simpl.
  rewrite lookup_insert_eq, insert_insert_eq. reflexivity.
Qed.

Lemma write_phase_raises valid removed nf e w1 :
  disk_quota w1 = None →
  generate_pr_body removed nf = Raise e →
  (save_feeds (JArr valid) >>
   let* pr_body := lift (generate_pr_body removed nf) in
   fs_open_w PR_BODY_FILE >>
   fs_write PR_BODY_FILE pr_body >>
   set_github_output "has_changes" "true" >>
   ret 0) w1
  = (Raise e,
     set_files (<[FEEDS_FILE := json_dumps (JArr valid) +:+ newline]> (files w1))
               w1).
Proof.
  intros Hquota Hbody.
  unfold bind at 1. rewrite (save_feeds_run _ _ Hquota).
  unfold bind at 1, lift. by rewrite Hbody.
Qed.

End WritePhase.

Section MainBranches.
Context `{rt : Runtime}.

Lemma set_github_output_env name value w :
  let run := set_github_output name value w in
  GITHUB_OUTPUT run.2 = GITHUB_OUTPUT w ∧
  lookups run.2 = lookups w ∧
  (disk_quota w = None → disk_quota run.2 = None).
Proof.
  unfold set_github_output, bind, getenv_GITHUB_OUTPUT, print, ret. simpl.
  destruct (GITHUB_OUTPUT w) as [p|] eqn:Hp; [|done].
  destruct (decide (p ≠ "")) as [Hne|He].
  - rewrite bool_decide_eq_true_2 by done.
    unfold fs_open_a, fs_write. simpl.
    destruct (disk_quota w) as [q|] eqn:Hq; [destruct (decide _)|]; simpl;
      split_and!; try done; intros; first [discriminate | assumption].
  - rewrite bool_decide_eq_false_2 by done. simpl. done.
Qed.

Lemma signal_env value w :
  let run := (set_github_output "has_changes" value >> ret 0) w in
  GITHUB_OUTPUT run.2 = GITHUB_OUTPUT w ∧
  lookups run.2 = lookups w ∧
  (disk_quota w = None → disk_quota run.2 = None).
Proof.
  intros run. subst run. unfold bind, ret.
  pose proof (set_github_output_env "has_changes" value w) as Henv.
  by destruct (set_github_output "has_changes" value w) as [[[]|e] w2].
Qed.

Lemma main_no_removals_run args launchpad w text items :
  check args = [] →
  files w !! FEEDS_FILE = Some text →
  json_loads text = Some (JArr items) →
  Forall is_record items →
  (∀ feed, feed ∈ items → entry_for launchpad feed = None) →
  let run := main args launchpad w in
  (∀ path, GITHUB_OUTPUT w ≠ Some path → files run.2 !! path = files w !! path) ∧
  (run.1 = Ok 0 →
   stdout run.2 = stdout w ++ [signal_line "has_changes" "false"]) ∧
  (disk_quota w = None → run.1 = Ok 0).
Proof.
  intros Hcheck Htext Hjson Hall Hkept run. subst run.
  destruct (main_validation_run args launchpad w text items
              Hcheck Htext Hjson Hall) as (nicks & t & _ & ->).
  rewrite (omap_all_None _ _ Hkept). cbv zeta.
  exact (signal_run "false" (add_lookups (lookups_for launchpad nicks) w)).
Qed.

Lemma main_applies_run args launchpad w text items :
  check args = [] → dry_run args = false →
  files w !! FEEDS_FILE = Some text →
  json_loads text = Some (JArr items) →
  Forall is_record items → Forall has_name items → Forall has_url items →
  omap (entry_for launchpad) items ≠ [] →
  disk_quota w = None →
  ∃ nf body,
    generate_pr_body (omap (entry_for launchpad) items) nf = Ok body ∧
    let run := main args launchpad w in
    run.1 = Ok 0 ∧
    stdout run.2 = stdout w ++ [signal_line "has_changes" "true"] ∧
    GITHUB_OUTPUT run.2 = GITHUB_OUTPUT w ∧
    disk_quota run.2 = None ∧
    ∀ path, GITHUB_OUTPUT w ≠ Some path →
      files run.2 !! path
      = (<[PR_BODY_FILE := body]>
           (<[FEEDS_FILE :=
                json_dumps (JArr (filter (λ feed, entry_for launchpad feed = None)
                                         items)) +:+ newline]>
              (files w))) !! path.
Proof.
  intros Hcheck Hdry Htext Hjson Hall Hnames Hurls Hne Hquota.
  destruct (main_validation_run args launchpad w text items
              Hcheck Htext Hjson Hall) as (nicks & t & _ & Hmain).
  destruct (removed_rows launchpad items Hnames Hurls) as (rows & Hrows & _).
  assert (∃ body, generate_pr_body (omap (entry_for launchpad) items)
                    (not_found_nicks t) = Ok body) as [body Hbody].
  { eexists. apply generate_pr_body_iff. by exists rows. }
  exists (not_found_nicks t), body. split; [exact Hbody|].
  set (w1 := add_lookups (lookups_for launchpad nicks) w) in *.
  set (w2 := set_files
               (<[PR_BODY_FILE := body]>
                  (<[FEEDS_FILE :=
                       json_dumps (JArr (filter (λ feed, entry_for launchpad feed
                                                          = None) items))
                       +:+ newline]> (files w1))) w1).
  assert (main args launchpad w
          = (set_github_output "has_changes" "true" >> ret 0) w2) as ->.
  { rewrite Hmain. cbv zeta.
    pose proof (removed_entries_have_names launchpad items Hnames) as Hlisted.
    destruct (omap (entry_for launchpad) items) as [|entry removed] eqn:Hremoved;
      [done|].
    unfold bind at 1, lift at 1. rewrite (list_removed_ok _ Hlisted), Hdry.
    by rewrite (write_phase_ok _ _ _ body) by done. }
  pose proof (signal_run "true" w2) as (Hfiles & Hout & Hret).
  pose proof (signal_env "true" w2) as (Henv & _ & Hq).
  cbv zeta in *. split; [by apply Hret|].
  split; [by apply Hout, Hret|]. split; [exact Henv|].
  split; [by apply Hq|].
  intros path Hpath. by apply Hfiles.
Qed.

End MainBranches.

Section MainFailures.
Context `{rt : Runtime}.

Lemma main_missing_url_run args launchpad w text items feed :
  check args = [] → dry_run args = false →
  files w !! FEEDS_FILE = Some text →
  json_loads text = Some (JArr items) →
  Forall is_record items → Forall has_name items →
  feed ∈ items → entry_for launchpad feed ≠ None → ¬ has_url feed →
  disk_quota w = None →
  ∃ calls,
    main args launchpad w
    = (Raise KeyError,
       set_files
         (<[FEEDS_FILE :=
              json_dumps (JArr (filter (λ feed, entry_for launchpad feed = None)
                                       items)) +:+ newline]> (files w))
         (add_lookups calls w)).
Proof.
  intros Hcheck Hdry Htext Hjson Hall Hnames Hin Hrem Hnourl Hquota.
  destruct (main_validation_run args launchpad w text items
              Hcheck Htext Hjson Hall) as (nicks & t & _ & Hmain).
  exists (lookups_for launchpad nicks). rewrite Hmain. cbv zeta.
  pose proof (removed_entries_have_names launchpad items Hnames) as Hlisted.
  pose proof (removed_entries_lack launchpad items feed "url" ltac:(done)
                Hin Hrem Hnourl) as Hex.
  destruct (omap (entry_for launchpad) items) as [|entry removed] eqn:Hremoved;
    [by apply Exists_nil in Hex|].
  unfold bind at 1, lift at 1. rewrite (list_removed_ok _ Hlisted), Hdry.
  rewrite (write_phase_raises _ _ _ KeyError); [done|done|].
  unfold generate_pr_body. by rewrite (pr_rows_missing_url _ _ Hlisted Hex).
Qed.

Lemma main_missing_name_run args launchpad w text items feed :
  check args = [] →
  files w !! FEEDS_FILE = Some text →
  json_loads text = Some (JArr items) →
  Forall is_record items →
  feed ∈ items → entry_for launchpad feed ≠ None → ¬ has_name feed →
  ∃ calls, main args launchpad w = (Raise KeyError, add_lookups calls w).
Proof.
  intros Hcheck Htext Hjson Hall Hin Hrem Hnoname.
  destruct (main_validation_run args launchpad w text items
              Hcheck Htext Hjson Hall) as (nicks & t & _ & Hmain).
  exists (lookups_for launchpad nicks). rewrite Hmain. cbv zeta.
  pose proof (removed_entries_tagged launchpad items) as Htagged.
  pose proof (removed_entries_lack launchpad items feed "name" ltac:(done)
                Hin Hrem Hnoname) as Hex.
  destruct (omap (entry_for launchpad) items) as [|entry removed] eqn:Hremoved;
    [by apply Exists_nil in Hex|].
  unfold bind at 1, lift at 1.
  by rewrite (list_removed_missing_name _ Htagged Hex).
Qed.

End MainFailures.

(** ** The runs of [main] *)

(** X14.  With [--check], [main] returns 0 without reading or writing a
    file and without a [set-output] line, whatever the other options
    and whether or not the data file exists; it looks up the lowered
    form of each given nick that is not a participant, in the order of
    the command line and as often as the nick is given.  The allow-list
    is not consulted in this mode. *)
Theorem main_check_mode :
  ∀ (rt : Runtime) (args : Args) (launchpad : Launchpad) (w : World),
    check args ≠ [] →
    main args launchpad w
    = (Ok 0,
       add_lookups (lower <$> filter (λ n, lower n ∉ members_of launchpad)
                                (check args)) w).
Proof.
  intros rt args launchpad w Hcheck. unfold main.
  destruct (check args) as [|nick nicks] eqn:Hargs; [done|].
  unfold bind, get_ubuntu_members, ret. fold (members_of launchpad).
  by rewrite check_each_run.
Qed.

Lemma main_check_mode_witness :
  let run := @main Reference.runtime (mkArgs true ["UWN"; "Bob"; "alice"; "Bob"] false)
               scenario_launchpad quiet_world in
  run.1 = Ok 0 ∧ lookups run.2 = ["uwn"; "bob"; "bob"] ∧
  files run.2 = ∅ ∧ stdout run.2 = [].
Proof.
  intros run. subst run.
  rewrite (main_check_mode Reference.runtime
             (mkArgs true ["UWN"; "Bob"; "alice"; "Bob"] false)
             scenario_launchpad quiet_world ltac:(discriminate)).
  split; [reflexivity|]. split; [vm_compute; reflexivity|]. split; reflexivity.
Defined.

(** X15.  When no record of the data file is removable, a run (dry or
    not) writes neither the data file nor the report: it changes no
    file other than the one [GITHUB_OUTPUT] names, signals
    [has_changes=false] when it completes, and completes whenever the
    device takes the signal. *)
Theorem main_without_removals :
  ∀ (rt : Runtime) (args : Args) (launchpad : Launchpad) (w : World)
    (text : string) (items : list json),
    check args = [] →
    files w !! FEEDS_FILE = Some text →
    json_loads text = Some (JArr items) →
    Forall is_record items →
    (∀ feed, feed ∈ items → entry_for launchpad feed = None) →
    let run := main args launchpad w in
    (∀ path, GITHUB_OUTPUT w ≠ Some path → files run.2 !! path = files w !! path) ∧
    (run.1 = Ok 0 →
     stdout run.2 = stdout w ++ [signal_line "has_changes" "false"]) ∧
    (disk_quota w = None → run.1 = Ok 0).
Proof.
  intros rt args launchpad w text items Hcheck Htext Hjson Hall Hkept run. subst run.
  destruct (main_validation_run args launchpad w text items
              Hcheck Htext Hjson Hall) as (nicks & t & _ & ->).
  rewrite (omap_all_None _ _ Hkept). cbv zeta.
  exact (signal_run "false" (add_lookups (lookups_for launchpad nicks) w)).
Qed.

Lemma main_without_removals_witness :
  let run := @main Reference.runtime (mkArgs false [] false)
               all_members_launchpad scenario_world in
  run.1 = Ok 0 ∧ files run.2 = files scenario_world ∧
  stdout run.2 = ["::set-output name=has_changes::false"].
Proof.
  assert (∀ feed, feed ∈ scenario_feeds →
                  @entry_for Reference.runtime all_members_launchpad feed = None)
    as Hkept.
  { apply Forall_forall.
    repeat (apply Forall_cons_2; [vm_compute; reflexivity|]). apply Forall_nil_2. }
  assert (Forall is_record scenario_feeds) as Hrec
    by (repeat constructor; eexists; reflexivity).
  pose proof (main_without_removals Reference.runtime (mkArgs false [] false)
                all_members_launchpad scenario_world
                (Reference.dumps (JArr scenario_feeds) +:+ newline)
                scenario_feeds eq_refl eq_refl
                ltac:(vm_compute; reflexivity) Hrec Hkept) as Hrun.
  cbv zeta in *. destruct Hrun as (_ & Hout & Hok).
  specialize (Hok eq_refl). split; [exact Hok|].
  split; [vm_compute; reflexivity|]. exact (Hout Hok).
Defined.



(** X17.  When a removable record has no [url], a normal run raises
    [KeyError] from the report, after it has already rewritten the data
    file with the surviving list: the report file is not written and no
    signal is printed. *)
Theorem main_missing_url_rewrites_data_file :
  ∀ (rt : Runtime) (args : Args) (launchpad : Launchpad) (w : World)
    (text : string) (items : list json) (feed : json),
    check args = [] → dry_run args = false →
    files w !! FEEDS_FILE = Some text →
    json_loads text = Some (JArr items) →
    Forall is_record items → Forall has_name items →
    feed ∈ items → entry_for launchpad feed ≠ None → ¬ has_url feed →
    disk_quota w = None →
    let run := main args launchpad w in
    run.1 = Raise KeyError ∧
    files run.2
    = <[FEEDS_FILE :=
          json_dumps (JArr (filter (λ feed, entry_for launchpad feed = None)
                                   items)) +:+ newline]> (files w) ∧
    stdout run.2 = stdout w.
Proof.
  intros rt args launchpad w text items feed Hcheck Hdry Htext Hjson Hall
    Hnames Hin Hrem Hnourl Hquota.
  destruct (main_missing_url_run args launchpad w text items feed Hcheck Hdry
              Htext Hjson Hall Hnames Hin Hrem Hnourl Hquota) as [calls ->].
  done.
Qed.

Lemma main_missing_url_rewrites_data_file_witness :
  let run := @main Reference.runtime (mkArgs false [] false)
               scenario_launchpad (world_with (JArr no_url_feeds)) in
  run.1 = Raise KeyError ∧
  files run.2 !! FEEDS_FILE
  = Some (Reference.dumps (JArr [scenario_record "Alice" "alice"]) +:+ newline) ∧
  files run.2 !! PR_BODY_FILE = None.
Proof.
  assert (Forall is_record no_url_feeds) as Hrec
    by (repeat constructor; eexists; reflexivity).
  assert (Forall has_name no_url_feeds) as Hnames
    by (repeat constructor; eexists; (split; [reflexivity|eexists; reflexivity])).
  assert (JObj [ ("name", JStr "Bob"); ("nick", JStr "bob") ] ∈ no_url_feeds)
    as Hin by (apply elem_of_cons; right; apply elem_of_cons; by left).
  assert (@entry_for Reference.runtime scenario_launchpad
            (JObj [ ("name", JStr "Bob"); ("nick", JStr "bob") ]) ≠ None)
    as Hrem by (vm_compute; discriminate).
  assert (¬ has_url (JObj [ ("name", JStr "Bob"); ("nick", JStr "bob") ]))
    as Hnourl.
  { intros (d & [= <-] & [x Hx]). discriminate Hx. }
  pose proof (main_missing_url_rewrites_data_file Reference.runtime
                (mkArgs false [] false) scenario_launchpad
                (world_with (JArr no_url_feeds))
                (Reference.dumps (JArr no_url_feeds) +:+ newline)
                no_url_feeds _ eq_refl eq_refl eq_refl
                ltac:(vm_compute; reflexivity) Hrec Hnames Hin Hrem Hnourl eq_refl)
    as Hrun.
  cbv zeta in *. destruct Hrun as (Hraise & Hfiles & _).
  split; [exact Hraise|]. rewrite Hfiles. split.
  - rewrite lookup_insert_eq. f_equal.
  - rewrite lookup_insert_ne by discriminate. reflexivity.
Defined.

(** X18.  When a removable record has no [name], a run, dry or not,
    raises [KeyError] while it lists the feeds to remove, before it
    writes anything: no file changes and no signal is printed. *)
Theorem main_missing_name_raises_before_writing :
  ∀ (rt : Runtime) (args : Args) (launchpad : Launchpad) (w : World)
    (text : string) (items : list json) (feed : json),
    check args = [] →
    files w !! FEEDS_FILE = Some text →
    json_loads text = Some (JArr items) →
    Forall is_record items →
    feed ∈ items → entry_for launchpad feed ≠ None → ¬ has_name feed →
    let run := main args launchpad w in
    run.1 = Raise KeyError ∧ files run.2 = files w ∧ stdout run.2 = stdout w.
Proof.
  intros rt args launchpad w text items feed Hcheck Htext Hjson Hall
    Hin Hrem Hnoname.
  destruct (main_missing_name_run args launchpad w text items feed Hcheck
              Htext Hjson Hall Hin Hrem Hnoname) as [calls ->].
  done.
Qed.

Lemma main_missing_name_raises_before_writing_witness :
  let run := @main Reference.runtime (mkArgs true [] false)
               scenario_launchpad (world_with (JArr no_name_feeds)) in
  run.1 = Raise KeyError ∧
  files run.2 = files (world_with (JArr no_name_feeds)) ∧ stdout run.2 = [].
Proof.
  assert (Forall is_record no_name_feeds) as Hrec
    by (repeat constructor; eexists; reflexivity).
  assert (JObj [ ("nick", JStr "bob");
                 ("url", JStr "https://example.org/bob.xml") ] ∈ no_name_feeds)
    as Hin by (apply elem_of_cons; right; apply elem_of_cons; by left).
  assert (@entry_for Reference.runtime scenario_launchpad
            (JObj [ ("nick", JStr "bob");
                    ("url", JStr "https://example.org/bob.xml") ]) ≠ None)
    as Hrem by (vm_compute; discriminate).
  assert (¬ has_name (JObj [ ("nick", JStr "bob");
                             ("url", JStr "https://example.org/bob.xml") ]))
    as Hnoname.
  { intros (d & [= <-] & [x Hx]). discriminate Hx. }
  exact (main_missing_name_raises_before_writing Reference.runtime
           (mkArgs true [] false) scenario_launchpad
           (world_with (JArr no_name_feeds))
           (Reference.dumps (JArr no_name_feeds) +:+ newline)
           no_name_feeds _ eq_refl eq_refl
           ltac:(vm_compute; reflexivity) Hrec Hin Hrem Hnoname).
Defined.

(** X19.  Without [--check], a run with no data file raises
    [FileNotFoundError], and one whose data file is not JSON raises
    [JSONDecodeError]; either way nothing has been looked up, written or
    printed. *)
Theorem main_without_data_file :
  ∀ (rt : Runtime) (args : Args) (launchpad : Launchpad) (w : World),
    check args = [] →
    (files w !! FEEDS_FILE = None →
     main args launchpad w = (Raise FileNotFoundError, w)) ∧
    (∀ text, files w !! FEEDS_FILE = Some text → json_loads text = None →
             main args launchpad w = (Raise JSONDecodeError, w)).
Proof.
  intros rt args launchpad w Hcheck. split.
  - intros Hnone. unfold main. rewrite Hcheck.
    unfold bind at 1. unfold load_feeds, bind at 1, fs_read, raise.
    by rewrite Hnone.
  - intros text Htext Hnone. unfold main. rewrite Hcheck.
    unfold bind at 1. unfold load_feeds, bind at 1, fs_read, raise.
    by rewrite Htext, Hnone.
Qed.

Lemma main_without_data_file_witness :
  @main Reference.runtime (mkArgs false [] false) scenario_launchpad quiet_world
  = (Raise FileNotFoundError, quiet_world) ∧
  @main Reference.runtime (mkArgs false [] false) scenario_launchpad
    (mkWorld {[ FEEDS_FILE := "[{" ]} None None [] [])
  = (Raise JSONDecodeError, mkWorld {[ FEEDS_FILE := "[{" ]} None None [] []).
Proof.
  split.
  - apply (main_without_data_file Reference.runtime (mkArgs false [] false)
             scenario_launchpad quiet_world eq_refl). reflexivity.
  - apply (proj2 (main_without_data_file Reference.runtime (mkArgs false [] false)
                    scenario_launchpad
                    (mkWorld {[ FEEDS_FILE := "[{" ]} None None [] []) eq_refl)
             "[{"); [reflexivity|vm_compute; reflexivity].
Defined.

(** X20.  A data file whose top level is [null], a boolean or a number
    makes the run raise [TypeError] (from [len]); one whose top level is
    a non-empty dict or a non-empty string makes it raise
    [AttributeError] (the items are then strings); in both cases before
    any lookup or write. *)
Theorem main_top_level_not_a_list :
  ∀ (rt : Runtime) (args : Args) (launchpad : Launchpad) (w : World)
    (text : string) (v : json),
    check args = [] →
    files w !! FEEDS_FILE = Some text →
    json_loads text = Some v →
    match v with
    | JNull | JBool _ | JInt _ => main args launchpad w = (Raise TypeError, w)
    | JStr s => s ≠ "" → main args launchpad w = (Raise AttributeError, w)
    | JObj d => d ≠ [] → main args launchpad w = (Raise AttributeError, w)
    | JArr _ => True
    end.
Proof.
  intros rt args launchpad w text v Hcheck Htext Hjson.
  assert (∀ e, (lift (py_len v) >> validate_memberships v launchpad) w
               = (Raise e, w) →
               main args launchpad w = (Raise e, w)) as Hmain.
  { intros e He. unfold main. rewrite Hcheck.
    unfold bind at 1. unfold load_feeds, bind at 1, fs_read, ret at 1.
    rewrite Htext, Hjson. revert He. unfold bind.
    destruct (lift (py_len v) w) as [[n|e'] w'];
      [|intros [= -> ->]; reflexivity].
    destruct (validate_memberships v launchpad w') as [[r|e'] w''];
      intros He; first [discriminate He | by injection He as -> ->]. }
  destruct v as [|b|z|s|l|d]; try done; try (by apply Hmain).
  - destruct s as [|c s]; [done|]. intros _. by apply Hmain.
  - destruct d as [|[k x] d]; [done|]. intros _. by apply Hmain.
Qed.

Lemma main_top_level_not_a_list_witness :
  @main Reference.runtime (mkArgs false [] false) scenario_launchpad
    (world_with (JInt 7))
  = (Raise TypeError, world_with (JInt 7)) ∧
  @main Reference.runtime (mkArgs false [] false) scenario_launchpad
    (world_with (JObj [("feeds", JArr scenario_feeds)]))
  = (Raise AttributeError, world_with (JObj [("feeds", JArr scenario_feeds)])).
Proof.
  split.
  - exact (main_top_level_not_a_list Reference.runtime (mkArgs false [] false)
             scenario_launchpad (world_with (JInt 7))
             (Reference.dumps (JInt 7) +:+ newline) (JInt 7)
             eq_refl eq_refl ltac:(vm_compute; reflexivity)).
  - apply (main_top_level_not_a_list Reference.runtime (mkArgs false [] false)
             scenario_launchpad
             (world_with (JObj [("feeds", JArr scenario_feeds)]))
             (Reference.dumps (JObj [("feeds", JArr scenario_feeds)]) +:+ newline)
             (JObj [("feeds", JArr scenario_feeds)])
             eq_refl eq_refl ltac:(vm_compute; reflexivity)).
    discriminate.
Defined.

(** X21.  After a normal run that applied its removals, running the
    script again against the same directory finds nothing to remove: it
    returns 0, signals [has_changes=false] and leaves every file as the
    first run left it (the one [GITHUB_OUTPUT] names apart), provided
    the json library reads the surviving list back from its own text. *)
Theorem main_second_run_changes_nothing :
  ∀ (rt : Runtime) (args : Args) (launchpad : Launchpad) (w : World)
    (text : string) (items : list json),
    check args = [] → dry_run args = false →
    files w !! FEEDS_FILE = Some text →
    json_loads text = Some (JArr items) →
    Forall is_record items → Forall has_name items → Forall has_url items →
    omap (entry_for launchpad) items ≠ [] →
    disk_quota w = None →
    GITHUB_OUTPUT w ≠ Some FEEDS_FILE →
    reads_back rt (JArr (filter (λ feed, entry_for launchpad feed = None) items)) →
    let run1 := main args launchpad w in
    let run2 := main args launchpad run1.2 in
    run1.1 = Ok 0 ∧ run2.1 = Ok 0 ∧
    stdout run2.2
    = stdout w ++ [signal_line "has_changes" "true";
                   signal_line "has_changes" "false"] ∧
    ∀ path, GITHUB_OUTPUT w ≠ Some path →
            files run2.2 !! path = files run1.2 !! path.
Proof.
  intros rt args launchpad w text items Hcheck Hdry Htext Hjson Hall Hnames Hurls Hne Hquota Hout Hback.
  destruct (main_applies_run args launchpad w text items Hcheck Hdry Htext
              Hjson Hall Hnames Hurls Hne Hquota)
    as (nf & body & _ & Hrun1).
  cbv zeta in Hrun1. destruct Hrun1 as (Hok & Hstdout & Henv & Hq & Hfiles).
  intros run1 run2. subst run1 run2.
  set (w1 := (main args launchpad w).2) in *.
  set (valid := filter (λ feed, entry_for launchpad feed = None) items) in *.
  assert (files w1 !! FEEDS_FILE = Some (json_dumps (JArr valid) +:+ newline))
    as Htext1.
  { rewrite (Hfiles FEEDS_FILE Hout).
    rewrite lookup_insert_ne by discriminate. by rewrite lookup_insert_eq. }
  assert (Forall is_record valid) as Hvalid.
  { apply Forall_forall. intros feed [_ Hin]%list_elem_of_filter.
    by eapply Forall_forall in Hall. }
  assert (∀ feed, feed ∈ valid → entry_for launchpad feed = None) as Hkept.
  { by intros feed [Hkept _]%list_elem_of_filter. }
  pose proof (main_no_removals_run args launchpad w1 _ valid Hcheck Htext1
                Hback Hvalid Hkept) as Hrun2.
  cbv zeta in Hrun2. destruct Hrun2 as (Hfiles2 & Hstdout2 & Hok2).
  specialize (Hok2 Hq). split; [done|]. split; [done|]. split.
  - rewrite (Hstdout2 Hok2), Hstdout, <- app_assoc. done.
  - intros path Hpath. apply Hfiles2. by rewrite Henv.
Qed.

Lemma main_second_run_changes_nothing_witness :
  let run1 := @main Reference.runtime (mkArgs false [] false)
                scenario_launchpad scenario_world in
  let run2 := @main Reference.runtime (mkArgs false [] false)
                scenario_launchpad run1.2 in
  run1.1 = Ok 0 ∧ run2.1 = Ok 0 ∧
  stdout run2.2 = ["::set-output name=has_changes::true";
                   "::set-output name=has_changes::false"] ∧
  files run2.2 !! FEEDS_FILE = files run1.2 !! FEEDS_FILE.
Proof.
  assert (Forall is_record scenario_feeds) as Hrec
    by (repeat constructor; eexists; reflexivity).
  assert (Forall has_name scenario_feeds) as Hnames
    by (repeat constructor; eexists; (split; [reflexivity|eexists; reflexivity])).
  assert (Forall has_url scenario_feeds) as Hurls
    by (repeat constructor; eexists; (split; [reflexivity|eexists; reflexivity])).
  assert (omap (@entry_for Reference.runtime scenario_launchpad) scenario_feeds ≠ [])
    as Hne by (vm_compute; discriminate).
  assert (reads_back Reference.runtime
            (JArr (filter (λ feed, @entry_for Reference.runtime scenario_launchpad
                                     feed = None) scenario_feeds))) as Hback
    by (vm_compute; reflexivity).
  pose proof (main_second_run_changes_nothing Reference.runtime
                (mkArgs false [] false) scenario_launchpad scenario_world
                (Reference.dumps (JArr scenario_feeds) +:+ newline)
                scenario_feeds eq_refl eq_refl eq_refl
                ltac:(vm_compute; reflexivity) Hrec Hnames Hurls Hne eq_refl
                ltac:(discriminate) Hback) as Hrun.
  cbv zeta in *. destruct Hrun as (Hok1 & Hok2 & Hstdout & Hfiles).
  split; [exact Hok1|]. split; [exact Hok2|]. split; [exact Hstdout|].
  apply Hfiles. discriminate.
Defined.

(** ** Saving *)

(** X22.  On a device with room, [save_feeds] returns with the data file
    holding exactly the text of its argument followed by a newline,
    whatever the file held before, and with every other file and the
    rest of the world unchanged. *)
Theorem save_feeds_overwrites :
  ∀ (rt : Runtime) (feeds : json) (w : World),
    disk_quota w = None →
    save_feeds feeds w
    = (Ok tt,
       set_files (<[FEEDS_FILE := json_dumps feeds +:+ newline]> (files w)) w).
Proof.
  intros rt feeds w Hquota. unfold save_feeds, bind, fs_open_w, fs_write. world_simpl.
  rewrite Hquota. world_simpl.
  rewrite !lookup_insert_eq, !insert_insert_eq. reflexivity.
Qed.

Lemma save_feeds_overwrites_witness :
  let run1 := @save_feeds Reference.runtime (JArr scenario_feeds) quiet_world in
  let run2 := @save_feeds Reference.runtime (JArr []) run1.2 in
  run2.1 = Ok tt ∧ files run2.2 !! FEEDS_FILE = Some ("[]" +:+ newline).
Proof.
  intros run1 run2.
  assert (disk_quota run1.2 = None) as Hquota by reflexivity.
  pose proof (save_feeds_overwrites Reference.runtime (JArr []) run1.2 Hquota)
    as Hrun.
  fold run2 in Hrun. rewrite Hrun.
  split; [reflexivity|]. cbn [snd files set_files].
  rewrite lookup_insert_eq. reflexivity.
Defined.

(** * Classification, failing writes and the round trip *)

(** ** C4: how often an identifier is classified *)

(** C4, as stated, fails: two records that spell one identifier [Bob] and
    [bob] make the run look [bob] up twice. *)
Lemma classified_once_per_identifier_counterexample :
  let run := @validate_memberships Reference.runtime (JArr case_variant_feeds)
               open_launchpad quiet_world in
  lookups run.2 = ["bob"; "bob"] ∧ ¬ NoDup (lookups run.2).
Proof.
  assert (lookups (@validate_memberships Reference.runtime
                     (JArr case_variant_feeds) open_launchpad quiet_world).2
          = ["bob"; "bob"]) as Hrun by (vm_compute; reflexivity).
  split; [exact Hrun|]. rewrite Hrun.
  intros Hnd. apply NoDup_cons in Hnd as [Hnotin _].
  apply Hnotin. left.
Qed.

Section CaseVariants.
Context `{rt : Runtime}.

Lemma outcome_of_case_variants launchpad s1 s2 :
  lower s1 = lower s2 → (s1 = "" ↔ s2 = "") →
  outcome_of launchpad s1 = outcome_of launchpad s2.
Proof.
  intros Hlow Hblank. unfold outcome_of, selected. rewrite Hlow.
  destruct (decide (s1 ≠ "" ∧ lower s2 ∉ allowed_lower)) as [[? ?]|Hn1],
           (decide (s2 ≠ "" ∧ lower s2 ∉ allowed_lower)) as [[? ?]|Hn2];
    try done; exfalso; tauto.
Qed.

Lemma record_fate launchpad (items : list json) feed s :
  feed ∈ items → nick_of feed = Some s →
  let o := outcome_of launchpad s in
  if removable o
  then (feed ∉ filter (λ feed, entry_for launchpad feed = None) items) ∧
       ∃ entry, py_with feed "reason" (JStr (outcome_name o)) = Ok entry ∧
                entry ∈ omap (entry_for launchpad) items
  else feed ∈ filter (λ feed, entry_for launchpad feed = None) items.
Proof.
  intros Hin Hnick o. subst o.
  destruct feed as [| | | | |d]; try discriminate.
  assert (entry_for launchpad (JObj d)
          = if removable (outcome_of launchpad s)
            then Some (JObj (dict_set "reason"
                         (JStr (outcome_name (outcome_of launchpad s))) d))
            else None) as Hentry.
  { unfold entry_for. by rewrite Hnick. }
  destruct (removable (outcome_of launchpad s)).
  - split.
    + intros [Hnone _]%list_elem_of_filter. congruence.
    + eexists. split; [reflexivity|]. apply list_elem_of_omap.
      by exists (JObj d).
  - apply list_elem_of_filter. by split.
Qed.

End CaseVariants.

(** C4, amended.  The run classifies each distinct spelling of a selected
    nick once, however many records bear it: the nicks it goes through
    have no duplicates, are exactly the selected nicks of the records,
    and each gives at most one lookup, of its lowered form.  Two records
    of the run whose nicks are equal after case folding have one
    outcome and share its fate: both are in the surviving list, or both
    are out of it and in the removed list with the same reason (for a
    directory that answers by identifier). *)
Theorem classified_once_per_spelling :
  ∀ (rt : Runtime) (launchpad : Launchpad),
    (∀ (items : list json) (w : World),
       Forall is_record items →
       ∃ checked valid removed nf w',
         validate_memberships (JArr items) launchpad w
         = (Ok (valid, removed, nf), w') ∧
         NoDup checked ∧
         (∀ s, s ∈ checked ↔
               (selected s ∧ ∃ feed, feed ∈ items ∧ nick_of feed = Some s)) ∧
         lookups w'
         = lookups w ++
           (lower <$> filter (λ n, lower n ∉ members_of launchpad) checked) ∧
         (∀ feed1 feed2 s1 s2,
            feed1 ∈ items → feed2 ∈ items →
            nick_of feed1 = Some s1 → nick_of feed2 = Some s2 →
            lower s1 = lower s2 → (s1 = "" ↔ s2 = "") →
            ∃ o, has_outcome launchpad s1 o ∧ has_outcome launchpad s2 o ∧
                 if removable o
                 then (feed1 ∉ valid) ∧ (feed2 ∉ valid) ∧
                      ∃ entry1 entry2,
                        py_with feed1 "reason" (JStr (outcome_name o)) = Ok entry1 ∧
                        py_with feed2 "reason" (JStr (outcome_name o)) = Ok entry2 ∧
                        entry1 ∈ removed ∧ entry2 ∈ removed
                 else feed1 ∈ valid ∧ feed2 ∈ valid)) ∧
    (∀ s1 s2 o1 o2,
       lower s1 = lower s2 → (s1 = "" ↔ s2 = "") →
       has_outcome launchpad s1 o1 → has_outcome launchpad s2 o2 → o1 = o2).
Proof.
  intros rt launchpad. split.
  - intros items w Hall.
    destruct (validate_memberships_closed items launchpad w Hall)
      as (nicks & t & Hrun & Hnicks & _).
    exists (merge_sort String.le (elements nicks)).
    eexists _, _, _, _. split; [exact Hrun|]. split_and!.
    + rewrite merge_sort_Permutation. apply NoDup_elements.
    + intros s. by rewrite elem_of_sorted_elements.
    + reflexivity.
    + intros feed1 feed2 s1 s2 Hin1 Hin2 Hnick1 Hnick2 Hlow Hblank.
      exists (outcome_of launchpad s1).
      split; [by apply has_outcome_iff|].
      split; [apply has_outcome_iff; by apply outcome_of_case_variants|].
      pose proof (record_fate launchpad items feed1 s1 Hin1 Hnick1) as Hfate1.
      pose proof (record_fate launchpad items feed2 s2 Hin2 Hnick2) as Hfate2.
      cbv zeta in Hfate1, Hfate2.
      rewrite <- (outcome_of_case_variants launchpad s1 s2 Hlow Hblank) in Hfate2.
      destruct (removable (outcome_of launchpad s1)); [|done].
      destruct Hfate1 as (Hout1 & entry1 & Hentry1 & Hin1').
      destruct Hfate2 as (Hout2 & entry2 & Hentry2 & Hin2').
      split; [done|]. split; [done|]. by exists entry1, entry2.
  - intros s1 s2 o1 o2 Hlow Hblank Ho1%has_outcome_iff Ho2%has_outcome_iff.
    subst o1 o2. by apply outcome_of_case_variants.
Qed.

Lemma classified_once_per_spelling_witness :
  Forall is_record case_variant_feeds ∧
  ∃ checked valid removed nf w',
    @validate_memberships Reference.runtime (JArr case_variant_feeds)
      open_launchpad quiet_world
    = (Ok (valid, removed, nf), w') ∧
    NoDup checked ∧
    (∀ s, s ∈ checked ↔
          (@selected Reference.runtime s ∧
           ∃ feed, feed ∈ case_variant_feeds ∧ nick_of feed = Some s)) ∧
    (scenario_record "Bob" "Bob" ∉ valid) ∧
    (scenario_record "Bob again" "bob" ∉ valid).
Proof.
  assert (Forall is_record case_variant_feeds) as Hrec.
  { repeat constructor; eexists; reflexivity. }
  split; [exact Hrec|].
  destruct (proj1 (classified_once_per_spelling Reference.runtime open_launchpad)
              case_variant_feeds quiet_world Hrec)
    as (checked & valid & removed & nf & w' & Hrun & Hnd & Hsel & _ & Hfate).
  exists checked, valid, removed, nf, w'.
  split; [exact Hrun|]. split; [exact Hnd|]. split; [exact Hsel|].
  assert (scenario_record "Bob" "Bob" ∈ case_variant_feeds) as Hin1
    by (apply elem_of_cons; by left).
  assert (scenario_record "Bob again" "bob" ∈ case_variant_feeds) as Hin2
    by (apply elem_of_cons; right; apply elem_of_cons; by left).
  destruct (Hfate _ _ "Bob" "bob" Hin1 Hin2 eq_refl eq_refl eq_refl
              ltac:(split; discriminate)) as (o & Ho1 & _ & Hboth).
  apply (@has_outcome_iff Reference.runtime) in Ho1. subst o.
  exact (conj (proj1 Hboth) (proj1 (proj2 Hboth))).
Defined.

(** ** C5: a write that fails *)

(** C5, as stated, fails: when the device takes ten more bytes, the run
    over the scenario aborts in [save_feeds] and leaves the first ten
    bytes of the new text in the data file, not the original. *)
Lemma failed_write_keeps_original_counterexample :
  let run := @main Reference.runtime (mkArgs false [] false)
               scenario_launchpad full_disk_world in
  run.1 = Raise OSError ∧
  files run.2 !! FEEDS_FILE
  = Some (String.substring 0 10
            (Reference.dumps (JArr [scenario_record "Alice" "alice"]))) ∧
  files run.2 !! FEEDS_FILE ≠ files full_disk_world !! FEEDS_FILE.
Proof.
  cbv zeta. split_and!; try (vm_compute; reflexivity).
  vm_compute. discriminate.
Qed.

Section FailedWrite.
Context `{rt : Runtime}.

Lemma save_feeds_fails_run feeds w q :
  disk_quota w = Some q →
  q < String.length (json_dumps feeds +:+ newline) →
  ∃ w',
    save_feeds feeds w = (Raise OSError, w') ∧
    files w'
    = <[FEEDS_FILE := String.substring 0 q (json_dumps feeds +:+ newline)]>
        (files w) ∧
    stdout w' = stdout w ∧ lookups w' = lookups w.
Proof.
  intros Hq Hlt.
  rewrite length_append in Hlt. change (String.length newline) with 1 in Hlt.
  unfold save_feeds, bind, fs_open_w, fs_write. world_simpl. rewrite Hq.
  destruct (decide (String.length (json_dumps feeds) ≤ q)) as [Hle|Hgt]; world_simpl.
  - assert (q = String.length (json_dumps feeds)) as -> by lia.
    rewrite decide_False by (change (String.length newline) with 1; lia).
    world_simpl. eexists. split; [reflexivity|]. world_simpl.
    split; [|done]. rewrite !lookup_insert_eq, !insert_insert_eq. world_simpl.
    rewrite substring_0_append, substring_0_length by done.
    rewrite Nat.sub_diag. change (String.substring 0 0 newline) with "".
    by rewrite append_empty_r.
  - eexists. split; [reflexivity|]. world_simpl. split; [|done].
    rewrite !lookup_insert_eq, !insert_insert_eq. world_simpl.
    by rewrite substring_0_append by lia.
Qed.

Lemma main_failed_write_run args launchpad w text items q :
  check args = [] → dry_run args = false →
  files w !! FEEDS_FILE = Some text →
  json_loads text = Some (JArr items) →
  Forall is_record items → Forall has_name items →
  omap (entry_for launchpad) items ≠ [] →
  disk_quota w = Some q →
  q < String.length
        (json_dumps (JArr (filter (λ feed, entry_for launchpad feed = None) items))
         +:+ newline) →
  let run := main args launchpad w in
  run.1 = Raise OSError ∧
  files run.2
  = <[FEEDS_FILE :=
        String.substring 0 q
          (json_dumps (JArr (filter (λ feed, entry_for launchpad feed = None)
                                    items)) +:+ newline)]> (files w) ∧
  stdout run.2 = stdout w.
Proof.
  intros Hcheck Hdry Htext Hjson Hall Hnames Hne Hq Hlt.
  destruct (main_validation_run args launchpad w text items
              Hcheck Htext Hjson Hall) as (nicks & t & _ & Hmain).
  set (w1 := add_lookups (lookups_for launchpad nicks) w) in *.
  destruct (save_feeds_fails_run
              (JArr (filter (λ feed, entry_for launchpad feed = None) items))
              w1 q Hq Hlt) as (w2 & Hsave & Hfiles & Hstdout & _).
  assert (main args launchpad w = (Raise OSError, w2)) as ->.
  { rewrite Hmain. cbv zeta.
    pose proof (removed_entries_have_names launchpad items Hnames) as Hlisted.
    destruct (omap (entry_for launchpad) items) as [|entry removed] eqn:Hremoved;
      [done|].
    unfold bind at 1, lift at 1. rewrite (list_removed_ok _ Hlisted), Hdry.
    unfold bind at 1. by rewrite Hsave. }
  cbv zeta. by split_and!.
Qed.

End FailedWrite.

(** C5, amended.  The write is not atomic.  [save_feeds] empties the
    data file when it opens it, and a write that the device refuses part
    of the way raises [OSError] and leaves in the file the bytes of the
    new text written so far, whatever the file held before.  In a normal
    run with something to remove the error ends the run: the data file
    holds that part of the new text, the report file and every other
    file are as they were, and no signal is printed. *)
Theorem failed_write_leaves_prefix :
  ∀ (rt : Runtime),
    (∀ (feeds : json) (w : World) (q : nat),
       disk_quota w = Some q →
       q < String.length (json_dumps feeds +:+ newline) →
       let run := save_feeds feeds w in
       run.1 = Raise OSError ∧
       files run.2 !! FEEDS_FILE
       = Some (String.substring 0 q (json_dumps feeds +:+ newline))) ∧
    (∀ (args : Args) (launchpad : Launchpad) (w : World) (text : string)
       (items : list json) (q : nat),
       check args = [] → dry_run args = false →
       files w !! FEEDS_FILE = Some text →
       json_loads text = Some (JArr items) →
       Forall is_record items → Forall has_name items →
       omap (entry_for launchpad) items ≠ [] →
       disk_quota w = Some q →
       let new_text :=
         json_dumps (JArr (filter (λ feed, entry_for launchpad feed = None) items))
         +:+ newline in
       q < String.length new_text →
       let run := main args launchpad w in
       run.1 = Raise OSError ∧
       files run.2 !! FEEDS_FILE = Some (String.substring 0 q new_text) ∧
       files run.2 !! PR_BODY_FILE = files w !! PR_BODY_FILE ∧
       (∀ path, path ≠ FEEDS_FILE → files run.2 !! path = files w !! path) ∧
       stdout run.2 = stdout w).
Proof.
  intros rt. split.
  - intros feeds w q Hq Hlt. by apply save_feeds_fails.
  - intros args launchpad w text items q Hcheck Hdry Htext Hjson Hall Hnames
      Hne Hq new_text Hlt.
    pose proof (main_failed_write_run args launchpad w text items q Hcheck Hdry
                  Htext Hjson Hall Hnames Hne Hq Hlt) as Hrun.
    cbv zeta in *. destruct Hrun as (Hraise & Hfiles & Hstdout).
    split; [done|]. rewrite Hfiles. split; [by rewrite lookup_insert_eq|].
    split; [by rewrite lookup_insert_ne by discriminate|].
    split; [|done]. intros path Hpath. by rewrite lookup_insert_ne.
Qed.

Lemma failed_write_leaves_prefix_witness :
  let feeds := JArr [scenario_record "Alice" "alice"] in
  let run := @save_feeds Reference.runtime feeds full_disk_world in
  let run' := @main Reference.runtime (mkArgs false [] false)
                scenario_launchpad full_disk_world in
  disk_quota full_disk_world = Some 10 ∧
  10 < String.length (@json_dumps Reference.runtime feeds +:+ newline) ∧
  run.1 = Raise OSError ∧
  files run.2 !! FEEDS_FILE
  = Some (String.substring 0 10 (@json_dumps Reference.runtime feeds +:+ newline)) ∧
  run'.1 = Raise OSError ∧
  files run'.2 !! PR_BODY_FILE = None ∧
  stdout run'.2 = [].
Proof.
  intros feeds run run'.
  assert (10 < String.length (@json_dumps Reference.runtime feeds +:+ newline))
    as Hlt by (vm_compute; lia).
  split; [reflexivity|]. split; [exact Hlt|].
  destruct (proj1 (failed_write_leaves_prefix Reference.runtime) feeds
              full_disk_world 10 eq_refl Hlt) as (Hraise & Hfile).
  split; [exact Hraise|]. split; [exact Hfile|].
  assert (Forall is_record scenario_feeds) as Hrec
    by (repeat constructor; eexists; reflexivity).
  assert (Forall has_name scenario_feeds) as Hnames
    by (repeat constructor; eexists; (split; [reflexivity|eexists; reflexivity])).
  assert (omap (@entry_for Reference.runtime scenario_launchpad) scenario_feeds ≠ [])
    as Hne by (vm_compute; discriminate).
  pose proof (proj2 (failed_write_leaves_prefix Reference.runtime)
                (mkArgs false [] false) scenario_launchpad full_disk_world
                (Reference.dumps (JArr scenario_feeds) +:+ newline)
                scenario_feeds 10 eq_refl eq_refl eq_refl
                ltac:(vm_compute; reflexivity) Hrec Hnames Hne eq_refl) as Hmain.
  cbv zeta in Hmain.
  destruct (Hmain ltac:(vm_compute; lia)) as (Hraise' & _ & Hbody & _ & Hstdout).
  split; [exact Hraise'|]. split; [exact Hbody|exact Hstdout].
Defined.

(** ** C9: saving and loading again *)

Section SaveAndLoad.
Context `{rt : Runtime}.

Lemma load_after_save v w1 :
  disk_quota w1 = None →
  let run := save_feeds v w1 in
  run.1 = Ok tt ∧
  files run.2 = <[FEEDS_FILE := json_dumps v +:+ newline]> (files w1) ∧
  load_feeds run.2
  = (match json_loads (json_dumps v +:+ newline) with
     | Some v' => Ok v'
     | None => Raise JSONDecodeError
     end, run.2).
Proof.
  intros Hquota run. subst run. rewrite (save_feeds_run v w1 Hquota).
  split; [done|]. split; [done|].
  unfold load_feeds, bind, fs_read, ret, raise. world_simpl.
  rewrite lookup_insert_eq. by destruct (json_loads _).
Qed.

Lemma no_removal_keeps_all items valid nf launchpad w w' :
  Forall is_record items →
  validate_memberships (JArr items) launchpad w = (Ok (valid, [], nf), w') →
  valid = items.
Proof.
  intros Hall Hrun.
  destruct (validate_memberships_run items launchpad w Hall)
    as (nicks & t & Hrun' & _).
  rewrite Hrun' in Hrun. injection Hrun as Hvalid Hremoved _ _.
  rewrite <- Hvalid. by apply omap_nil_filter.
Qed.

End SaveAndLoad.


